(* ===== verification/_CoqProject ===== *)
-Q . S2P
Prelude.v
JsCore.v
Effects.v
JsNum.v
Escape.v
CsvExport.v
VoterForm.v
VoterTable.v
VoterDetails.v
VoterPaging.v
Households.v
WorkerInit.v
Navigation.v
Modals.v
Login.v
Admin.v
ActivityFeed.v
Filters.v
WardMap.v
Chatbot.v
WorkerForms.v
CommandCentre.v
CampaignHub.v
BoothStrategy.v
Charts.v
News.v
