(* ===== verification/Prelude.v ===== *)
(** * JanPath dashboard scripts: a verification development

    The repository is the client side of a campaign-management dashboard:
    six browser scripts under [src/static/js/] that wire forms, tables,
    modal dialogs and a chat widget to a JSON/HTTP backend that is not part
    of the repository.  The scripts share no module system; they talk to
    each other through the DOM, through global variables and through the
    backend.  The parts that carry logic are pure string functions (HTML
    escaping, CSV export, validation), small state machines driven by DOM
    events (modals, pagination, the activity feed), and the top-level
    initialisation of each script, which may throw.

    Layout (files in [_CoqProject] order; each file opens with a comment
    on what it models and proves):
    - [Prelude]     (this file) the notation scope [jp_scope], the Ltac
                    tactics, the hint databases [jp] and [jp_rw], and
                    generic lemmas on strings (append, cancellation,
                    membership).
    - [JsCore]      the JavaScript runtime the scripts call, modelled from
                    the ECMAScript definitions: JSON values ([jsval]) and
                    objects (stdpp [gmap]), parsed bodies ([jbody]: array,
                    object or primitive) with [x.length] and property reads
                    that throw on [null], [String(v)], [??], [||],
                    truthiness, [trim], [toLowerCase], [includes] (with
                    its characterisation as substring), and the fragment
                    of regular expressions the scripts use.  Strings are
                    [String.string] over the code units 0..255.
    - [Effects]     the state and exception monad of the [async] handlers
                    ([M], an stdpp [MBind] instance), [try_catch], calls
                    that are not awaited ([detach]), the openings of a
                    [fetch] ([fetch_json], [fetch_ok]), and the frame
                    lemmas ([preserves]) with the tactic [frame].
    - [JsNum]       numbers where the scripts divide: rationals with [NaN]
                    and infinities, [Math.round] and [toFixed].
    - [Escape]      [safe] (worker.js 274-276), the two affiliation
                    classifiers (worker.js [formatAffiliation], candidate.js
                    [getAffiliationClass]); the contract of an HTML escaper
                    is the class [HtmlEscaper], discharged by [safe]'s
                    escaper.
    - [CsvExport]   candidate.js [jsonToCsv], read back by an RFC 4180
                    reader written from the RFC (a state machine over the
                    characters).
    - [VoterForm]   the voter detail form of worker.js: [validateField],
                    [setError], [updateSaveState], the input listeners and
                    [saveVoterDetails]'s body and outcome.
    - [VoterTable]  worker.js [renderVoterRows] (proved against any
                    [HtmlEscaper], in a Section) and the rows of
                    candidate.js [applyVoterFilters].
    - [VoterDetails] worker.js [toggleDetailsRow]: the details row that
                    opens under a voter, its grid and [formatValue].
    - [VoterPaging] worker.js [fetchVoters] and the pagination controls as
                    a step relation whose requests are answered in any order
                    (or in order); the backend is the class [VoterApi].
    - [Households]  worker.js [renderHouseholds] and its controls.
    - [WorkerInit]  the top-level statements of worker.js in an exception
                    monad ([stmt], [seq], [when]) over the installed
                    listeners.
    - [Navigation]  the three copies of [showSection] (main.js, worker.js,
                    candidate.js) over a document of elements and links.
    - [Modals]      script.js: the role and login modals as a step relation
                    on the modals' display, the title and the stored role;
                    each listener a computation of [Effects]' monad, so a
                    throw keeps the effects before it.
    - [Login]       login.js: the submit listener as its list of effects.
    - [Admin]       admin.js: each handler as a function from what it reads
                    (fields, prompt and confirm answers) to its effects.
    - [ActivityFeed] candidate.js [addActivityItem], [loadActivityFeed] and
                    [startLiveActivityFeed]: the list of items, the
                    trimming loop with fuel, the stream and the polling as
                    a step relation with the pending first load.
    - [Filters]     candidate.js [applyVoterFilters]' query string (the
                    [URLSearchParams] serializer of the WHATWG URL standard,
                    UTF-8 and percent-encoding), [resetFilters] and
                    [saveSegment]; the server's parser, from the same
                    standard, is the specification it is read with.
    - [WardMap]     candidate.js [loadWardMap]: the CSV text split into
                    lines and fields, [parseFloat]'s NaN, Leaflet's throw
                    on a NaN coordinate and the catch that replaces the map
                    with the error text.
    - [Chatbot]     candidate.js 1014-1090: the chat window, the posts in
                    flight answered in any order, every listener a step.
    - [WorkerForms] worker.js 508-688: the task, message and report panels,
                    one loader and one state machine in Sections,
                    instantiated three times; the task controls; Enter to
                    search.
    - [CommandCentre] candidate.js 65-236: the KPI cards, the overdue,
                    booth-performance and segment lists (one loader in a
                    Section) and the top-issues chart, as handlers of [M].
    - [CampaignHub] candidate.js 531-677: the hub's tasks table, segment
                    dropdown, tabs and its two forms.
    - [BoothStrategy] candidate.js 682-816: the booth grid, the add/edit
                    modal, saving, deleting and the slips alert.
    - [Charts]      candidate.js 398-450 and 822-976: [applyVoterFilters]
                    (the voter list, then the charts for the same query),
                    the analytics counts and charts, and [exportVoters],
                    composed from Filters' serializer and CsvExport's
                    [jsonToCsv].
    - [News]        candidate.js 1-16 and 310-352: the dashboard's start-up
                    and the news feed.

    How the parts interact: every script reads the DOM the templates build
    and the backend's JSON answers; both are inputs of the model (records of
    the elements a page has, [option] answers where a request can fail).
    Handlers are functions on an explicit state, composed in the order the
    browser runs them (the target's listener, then the [window] listeners;
    a request, then its answer as a separate event); a handler that throws
    returns [None] or an exception value, with the state it had reached.
    The [async] handlers of candidate.js are terms of the monad of
    [Effects], run with the answers of their requests as parameters; a
    call nobody awaits keeps its effects and loses its exception.

    What the theorems show, by group: escaping is markup-free and decodes
    back (Escape); the CSV round trip, and that no export holding an
    unquoted line break reads back (CsvExport);
    the mobile pattern, the Save button's invariant and what an enabled
    button sends (VoterForm); row shape and inertness for the worker, raw
    markup for the candidate (VoterTable); page bounds, the in-order
    refinement and the out-of-order and Next-overshoot traces (VoterPaging);
    paging partitions the list and the filter's specification with its
    TypeError (Households); the ReferenceError of worker.js line 483
    (WorkerInit); what each copy of [showSection] shows and marks, and when
    they agree (Navigation); the modals' invariant over every reachable
    state, Escape, the role flow and the TypeError without a role modal
    (Modals); the login routing (Login); the guards of the admin actions,
    in the code's own conditions (Admin); termination of the trimming loop, the 30-item bound over every
    reachable state, the order a load shows and the lost streamed item
    (ActivityFeed); the query round trip through the standard's parser, its
    alphabet, and the filters a saved segment drops (Filters); the markers
    of a well-formed ward file, and the error text that one line with a
    non-numeric coordinate, such as a quoted name with a comma, puts in
    place of the whole map (WardMap); one
    answer bubble per question over every reachable chat (Chatbot); forms
    reset on any status, and shown rows escaped over every reachable panel
    (WorkerForms); the KPI percentage between 0 and 100 and its NaN and
    Infinity cases (CommandCentre); a task posted as Pending and reset only
    on success, the default option of the dropdown (CampaignHub); PUT or
    POST by the modal's mode and the server's error text (BoothStrategy);
    one query for the list and the charts, the null-affiliations 'Err' and
    the export as the composition of the query and the CSV (Charts); the
    start-up's ReferenceError (News); the details row's toggle and
    [formatValue] (VoterDetails).

    Bounds and fuel: the activity list's loop gets as fuel the length of
    the list, which [trim_loop_spec] shows is more than the removals it
    makes (it needs one more than the items past 30).  Integers the scripts
    compute with (pages, counts) are [Z] or [nat] without a width: the
    values stay far below 2^53, where JavaScript numbers are exact.

    Not modelled: DOM layout and CSS, the HTML fixed around the cells of
    the worker tables, Chart.js options beyond type, labels, data and
    colours, Leaflet beyond the throw of [L.marker] on a NaN coordinate
    (the map's tiles, view and popups), the value [parseFloat] returns
    (only whether it is NaN), date and number formatting by the locale
    ([toLocaleString], [toLocaleTimeString], parameters where a value is
    printed), the text of browser error messages (parameters), and the
    backend, whose answers are parameters.  Numbers that are divided are
    exact rationals ([JsNum]): ties that binary doubles round differently
    are not modelled. *)

From stdpp Require Import base list.
From Stdlib Require Import Ascii String Lia.

(** ** Notation *)

Declare Scope jp_scope.
Delimit Scope jp_scope with jp.

Notation "c ::: s" := (String c s) (at level 60, right associativity) : jp_scope.
Notation "s1 +s+ s2" := (String.append s1 s2) (at level 60, right associativity) : jp_scope.

Open Scope jp_scope.

(** The double-quote character, written by its code so that no string
    literal of the development holds a doubled quote. *)
Definition dq : ascii := "034"%char.

(** The one-character string. *)
Definition str1 (c : ascii) : string := String c EmptyString.

(** A line break, and a value between double quotes, for the templates. *)
Definition nl : string := str1 "010"%char.
Definition quote (s : string) : string := str1 dq +s+ s +s+ str1 dq.

(** ** Tactics *)

Create HintDb jp.
Create Rewrite HintDb jp_rw.

(** Split conjunctions and disjunctions of booleans in hypotheses. *)
Ltac bool_hyps :=
  repeat match goal with
    | H : (_ && _)%bool = true |- _ => apply andb_true_iff in H as [? ?]
    | H : (_ || _)%bool = false |- _ => apply orb_false_iff in H as [? ?]
    | H : negb _ = true |- _ => apply negb_true_iff in H
    | H : negb _ = false |- _ => apply negb_false_iff in H
    end.

(** Rewrite the goal with every boolean fact of the context. *)
Ltac rewrite_bools :=
  repeat match goal with
    | H : ?b = false |- context [?b] => rewrite H
    | H : ?b = true |- context [?b] => rewrite H
    end.

(** Case on the first boolean condition of the goal, keeping its equation. *)
Ltac case_if :=
  match goal with
  | |- context [if ?b then _ else _] => destruct b eqn:?
  end.

(** ** Strings as sequences of characters *)

Fixpoint str_forall (p : ascii -> bool) (s : string) : bool :=
  match s with
  | EmptyString => true
  | c ::: r => p c && str_forall p r
  end.

Fixpoint str_mem (c : ascii) (s : string) : Prop :=
  match s with
  | EmptyString => False
  | d ::: r => d = c \/ str_mem c r
  end.

(** [String.append] is declared [simpl never]: these two equations
    compute it, and [str_simpl] applies them. *)
Lemma str_app_nil_l (a : string) : EmptyString +s+ a = a.
Proof. reflexivity. Qed.

Lemma str_app_cons c (a b : string) : (c ::: a) +s+ b = c ::: (a +s+ b).
Proof. reflexivity. Qed.

Ltac str_simpl := repeat rewrite ?str_app_cons, ?str_app_nil_l; simpl.

Lemma str_app_assoc (a b c : string) : (a +s+ b) +s+ c = a +s+ (b +s+ c).
Proof. induction a; simpl; congruence. Qed.

Lemma str_app_nil_r (a : string) : a +s+ EmptyString = a.
Proof. induction a; simpl; congruence. Qed.

Lemma str_length_app (a b : string) :
  String.length (a +s+ b) = String.length a + String.length b.
Proof. induction a; simpl; lia. Qed.

Lemma str_forall_app p (a b : string) :
  str_forall p (a +s+ b) = str_forall p a && str_forall p b.
Proof. induction a; simpl; [done|]. rewrite IHa. by destruct (p a). Qed.

Lemma str_forall_spec p (s : string) :
  str_forall p s = true <-> (forall c, str_mem c s -> p c = true).
Proof.
  induction s as [|d r IH]; simpl; [naive_solver|].
  rewrite andb_true_iff, IH. naive_solver.
Qed.

Lemma str_forall_cons p c (s : string) : str_forall p (c ::: s) = p c && str_forall p s.
Proof. reflexivity. Qed.

Lemma str_forall_impl (p q : ascii -> bool) (s : string) :
  (forall c, p c = true -> q c = true) -> str_forall p s = true -> str_forall q s = true.
Proof.
  intros Hpq. induction s as [|c r IH]; simpl; [done|].
  rewrite !andb_true_iff. intros [Hc Hr]. split; auto.
Qed.

Lemma str_mem_app c (a b : string) : str_mem c (a +s+ b) <-> str_mem c a \/ str_mem c b.
Proof. induction a; simpl; naive_solver. Qed.

Lemma list_ascii_of_string_app (a b : string) :
  list_ascii_of_string (a +s+ b) = list_ascii_of_string a ++ list_ascii_of_string b.
Proof. induction a; simpl; congruence. Qed.

Lemma string_of_list_ascii_app (l1 l2 : list ascii) :
  string_of_list_ascii (l1 ++ l2) = string_of_list_ascii l1 +s+ string_of_list_ascii l2.
Proof. induction l1; simpl; congruence. Qed.

Lemma length_list_ascii_of_string (s : string) :
  List.length (list_ascii_of_string s) = String.length s.
Proof. induction s; simpl; auto. Qed.

Lemma length_string_of_list_ascii (l : list ascii) :
  String.length (string_of_list_ascii l) = List.length l.
Proof. induction l; simpl; auto. Qed.

Lemma str_app_inv_l (a b c : string) : a +s+ b = a +s+ c -> b = c.
Proof. induction a; simpl; [done|]. intros H. injection H. auto. Qed.

Lemma str_app_inv_r (a b c : string) : a +s+ c = b +s+ c -> a = b.
Proof.
  intros H. apply (f_equal list_ascii_of_string) in H. rewrite !list_ascii_of_string_app in H.
  apply app_inv_tail in H. rewrite <- (string_of_list_ascii_of_string a), <- (string_of_list_ascii_of_string b).
  by f_equal.
Qed.

#[export] Hint Rewrite str_app_nil_l str_app_cons str_app_assoc str_app_nil_r str_length_app str_forall_app
  list_ascii_of_string_app string_of_list_ascii_app : jp_rw.
