(* ===== verification/JsCore.v ===== *)
(** * The JavaScript runtime used by the scripts

    The built-in operations of the language that the dashboard scripts
    call, written from their ECMAScript definitions: JSON values and
    [String(v)], nullish coalescing [??], truthiness and [||],
    [String.prototype.trim], [toLowerCase] and [includes], and property
    lookup on a parsed JSON object.  These are not code of the repository;
    they are the semantics the repository's code is run with.

    Characters are the UTF-16 code units 0..255 (Latin-1).  [trim] removes
    exactly the ECMAScript WhiteSpace and LineTerminator units of that
    range (9-13, 32, 160); [toLowerCase] maps exactly the units that
    Unicode lowercases in that range (A-Z and 192-222 except 215).
    Numbers are integers: the scripts only ever print ids, ages and
    counts. *)

From stdpp Require Import base list strings gmap.
From Stdlib Require Import Ascii String ZArith DecimalString DecimalPos Lia.
From S2P Require Import Prelude.

Open Scope jp_scope.

(** ** JSON values *)

Inductive jsval :=
| JUndefined
| JNull
| JBool (b : bool)
| JNum (z : Z)
| JStr (s : string).

#[export] Instance jsval_eq_dec : EqDecision jsval.
Proof. solve_decision. Defined.

(** A record parsed from a JSON response: missing properties read as
    [undefined]. *)
Abbreviation jsobj := (gmap string jsval).

Definition get (o : jsobj) (k : string) : jsval := default JUndefined (o !! k).

(** [String(v)] *)
Definition to_js_string (v : jsval) : string :=
  match v with
  | JUndefined => "undefined"
  | JNull => "null"
  | JBool true => "true"
  | JBool false => "false"
  | JNum z => NilEmpty.string_of_int (Z.to_int z)
  | JStr s => s
  end.

Definition nullish (v : jsval) : bool :=
  match v with JUndefined | JNull => true | _ => false end.

(** [a ?? b] *)
Definition coalesce (a b : jsval) : jsval := if nullish a then b else a.
Notation "a ?? b" := (coalesce a b) (at level 50, left associativity) : jp_scope.

Definition truthy (v : jsval) : bool :=
  match v with
  | JUndefined | JNull => false
  | JBool b => b
  | JNum z => negb (Z.eqb z 0)
  | JStr s => negb (String.eqb s EmptyString)
  end.

(** [a || b] *)
Definition js_or (a b : jsval) : jsval := if truthy a then a else b.

(** A string is truthy when it is not empty. *)
Definition str_truthy (s : string) : bool := negb (String.eqb s EmptyString).

(** A parsed response body as the scripts use it: an array of items of
    some shape [E], an object, or a primitive. *)
Inductive jbody (E : Type) := BArray (l : list E) | BObject (o : jsobj) | BPrim (v : jsval).
Arguments BArray {E} l.
Arguments BObject {E} o.
Arguments BPrim {E} v.

(** An element of a parsed array: an object or a primitive. *)
Inductive jelem := EObj (o : jsobj) | EPrim (v : jsval).

(** [x.k]: [None] throws, on [null] and [undefined]; a primitive of
    another type has none of the properties the scripts read. *)
Definition prop (e : jelem) (k : string) : option jsval :=
  match e with
  | EObj o => Some (get o k)
  | EPrim v => if nullish v then None else Some JUndefined
  end.

(** [x.length]: [None] throws (on [null] and [undefined]); a string's
    length is counted in bytes here, which differs from JS only in being
    zero for the same strings. *)
Definition js_length {E} (b : jbody E) : option jsval :=
  match b with
  | BArray l => Some (JNum (Z.of_nat (List.length l)))
  | BObject o => Some (get o "length")
  | BPrim v =>
      match v with
      | JNull | JUndefined => None
      | JStr s => Some (JNum (Z.of_nat (String.length s)))
      | _ => Some JUndefined
      end
  end.

(** The array a [forEach] or [map] runs on: [None] throws. *)
Definition as_array {E} (b : jbody E) : option (list E) :=
  match b with BArray l => Some l | _ => None end.

(** ** Characters *)

Definition code (c : ascii) : N := N_of_ascii c.

Definition is_js_space (c : ascii) : bool :=
  existsb (N.eqb (code c)) [9; 10; 11; 12; 13; 32; 160]%N.

Definition is_upper (c : ascii) : bool :=
  let n := code c in
  ((65 <=? n) && (n <=? 90))%N || ((192 <=? n) && (n <=? 222) && negb (n =? 215))%N.

Definition to_lower_char (c : ascii) : ascii :=
  if is_upper c then ascii_of_N (code c + 32) else c.

(** ** String methods *)

Fixpoint trim_start (s : string) : string :=
  match s with
  | EmptyString => EmptyString
  | c ::: r => if is_js_space c then trim_start r else s
  end.

Fixpoint trim_end (s : string) : string :=
  match s with
  | EmptyString => EmptyString
  | c ::: r =>
      let r' := trim_end r in
      if is_js_space c && String.eqb r' EmptyString then EmptyString else c ::: r'
  end.

(** [s.trim()] *)
Definition trim (s : string) : string := trim_end (trim_start s).

(** [s.toLowerCase()] *)
Fixpoint to_lower (s : string) : string :=
  match s with
  | EmptyString => EmptyString
  | c ::: r => to_lower_char c ::: to_lower r
  end.

(** [s.includes(t)] *)
Fixpoint includes (s t : string) : bool :=
  String.prefix t s ||
  match s with
  | EmptyString => false
  | _ ::: r => includes r t
  end.

(** ** Regular expressions *)

(** The fragment of the regular expressions the scripts use: a character
    range [[lo-hi]], concatenation, and an exact repetition [r{n}].
    [rmatch r l] lists the suffixes of [l] left after [r] matched a
    prefix, in the order the backtracking matcher tries them. *)
Inductive regex := RRange (lo hi : ascii) | RSeq (r1 r2 : regex) | RRep (r : regex) (n : nat).

Definition in_range (lo hi c : ascii) : bool := ((code lo <=? code c) && (code c <=? code hi))%N.

Fixpoint rep (m : list ascii -> list (list ascii)) (k : nat) (l : list ascii) : list (list ascii) :=
  match k with
  | 0 => [l]
  | S k' => flat_map (rep m k') (m l)
  end.

Fixpoint rmatch (r : regex) (l : list ascii) : list (list ascii) :=
  match r with
  | RRange lo hi => match l with c :: t => if in_range lo hi c then [t] else [] | [] => [] end
  | RSeq r1 r2 => flat_map (rmatch r2) (rmatch r1 l)
  | RRep r1 n => rep (rmatch r1) n l
  end.

(** [/^r$/.test(s)]: some match of [r] consumes the whole string. *)
Definition regex_test (r : regex) (s : string) : bool :=
  existsb (fun t => match t with [] => true | _ => false end) (rmatch r (list_ascii_of_string s)).

(** ** Lemmas *)

(** [String(n)] of a number always has a digit. *)
Lemma num_string_nonempty z : to_js_string (JNum z) <> EmptyString.
Proof.
  destruct z as [|p|p]; cbn; try discriminate.
  pose proof (DecimalPos.Unsigned.to_uint_nonnil p) as H.
  destruct (Pos.to_uint p); cbn; congruence.
Qed.

(** A truthy value prints as a non-empty string. *)
Lemma truthy_string v : truthy v = true -> str_truthy (to_js_string v) = true.
Proof.
  destruct v as [| |[]|z|s]; simpl; try done.
  intros _. unfold str_truthy. apply negb_true_iff, String.eqb_neq, num_string_nonempty.
Qed.

Lemma trim_start_app_nonspace (a b : string) :
  str_forall is_js_space a = true -> trim_start (a +s+ b) = trim_start b.
Proof.
  induction a as [|c r IH]; simpl; [done|].
  intros [Hc Hr]%andb_true_iff. rewrite Hc. auto.
Qed.

Lemma trim_end_nil_iff (s : string) :
  trim_end s = EmptyString <-> str_forall is_js_space s = true.
Proof.
  induction s as [|c r IH]; simpl; [done|].
  destruct (is_js_space c) eqn:Hc, (String.eqb_spec (trim_end r) EmptyString);
    simpl; rewrite <- ?IH; naive_solver.
Qed.

Lemma trim_nil_iff (s : string) :
  trim s = EmptyString <-> str_forall is_js_space s = true.
Proof.
  unfold trim. rewrite trim_end_nil_iff.
  induction s as [|c r IH]; simpl; [done|].
  destruct (is_js_space c) eqn:Hc; simpl; rewrite ?Hc; simpl; [exact IH|done].
Qed.

Lemma trim_end_idem (s : string) : trim_end (trim_end s) = trim_end s.
Proof.
  induction s as [|c r IH]; simpl; [done|].
  destruct (is_js_space c && String.eqb (trim_end r) EmptyString) eqn:E; [done|].
  simpl. rewrite IH, E. done.
Qed.

Lemma trim_start_trim_end (s : string) : trim_start (trim_end (trim_start s)) = trim_end (trim_start s).
Proof.
  induction s as [|c r IH]; simpl; [done|].
  destruct (is_js_space c) eqn:Hc; [done|]. simpl. rewrite Hc. simpl. by rewrite Hc.
Qed.

(** Trimming twice is trimming once. *)
Lemma trim_idem (s : string) : trim (trim s) = trim s.
Proof. unfold trim. rewrite trim_start_trim_end. apply trim_end_idem. Qed.

Lemma prefix_nil_l (s : string) : String.prefix EmptyString s = true.
Proof. by destruct s. Qed.

Lemma includes_nil (s : string) : includes s EmptyString = true.
Proof. destruct s; reflexivity. Qed.

Lemma prefix_app (a b : string) : String.prefix a (a +s+ b) = true.
Proof.
  induction a as [|c r IH]; simpl; [by destruct b|].
  destruct (ascii_dec c c); [done|congruence].
Qed.

Lemma includes_app_r (a b t : string) : includes b t = true -> includes (a +s+ b) t = true.
Proof. induction a; simpl; [auto|]. intros H. rewrite IHa by done. apply orb_true_r. Qed.

(** A string includes every string it is built around. *)
Lemma includes_middle (a t b : string) : includes (a +s+ t +s+ b) t = true.
Proof.
  apply includes_app_r. destruct t; [apply includes_nil|]. simpl.
  destruct (ascii_dec a0 a0); [|congruence]. by rewrite prefix_app.
Qed.

Lemma rmatch_seq r1 r2 l : rmatch (RSeq r1 r2) l = flat_map (rmatch r2) (rmatch r1 l).
Proof. reflexivity. Qed.

Lemma rmatch_rep r n l : rmatch (RRep r n) l = rep (rmatch r) n l.
Proof. reflexivity. Qed.

Lemma rmatch_range_cons lo hi c t :
  rmatch (RRange lo hi) (c :: t) = if in_range lo hi c then [t] else [].
Proof. reflexivity. Qed.

(** [[lo-hi]{n}] consumes exactly [n] characters in the range. *)
Lemma rep_range lo hi n (l : list ascii) :
  rep (rmatch (RRange lo hi)) n l =
  if (n <=? List.length l) && forallb (in_range lo hi) (take n l) then [drop n l] else [].
Proof.
  revert l. induction n as [|n IH]; intros l; [done|].
  destruct l as [|c t]; [done|]. simpl.
  destruct (in_range lo hi c); simpl; [|by rewrite andb_false_r].
  rewrite app_nil_r, IH. done.
Qed.

Lemma prefix_spec (t s : string) : String.prefix t s = true <-> exists b, s = t +s+ b.
Proof.
  revert s. induction t as [|c r IH]; intros s.
  - split; [intros _; by exists s|intros _; apply prefix_nil_l].
  - destruct s as [|c' s']; simpl.
    + split; [discriminate|intros [b Hb]; discriminate].
    + destruct (ascii_dec c c') as [<-|Hne].
      * rewrite IH. split; intros [b Hb]; exists b; [by subst|by injection Hb].
      * split; [discriminate|intros [b Hb]; injection Hb; congruence].
Qed.

(** [s.includes(t)] holds exactly when [t] occurs in [s]. *)
Lemma includes_spec (s t : string) : includes s t = true <-> exists a b, s = a +s+ t +s+ b.
Proof.
  induction s as [|c r IH].
  - simpl. split.
    + intros Ht. exists EmptyString, EmptyString. by destruct t.
    + intros [a [b Hab]]. destruct a; [|discriminate]. by destruct t.
  - change (includes (c ::: r) t) with (String.prefix t (c ::: r) || includes r t).
    rewrite orb_true_iff, prefix_spec, IH. split.
    + intros [[b Hb]|[a [b ->]]]; [by exists EmptyString, b|by exists (c ::: a), b].
    + intros [[|c' a] [b Hab]]; [left; by exists b|right].
      injection Hab as <- ->. by exists a, b.
Qed.

Lemma includes_trans (s t u : string) : includes s t = true -> includes t u = true -> includes s u = true.
Proof.
  rewrite !includes_spec. intros (a & b & ->) (a' & b' & ->).
  exists (a +s+ a'), (b' +s+ b). by rewrite !str_app_assoc.
Qed.

#[export] Hint Resolve includes_nil includes_middle : jp.
