(* ===== verification/Effects.v ===== *)
(** * The state and exception monad of the candidate dashboard's handlers

    The [async] functions of candidate.js are sequences of DOM writes
    inside [try { ... } catch (error) { ... }]: a statement that throws
    (a rejected [await], a [throw new Error(..)], a property read on
    [undefined]) skips the rest of the [try] block, and the writes made
    before it stay.  [M S A] is that: a function of the page state [S]
    that returns a value or the exception, and the state reached.  It is
    an instance of stdpp's [MRet]/[MBind], so handlers are written with
    [x ← m; k] and [m ;; k].

    [fetch_json] is the opening shared by the loaders: [await fetch(..)],
    [if (!response.ok) throw new Error(msg)], [await response.json()]. *)

From stdpp Require Import base list strings.
From Stdlib Require Import String.
From S2P Require Import Prelude JsCore.

Inductive js_exn := TypeError | SyntaxError | Error (message : string).

Definition M (S A : Type) : Type := S -> (js_exn + A) * S.

#[export] Instance M_ret {S} : MRet (M S) := fun A a s => (inr a, s).
#[export] Instance M_bind {S} : MBind (M S) := fun A B f m s =>
  match m s with
  | (inl e, s') => (inl e, s')
  | (inr a, s') => f a s'
  end.

Definition raise {S A} (e : js_exn) : M S A := fun s => (inl e, s).
Definition get_state {S} : M S S := fun s => (inr s, s).
Definition modify {S} (f : S -> S) : M S unit := fun s => (inr (), f s).

(** [try { m } catch (e) { h(e) }] *)
Definition try_catch {S A} (m : M S A) (h : js_exn -> M S A) : M S A := fun s =>
  match m s with
  | (inl e, s') => h e s'
  | r => r
  end.

(** A call of an [async] function whose promise nobody awaits: its
    effects happen, its exception is lost. *)
Definition detach {S A} (m : M S A) : M S unit := fun s => (inr (), snd (m s)).

(** A handler of a part [T] of the page run on the whole page [S]. *)
Definition zoom {S T A} (get : S -> T) (set : T -> S -> S) (m : M T A) : M S A := fun s =>
  let '(r, t) := m (get s) in (r, set t s).

(** The final state of a handler whose exceptions are all caught. *)
Definition exec {S A} (m : M S A) (s : S) : S := snd (m s).

(** What a [fetch] gives: a rejection (network failure), or a response
    with its [ok] flag and its body, [None] when it is not JSON. *)
Inductive fetch_response (A : Type) := Rejected | Resp (ok : bool) (body : option A).
Arguments Rejected {A}.
Arguments Resp {A} ok body.

#[export] Instance response_eq_dec `{EqDecision A} : EqDecision (fetch_response A).
Proof. solve_decision. Defined.

Definition fetch_json {S A} (msg : string) (r : fetch_response A) : M S A :=
  match r with
  | Rejected => raise TypeError
  | Resp false _ => raise (Error msg)
  | Resp true None => raise SyntaxError
  | Resp true (Some a) => mret a
  end.

(** [await fetch(..)] and [if (!response.ok) throw new Error(msg)],
    the body left unread. *)
Definition fetch_ok {S A} (msg : string) (r : fetch_response A) : M S unit :=
  match r with
  | Rejected => raise TypeError
  | Resp false _ => raise (Error msg)
  | Resp true _ => mret ()
  end.

(** [await fetch(..)] and [await res.json()] without looking at [ok]. *)
Definition fetch_unchecked {S A} (r : fetch_response A) : M S A :=
  match r with
  | Rejected => raise TypeError
  | Resp _ None => raise SyntaxError
  | Resp _ (Some a) => mret a
  end.

Definition resp_ok {A} (r : fetch_response A) : bool := match r with Resp b _ => b | Rejected => false end.

(** A request a handler sends: method, url and JSON body. *)
Record request := Request { method : string; url : string; req_body : jsobj }.

(** A value read where the code reads a property of it: [None] is
    [undefined] or [null], on which the read throws. *)
Definition read {S A} (o : option A) : M S A :=
  match o with Some a => mret a | None => raise TypeError end.

(** ** Laws *)

Section Laws.
Context {S : Type}.

Lemma bind_ret {A B} (a : A) (f : A -> M S B) s : (mret a ≫= f) s = f a s.
Proof. done. Qed.

Lemma bind_raise {A B} e (f : A -> M S B) s : (raise e ≫= f) s = (inl e, s).
Proof. done. Qed.

Lemma bind_modify {B} g (f : unit -> M S B) s : (modify g ≫= f) s = f () (g s).
Proof. done. Qed.

Lemma bind_assoc {A B C} (m : M S A) (f : A -> M S B) (g : B -> M S C) s :
  ((m ≫= f) ≫= g) s = (m ≫= (fun a => f a ≫= g)) s.
Proof. unfold mbind, M_bind. by destruct (m s) as [[e|a] s']. Qed.

Lemma try_catch_ok {A} (m : M S A) h s a s' : m s = (inr a, s') -> try_catch m h s = (inr a, s').
Proof. unfold try_catch. by intros ->. Qed.

Lemma try_catch_exn {A} (m : M S A) h s e s' : m s = (inl e, s') -> try_catch m h s = h e s'.
Proof. unfold try_catch. by intros ->. Qed.

(** ** Frames: what a handler leaves alone *)

(** [m] does not change the part [p] of the state, whatever happens. *)
Definition preserves {T A} (p : S -> T) (m : M S A) : Prop := forall s, p (snd (m s)) = p s.

Lemma preserves_ret {T A} (p : S -> T) (a : A) : preserves p (mret a).
Proof. done. Qed.

Lemma preserves_raise {T A} (p : S -> T) e : preserves p (raise (A := A) e).
Proof. done. Qed.

Lemma preserves_modify {T} (p : S -> T) f : (forall s, p (f s) = p s) -> preserves p (modify f).
Proof. intros H s. apply H. Qed.

Lemma preserves_bind {T A B} (p : S -> T) (m : M S A) (f : A -> M S B) :
  preserves p m -> (forall a, preserves p (f a)) -> preserves p (m ≫= f).
Proof.
  intros Hm Hf s. unfold mbind, M_bind. specialize (Hm s).
  destruct (m s) as [[e|a] s']; simpl in *; [done|]. by rewrite Hf.
Qed.

Lemma preserves_try_catch {T A} (p : S -> T) (m : M S A) h :
  preserves p m -> (forall e, preserves p (h e)) -> preserves p (try_catch m h).
Proof.
  intros Hm Hh s. unfold try_catch. specialize (Hm s).
  destruct (m s) as [[e|a] s']; simpl in *; [by rewrite Hh|done].
Qed.

Lemma preserves_read {T A} (p : S -> T) (o : option A) : preserves p (read o).
Proof. by destruct o. Qed.

Lemma preserves_fetch_json {T A} (p : S -> T) msg (r : fetch_response A) : preserves p (fetch_json msg r).
Proof. by destruct r as [|[] [|]]. Qed.

Lemma preserves_detach {T A} (p : S -> T) (m : M S A) : preserves p m -> preserves p (detach m).
Proof. done. Qed.

Lemma preserves_fetch_ok {T A} (p : S -> T) msg (r : fetch_response A) : preserves p (fetch_ok msg r).
Proof. by destruct r as [|[] ?]. Qed.

Lemma preserves_fetch_unchecked {T A} (p : S -> T) (r : fetch_response A) : preserves p (fetch_unchecked r).
Proof. by destruct r as [|? []]. Qed.

Lemma preserves_get_state {T} (p : S -> T) : preserves p get_state.
Proof. done. Qed.

(** A [try] block that starts by writing [f]: whatever the rest throws,
    what the rest and the handler leave alone is what [f] wrote. *)
Lemma try_modify_frame {T A} (p : S -> T) f (k : M S A) h s :
  preserves p k -> (forall e, preserves p (h e)) -> p (snd (try_catch (modify f ;; k) h s)) = p (f s).
Proof.
  intros Hk Hh. unfold try_catch, mbind, M_bind, modify. simpl. specialize (Hk (f s)).
  destruct (k (f s)) as [[e|a] s']; simpl in *; [by rewrite Hh|done].
Qed.

(** A [try] whose [catch] block only writes never throws. *)
Lemma try_catch_modify_ok (m : M S unit) g s : fst (try_catch m (fun _ => modify g) s) = inr ().
Proof. unfold try_catch. by destruct (m s) as [[e|[]] s']. Qed.

Lemma preserves_if {T A} (p : S -> T) (b : bool) (m1 m2 : M S A) :
  preserves p m1 -> preserves p m2 -> preserves p (if b then m1 else m2).
Proof. by destruct b. Qed.

End Laws.

#[export] Hint Resolve preserves_ret preserves_raise preserves_read preserves_fetch_json
  preserves_fetch_ok preserves_fetch_unchecked preserves_get_state : jp.

(** Splits a handler into its statements and leaves the [modify]s. *)
Ltac frame :=
  repeat first
    [ solve [eauto with jp]
    | lazymatch goal with
      | |- preserves _ (_ ≫= _) => apply preserves_bind
      | |- preserves _ (try_catch _ _) => apply preserves_try_catch
      | |- preserves _ (if _ then _ else _) => apply preserves_if
      | |- preserves _ (modify _) => apply preserves_modify
      | |- preserves _ (detach _) => apply preserves_detach
      end
    | intro; lazymatch goal with |- preserves _ _ => idtac end ].

(** Unfolds the monad's operations so that [simpl] runs a handler. *)
Ltac m_unfold := cbv [mbind M_bind mret M_ret modify raise get_state read fetch_json fetch_ok fetch_unchecked try_catch detach zoom exec] in *.

#[export] Hint Rewrite @bind_ret @bind_raise @bind_modify : jp_rw.
