(* ===== verification/JsNum.v ===== *)
(** * JavaScript numbers where the dashboard computes with fractions

    The command centre divides counts to get percentages and prints them
    with [Math.round] and [toFixed].  A number is a rational, [NaN] or an
    infinity; division follows IEEE 754 on the cases the code meets
    ([x / 0] is [NaN] for [x = 0] and an infinity of the sign of [x]
    otherwise).  The rationals are exact: where a binary double rounds a
    decimal tie the other way ([1.005.toFixed(2)] is ["1.00"]) the model
    rounds the exact value; [toFixed] of values of [1e21] and more, which
    switch to exponent notation, and negative zero are not modelled.  These
    are the semantics of the language, not code of the repository. *)

From stdpp Require Import base list.
From Stdlib Require Import String ZArith QArith Qround Lia.
From S2P Require Import Prelude JsCore.

Local Open Scope Q_scope.
Local Open Scope string_scope.
Open Scope jp_scope.

Inductive num := Fin (q : Q) | NaN | Inf (pos : bool).

Definition num_of_Z (z : Z) : num := Fin (inject_Z z).

(** [a / b] *)
Definition num_div (a b : num) : num :=
  match a, b with
  | Fin x, Fin y =>
      if Qeq_bool y 0 then (if Qeq_bool x 0 then NaN else Inf (Qle_bool 0 x)) else Fin (x / y)
  | Fin _, Inf _ => Fin 0
  | Inf p, Fin y => if Qeq_bool y 0 then Inf p else Inf (Bool.eqb p (Qle_bool 0 y))
  | _, _ => NaN
  end.

(** [a * b] for a finite [b]. *)
Definition num_mul (a : num) (y : Q) : num :=
  match a with
  | Fin x => Fin (x * y)
  | NaN => NaN
  | Inf p => if Qeq_bool y 0 then NaN else Inf (Bool.eqb p (Qle_bool 0 y))
  end.

Definition num_truthy (a : num) : bool :=
  match a with Fin x => negb (Qeq_bool x 0) | NaN => false | Inf _ => true end.

(** [a || b] *)
Definition num_or (a b : num) : num := if num_truthy a then a else b.

(** [Math.round]: the nearest integer, ties upwards. *)
Definition math_round (a : num) : num :=
  match a with Fin x => Fin (inject_Z (Qfloor (x + (1 # 2)))) | _ => a end.

(** [String(n)] of an integer, [NaN] or an infinity; [None] for a
    fraction, whose shortest decimal form is not modelled. *)
Definition int_string (a : num) : option string :=
  match a with
  | Fin x => if Z.eqb (Zpos (Qden x)) 1 then Some (to_js_string (JNum (Qnum x))) else None
  | NaN => Some "NaN"
  | Inf true => Some "Infinity"
  | Inf false => Some "-Infinity"
  end.

(** [String(Math.round(a))] *)
Definition math_round_string (a : num) : string :=
  match math_round a with
  | Fin x => to_js_string (JNum (Qnum x))
  | NaN => "NaN"
  | Inf true => "Infinity"
  | Inf false => "-Infinity"
  end.

Fixpoint pad_zeros (k : nat) (s : string) : string :=
  match k with
  | O => s
  | S k => if (String.length s <=? k)%nat then "0" +s+ pad_zeros k s else s
  end.

(** [x.toFixed(d)] of a non-negative [x]: the integer [n] nearest to
    [x * 10^d], the larger on a tie, written with [d] decimals. *)
Definition fixed_nonneg (d : nat) (x : Q) : string :=
  let n := Qfloor (x * inject_Z (10 ^ Z.of_nat d)%Z + (1 # 2)) in
  let s := pad_zeros (S d) (to_js_string (JNum n)) in
  if (d =? 0)%nat then s
  else substring 0 (String.length s - d)%nat s +s+ "." +s+ substring (String.length s - d)%nat d s.

(** [x.toFixed(d)] *)
Definition to_fixed (d : nat) (a : num) : string :=
  match a with
  | Fin x => if Qlt_le_dec x 0 then "-" +s+ fixed_nonneg d (- x) else fixed_nonneg d x
  | NaN => "NaN"
  | Inf true => "Infinity"
  | Inf false => "-Infinity"
  end.

(** ** Lemmas *)

Lemma Qfloor_bounds_Z (x : Q) (lo hi : Z) :
  inject_Z lo <= x -> x < inject_Z (hi + 1) -> (lo <= Qfloor x <= hi)%Z.
Proof.
  intros Hlo Hhi. split.
  - rewrite <- (Qfloor_Z lo). by apply Qfloor_resp_le.
  - pose proof (Qfloor_le x) as Hf.
    assert (Hlt : inject_Z (Qfloor x) < inject_Z (hi + 1)) by (eapply Qle_lt_trans; eauto).
    rewrite <- Zlt_Qlt in Hlt. lia.
Qed.

(** The rounded percentage of a part of a whole is between 0 and 100. *)
Lemma round_percent_bounds (c t : Z) :
  (0 <= c <= t)%Z -> (0 < t)%Z ->
  exists r, math_round (num_mul (num_div (num_of_Z c) (num_of_Z t)) 100) = Fin (inject_Z r) /\ (0 <= r <= 100)%Z.
Proof.
  intros Hc Ht. unfold num_of_Z, num_div.
  assert (Hq : Qeq_bool (inject_Z t) 0 = false).
  { apply not_true_iff_false. rewrite Qeq_bool_iff. intros H. apply Qeq_alt in H.
    unfold inject_Z, Qcompare in H. simpl in H. rewrite Z.mul_1_r in H. apply Z.compare_eq in H. lia. }
  rewrite Hq. cbn [math_round num_mul]. eexists. split; [reflexivity|].
  assert (Htq : 0 < inject_Z t) by (unfold Qlt; simpl; lia).
  assert (Hcq : 0 <= inject_Z c) by (unfold Qle; simpl; lia).
  assert (Hct : inject_Z c <= inject_Z t) by (rewrite <- Zle_Qle; lia).
  apply Qfloor_bounds_Z.
  - assert (H0 : 0 <= inject_Z c / inject_Z t * 100).
    { apply Qmult_le_0_compat; [|discriminate]. apply Qle_shift_div_l; [done|]. by rewrite Qmult_0_l. }
    eapply Qle_trans; [exact H0|]. rewrite <- (Qplus_0_r (_ * _)) at 1.
    apply Qplus_le_r. discriminate.
  - assert (H1 : inject_Z c / inject_Z t * 100 <= 100).
    { rewrite <- (Qmult_1_l 100) at 2. apply Qmult_le_r; [reflexivity|].
      apply Qle_shift_div_r; [done|]. by rewrite Qmult_1_l. }
    apply Qle_lt_trans with (100 + (1 # 2)); [by apply Qplus_le_l|]. reflexivity.
Qed.
