(* ===== verification/Escape.v ===== *)
(** * HTML escaping and affiliation badges

    worker.js renders every server value through [safe] (lines 274-276)
    before it interpolates it into [innerHTML].  This file models [safe],
    states the contract an HTML escaper owes the renderers as the class
    [HtmlEscaper], and proves that [safe]'s escaping discharges it: its
    output holds no markup character and the browser's entity decoding
    gives the input back.  It also models the two affiliation classifiers,
    worker.js [formatAffiliation] (72-78) and candidate.js
    [getAffiliationClass] (473-480), and relates them. *)

From stdpp Require Import base list strings.
From Stdlib Require Import Ascii String.
From S2P Require Import Prelude JsCore.

Open Scope jp_scope.

Module Html.

(** ** The escaper *)

(** The replacement table of worker.js 275: ampersand to [&amp;], less-than
    to [&lt;], greater-than to [&gt;], double quote to [&quot;], apostrophe
    to [&#39;]; the five units of the regular expression's character
    class, and no others, have an entry. *)
Definition entity (m : ascii) : option string :=
  if (m =? "&")%char then Some "&amp;"
  else if (m =? "<")%char then Some "&lt;"
  else if (m =? ">")%char then Some "&gt;"
  else if (m =? dq)%char then Some "&quot;"
  else if (m =? "'")%char then Some "&#39;"
  else None.

(** The global [replace] of line 275 scans the string left to right and
    substitutes every unit of the class by its table entry. *)
Fixpoint escape_html (s : string) : string :=
  match s with
  | EmptyString => EmptyString
  | c ::: r =>
      match entity c with
      | Some e => e +s+ escape_html r
      | None => c ::: escape_html r
      end
  end.

(** [safe(val)]: the string of [val ?? ''], escaped. *)
Definition safe (v : jsval) : string :=
  escape_html (to_js_string (v ?? JStr EmptyString)).

(** ** What the browser reads back *)

(** The characters that end a text node or an attribute value. *)
Definition is_markup (c : ascii) : bool :=
  (c =? "<")%char || (c =? ">")%char || (c =? dq)%char || (c =? "'")%char.

(** The decoding the HTML parser applies to the five character
    references [safe] emits; any other [&] is kept as it is. *)
Fixpoint unescape_html (s : string) : string :=
  match s with
  | EmptyString => EmptyString
  | c ::: r =>
      if (c =? "&")%char then
        match r with
        | "a" ::: "m" ::: "p" ::: ";" ::: r' => "&" ::: unescape_html r'
        | "l" ::: "t" ::: ";" ::: r' => "<" ::: unescape_html r'
        | "g" ::: "t" ::: ";" ::: r' => ">" ::: unescape_html r'
        | "q" ::: "u" ::: "o" ::: "t" ::: ";" ::: r' => dq ::: unescape_html r'
        | "#" ::: "3" ::: "9" ::: ";" ::: r' => "'" ::: unescape_html r'
        | _ => c ::: unescape_html r
        end
      else c ::: unescape_html r
  end.

(** ** The contract of an escaper *)

(** What the rendering code needs of the function it passes server values
    through: nothing it returns can open or close a tag or an attribute,
    and the text the user sees is the value itself. *)
Class HtmlEscaper (esc : string -> string) := {
  escaper_inert : forall s, str_forall (fun c => negb (is_markup c)) (esc s) = true;
  escaper_faithful : forall s, unescape_html (esc s) = s
}.

(** ** Affiliation badges *)

Definition badge (cls label : string) : string :=
  "<span class=" +s+ str1 dq +s+ "affiliation-badge " +s+ cls +s+ str1 dq +s+ ">"
  +s+ label +s+ "</span>".

(** worker.js 72-78 [formatAffiliation] *)
Definition formatAffiliation (affiliation : jsval) : string :=
  if negb (truthy affiliation) then EmptyString
  else
    let value := to_lower (to_js_string affiliation) in
    if String.eqb value "supporter" then badge "affiliation-supporter" "Supporter"
    else if String.eqb value "opponent" then badge "affiliation-opponent" "Opponent"
    else badge "affiliation-SwingVoter" "Swing Voter".

(** candidate.js 473-480 [getAffiliationClass].  [affiliation.toLowerCase()]
    is a method call: on a truthy value that is not a string it throws a
    TypeError, the [None] result. *)
Definition getAffiliationClass (affiliation : jsval) : option string :=
  if negb (truthy affiliation) then Some EmptyString
  else
    match affiliation with
    | JStr s =>
        let aff := to_lower s in
        Some (if String.eqb aff "supporter" then "affiliation-supporter"
              else if String.eqb aff "opponent" then "affiliation-opponent"
              else if String.eqb aff "swingvoter" || String.eqb aff "neutral"
              then "affiliation-SwingVoter"
              else EmptyString)
    | _ => None
    end.

(** ** Lemmas *)

Lemma entity_cases (c : ascii) e :
  entity c = Some e ->
  (c = "&"%char /\ e = "&amp;") \/ (c = "<"%char /\ e = "&lt;") \/
  (c = ">"%char /\ e = "&gt;") \/ (c = dq /\ e = "&quot;") \/ (c = "'"%char /\ e = "&#39;").
Proof.
  unfold entity.
  destruct (Ascii.eqb_spec c "&"), (Ascii.eqb_spec c "<"), (Ascii.eqb_spec c ">"),
    (Ascii.eqb_spec c dq), (Ascii.eqb_spec c "'"); naive_solver.
Qed.

Lemma entity_none_markup (c : ascii) : entity c = None -> is_markup c = false /\ c <> "&"%char.
Proof.
  unfold entity, is_markup.
  destruct (Ascii.eqb_spec c "&"), (Ascii.eqb_spec c "<"), (Ascii.eqb_spec c ">"),
    (Ascii.eqb_spec c dq), (Ascii.eqb_spec c "'"); naive_solver.
Qed.

(** The escaper's output, character by character, holds no markup. *)
Lemma escape_html_no_markup (s : string) :
  str_forall (fun c => negb (is_markup c)) (escape_html s) = true.
Proof.
  induction s as [|c r IH]; cbn [escape_html]; [done|].
  destruct (entity c) as [e|] eqn:He.
  - rewrite str_forall_app, IH, andb_true_r.
    destruct (entity_cases c e He) as [[-> ->]|[[-> ->]|[[-> ->]|[[-> ->]|[-> ->]]]]];
      reflexivity.
  - destruct (entity_none_markup c He) as [Hm _]. cbn [str_forall]. by rewrite Hm, IH.
Qed.

(** Decoding inverts the escaper, character by character. *)
Lemma unescape_escape_html (s : string) : unescape_html (escape_html s) = s.
Proof.
  induction s as [|c r IH]; simpl; [done|].
  destruct (entity c) as [e|] eqn:He.
  - destruct (entity_cases c e He) as [[-> ->]|[[-> ->]|[[-> ->]|[[-> ->]|[-> ->]]]]];
      str_simpl; by rewrite IH.
  - destruct (entity_none_markup c He) as [_ Hamp]. simpl.
    destruct (Ascii.eqb_spec c "&"); [done|]. by rewrite IH.
Qed.

(** C2: the escaped text holds no less-than, greater-than, double quote or
    apostrophe: interpolated
    into element content or into a quoted attribute it can neither open a
    tag nor close the attribute. *)
Theorem escape_html_markup_free (s : string) :
  str_forall (fun c => negb (is_markup c)) (escape_html s) = true.
Proof. exact (escape_html_no_markup s). Qed.

(** C1: decoding the character references of the escaped text gives the
    text back: what the user reads in the cell is exactly the value. *)
Theorem escape_html_roundtrip (s : string) : unescape_html (escape_html s) = s.
Proof. exact (unescape_escape_html s). Qed.

#[export] Instance escape_html_escaper : HtmlEscaper escape_html.
Proof. split; [apply escape_html_no_markup | apply unescape_escape_html]. Qed.

(** Two values that render alike are alike. *)
Lemma escape_html_inj (s1 s2 : string) : escape_html s1 = escape_html s2 -> s1 = s2.
Proof. intros H. by rewrite <- (unescape_escape_html s1), H, unescape_escape_html. Qed.

(** C3: on values that are not [null] or [undefined], [safe] shows the
    value's [String()] form and nothing else; [null] and [undefined] show
    as the empty string. *)
Theorem safe_spec (v : jsval) :
  unescape_html (safe v) = (if nullish v then EmptyString else to_js_string v) /\
  str_forall (fun c => negb (is_markup c)) (safe v) = true.
Proof.
  unfold safe, coalesce. split; [|apply escape_html_no_markup].
  rewrite unescape_escape_html. by destruct (nullish v).
Qed.

(** C20: the candidate dashboard's badge class refines the worker
    dashboard's badge: on every string value both know, they pick the same
    class; every value the candidate dashboard leaves unclassified the
    worker dashboard shows as a swing voter. *)
Theorem formatAffiliation_vs_getAffiliationClass (s : string) :
  s <> EmptyString ->
  exists cls,
    getAffiliationClass (JStr s) = Some cls /\
    formatAffiliation (JStr s) =
      (if String.eqb cls "affiliation-supporter" then badge cls "Supporter"
       else if String.eqb cls "affiliation-opponent" then badge cls "Opponent"
       else badge "affiliation-SwingVoter" "Swing Voter").
Proof.
  intros Hs. unfold getAffiliationClass, formatAffiliation; simpl.
  destruct (String.eqb_spec s EmptyString) as [|_]; [done|]. simpl.
  eexists; split; [reflexivity|].
  destruct (String.eqb (to_lower s) "supporter"); [done|].
  destruct (String.eqb (to_lower s) "opponent"); [done|].
  by destruct (String.eqb (to_lower s) "swingvoter" || String.eqb (to_lower s) "neutral").
Qed.

Lemma formatAffiliation_vs_getAffiliationClass_witness :
  "Garbage" <> EmptyString /\
  getAffiliationClass (JStr "Garbage") = Some EmptyString /\
  formatAffiliation (JStr "Garbage") = badge "affiliation-SwingVoter" "Swing Voter".
Proof.
  split; [discriminate|]. split; [reflexivity|].
  destruct (formatAffiliation_vs_getAffiliationClass "Garbage") as [cls [H1 H2]];
    [discriminate|].
  rewrite H2. vm_compute in H1. injection H1 as <-. reflexivity.
Defined.

(** The candidate dashboard throws on a truthy non-string affiliation. *)
Example getAffiliationClass_number : getAffiliationClass (JNum 3) = None.
Proof. reflexivity. Qed.

End Html.
