(* ===== verification/CsvExport.v ===== *)
(** * CSV export of the voter list

    candidate.js [jsonToCsv] (978-998) turns the voter records of the
    analytics filter into the text of [voter_export.csv]: a header line of
    thirteen column names, then one line per record, every line ended by
    CR LF, a value quoted (with its quotes doubled) when it holds a double
    quote or a comma.  The file models [jsonToCsv] as written, a reader of
    CSV text in the sense of RFC 4180 (the way a spreadsheet opens the
    file), and proves the round trip: the reader gives back the header and
    every record's values, provided no value holds a line break.  The
    proviso is needed: a value with a line break but no quote or comma is
    written unquoted, the reader ends a record at the break, and counting
    the characters the reader puts into fields ([chars], [lost]) shows that
    no export holding such a value reads back as its records. *)

From stdpp Require Import base list strings gmap.
From Stdlib Require Import Ascii String.
From S2P Require Import Prelude JsCore.

Open Scope jp_scope.

Module Csv.

Definition CR : ascii := "013"%char.
Definition LF : ascii := "010"%char.

(** ['\r\n'] *)
Definition CRLF : string := CR ::: LF ::: EmptyString.

(** candidate.js 980-984 *)
Definition headers : list string :=
  ["ID"; "Name"; "Father's or Husband's name"; "Age"; "Gender";
   "House number"; "EPIC number"; "Mobile Number"; "Occupation";
   "Education Level"; "Political Affiliation"; "Key Issues"; "Remarks"].

(** [arr.join(sep)] *)
Fixpoint join (sep : string) (l : list string) : string :=
  match l with
  | [] => EmptyString
  | [x] => x
  | x :: r => x +s+ sep +s+ join sep r
  end.

(** candidate.js 988-989: [row[header]], with [null] and [undefined]
    read as the empty string, then [String(val)]. *)
Definition cell_value (row : jsobj) (header : string) : string :=
  let v := get row header in
  to_js_string (match v with JNull | JUndefined => JStr EmptyString | _ => v end).

(** The replace of line 991: every double quote doubled. *)
Fixpoint double_quotes (s : string) : string :=
  match s with
  | EmptyString => EmptyString
  | c ::: r => if (c =? dq)%char then dq ::: dq ::: double_quotes r else c ::: double_quotes r
  end.

(** candidate.js 990-993: quote a value that holds a double quote or a
    comma. *)
Definition escape_field (strVal : string) : string :=
  if includes strVal (str1 dq) || includes strVal "," then
    str1 dq +s+ double_quotes strVal +s+ str1 dq
  else strVal.

(** candidate.js 987-995: the line of one record. *)
Definition row_line (row : jsobj) : string :=
  join "," (map (fun header => escape_field (cell_value row header)) headers) +s+ CRLF.

(** candidate.js 978-998 [jsonToCsv]: the header line, then [csv +=] the
    line of each record in order. *)
Definition jsonToCsv (items : list jsobj) : string :=
  foldl (fun csv row => csv +s+ row_line row) (join "," headers +s+ CRLF) items.

(** ** A CSV reader (RFC 4180) *)

(** The reader's position: at the start of a field, inside an unquoted
    field, inside a quoted field, just after a quote inside a quoted field,
    or just after a CR that ended a record. *)
Inductive mode := FieldStart | Unquoted | Quoted | QuoteInQuoted | AfterCR.

Record rstate := RState {
  md : mode;
  fld : list ascii;              (** the current field, last character first *)
  cur : list string;             (** the fields of the current record, last first *)
  recs : list (list string)      (** the records read, last first *)
}.

Definition end_field (st : rstate) : rstate :=
  RState FieldStart [] (string_of_list_ascii (rev (fld st)) :: cur st) (recs st).

Definition end_record (m : mode) (st : rstate) : rstate :=
  RState m [] [] (rev (string_of_list_ascii (rev (fld st)) :: cur st) :: recs st).

Definition with_mode (m : mode) (st : rstate) : rstate := RState m (fld st) (cur st) (recs st).

(** A character read outside quotes. *)
Definition step_outside (st : rstate) (c : ascii) : rstate :=
  if (c =? ",")%char then end_field st
  else if (c =? LF)%char then end_record FieldStart st
  else if (c =? CR)%char then end_record AfterCR st
  else if (match md st with FieldStart => true | _ => false end && (c =? dq)%char)%bool
  then with_mode Quoted st
  else RState Unquoted (c :: fld st) (cur st) (recs st).

Definition reader_step (st : rstate) (c : ascii) : rstate :=
  match md st with
  | Quoted =>
      if (c =? dq)%char then with_mode QuoteInQuoted st
      else RState Quoted (c :: fld st) (cur st) (recs st)
  | QuoteInQuoted =>
      if (c =? dq)%char then RState Quoted (dq :: fld st) (cur st) (recs st)
      else step_outside st c
  | AfterCR =>
      if (c =? LF)%char then with_mode FieldStart st
      else step_outside (with_mode FieldStart st) c
  | _ => step_outside st c
  end.

(** At the end of the text an unfinished record is kept. *)
Definition finish (st : rstate) : list (list string) :=
  match md st, fld st, cur st with
  | AfterCR, _, _ => rev (recs st)
  | FieldStart, [], [] => rev (recs st)
  | _, _, _ => rev (recs (end_record FieldStart st))
  end.

Definition run (st : rstate) (s : string) : rstate :=
  fold_left reader_step (list_ascii_of_string s) st.

Definition reader_init : rstate := RState FieldStart [] [] [].

Definition parse_csv (s : string) : list (list string) := finish (run reader_init s).

(** What a record should read back as: its thirteen values. *)
Definition row_values (row : jsobj) : list string := map (cell_value row) headers.

Definition no_line_break (s : string) : bool :=
  str_forall (fun c => negb ((c =? CR)%char || (c =? LF)%char)) s.

Definition rows_without_line_breaks (rows : list jsobj) : bool :=
  forallb (fun row => forallb (fun h => no_line_break (cell_value row h)) headers) rows.

(** ** The reader on the text [jsonToCsv] writes *)

Lemma run_app st (a b : string) : run st (a +s+ b) = run (run st a) b.
Proof. unfold run. by rewrite list_ascii_of_string_app, fold_left_app. Qed.

Lemma run_cons st c (s : string) : run st (c ::: s) = run (reader_step st c) s.
Proof. reflexivity. Qed.

Definition plain_char (c : ascii) : bool :=
  negb ((c =? dq)%char || (c =? ",")%char || (c =? CR)%char || (c =? LF)%char).

Definition outside (m : mode) : bool :=
  match m with FieldStart | Unquoted => true | _ => false end.

Definition sep_ready (m : mode) : bool :=
  match m with FieldStart | Unquoted | QuoteInQuoted => true | _ => false end.

Lemma field_text (s : string) : string_of_list_ascii (rev (rev (list_ascii_of_string s))) = s.
Proof. by rewrite rev_involutive, string_of_list_ascii_of_string. Qed.

(** An unquoted field is read into the field, character by character. *)
Lemma run_plain (s : string) m f c r :
  outside m = true -> str_forall plain_char s = true ->
  exists m', outside m' = true /\
    run (RState m f c r) s = RState m' (rev (list_ascii_of_string s) ++ f) c r.
Proof.
  revert m f. induction s as [|x s IH]; intros m f Hm Hs; [by exists m|].
  cbn [str_forall] in Hs. unfold plain_char in Hs. bool_hyps.
  rewrite run_cons.
  assert (reader_step (RState m f c r) x = RState Unquoted (x :: f) c r) as ->.
  { destruct m; try discriminate; unfold reader_step, step_outside; simpl; by rewrite_bools. }
  destruct (IH Unquoted (x :: f)) as [m' [Hm' ->]]; [done|done|].
  exists m'. split; [done|]. simpl. by rewrite <- app_assoc.
Qed.

Lemma run_comma m f c r :
  sep_ready m = true ->
  run (RState m f c r) "," = RState FieldStart [] (string_of_list_ascii (rev f) :: c) r.
Proof. destruct m; try discriminate; reflexivity. Qed.

Lemma run_crlf m f c r :
  sep_ready m = true ->
  run (RState m f c r) CRLF = RState FieldStart [] [] (rev (string_of_list_ascii (rev f) :: c) :: r).
Proof. destruct m; try discriminate; reflexivity. Qed.

Lemma step_quote_in m f c r :
  reader_step (RState m f c r) dq =
  match m with
  | Quoted => RState QuoteInQuoted f c r
  | QuoteInQuoted => RState Quoted (dq :: f) c r
  | FieldStart | AfterCR => RState Quoted f c r
  | Unquoted => RState Unquoted (dq :: f) c r
  end.
Proof. by destruct m. Qed.

Lemma step_quoted_other x f c r :
  (x =? dq)%char = false -> reader_step (RState Quoted f c r) x = RState Quoted (x :: f) c r.
Proof. intros Hx. unfold reader_step; simpl. by rewrite Hx. Qed.

(** Inside quotes a doubled quote reads as one quote, and the closing quote
    leaves the reader just after a quote. *)
Lemma run_quoted_body (s : string) f c r :
  run (RState Quoted f c r) (double_quotes s +s+ str1 dq) =
  RState QuoteInQuoted (rev (list_ascii_of_string s) ++ f) c r.
Proof.
  revert f. induction s as [|x s IH]; intros f; [reflexivity|].
  cbn [double_quotes list_ascii_of_string rev].
  destruct (x =? dq)%char eqn:Hx.
  - apply Ascii.eqb_eq in Hx as ->.
    rewrite !str_app_cons, !run_cons, !step_quote_in, IH. by rewrite <- app_assoc.
  - rewrite str_app_cons, run_cons, step_quoted_other, IH by done. by rewrite <- app_assoc.
Qed.

Lemma includes_single_false (s : string) (x : ascii) :
  includes s (str1 x) = false -> str_forall (fun c => negb (c =? x)%char) s = true.
Proof.
  induction s as [|c r IH]; [done|]. simpl.
  destruct (ascii_dec x c) as [->|Hne]; rewrite ?prefix_nil_l; simpl; intros H;
    [discriminate|].
  rewrite IH by done. by destruct (Ascii.eqb_spec c x).
Qed.

Lemma plain_of_checks (s : string) :
  str_forall (fun c => negb (c =? dq)%char) s = true ->
  str_forall (fun c => negb (c =? ",")%char) s = true ->
  no_line_break s = true -> str_forall plain_char s = true.
Proof.
  unfold no_line_break, plain_char.
  induction s as [|c r IH]; [done|]. simpl. intros H1 H2 H3. bool_hyps.
  rewrite_bools. simpl. by apply IH.
Qed.

(** One value, quoted or not, reads back as itself. *)
Lemma run_field (s : string) c r :
  no_line_break s = true ->
  exists m, sep_ready m = true /\
    run (RState FieldStart [] c r) (escape_field s) = RState m (rev (list_ascii_of_string s)) c r.
Proof.
  intros Hs. unfold escape_field.
  destruct (includes s (str1 dq) || includes s ",") eqn:Hq.
  - exists QuoteInQuoted. split; [done|].
    change (str1 dq +s+ ?x) with (dq ::: x).
    rewrite run_cons, step_quote_in, run_quoted_body.
    by rewrite app_nil_r.
  - apply orb_false_iff in Hq as [Hq1 Hq2].
    change "," with (str1 ",") in Hq2.
    apply includes_single_false in Hq1, Hq2.
    destruct (run_plain s FieldStart [] c r) as [m [Hm ->]];
      [done|by apply plain_of_checks|].
    exists m. split; [by destruct m|]. by rewrite app_nil_r.
Qed.

(** A line of values separated by commas and ended by CR LF reads back as
    one record. *)
Lemma run_fields (fs : list string) c r :
  fs <> [] -> Forall (fun s => no_line_break s = true) fs ->
  run (RState FieldStart [] c r) (join "," (map escape_field fs) +s+ CRLF) =
  RState FieldStart [] [] ((rev c ++ fs) :: r).
Proof.
  revert c. induction fs as [|s fs IH]; intros c Hne Hall; [done|].
  apply Forall_cons in Hall as [Hs Hfs].
  destruct (run_field s c r Hs) as [m [Hm Hrun]].
  destruct fs as [|s' fs'].
  - cbn [map join]. rewrite run_app, Hrun, run_crlf, field_text by done.
    reflexivity.
  - cbn [map join]. rewrite !str_app_assoc, run_app, Hrun, run_app, run_comma, field_text by done.
    rewrite IH by done. simpl. by rewrite <- app_assoc.
Qed.

Lemma row_line_values (row : jsobj) : row_line row = join "," (map escape_field (row_values row)) +s+ CRLF.
Proof. unfold row_line, row_values. by rewrite map_map. Qed.

Lemma run_rows (rows : list jsobj) acc r :
  rows_without_line_breaks rows = true ->
  run reader_init acc = RState FieldStart [] [] r ->
  run reader_init (foldl (fun csv row => csv +s+ row_line row) acc rows) =
  RState FieldStart [] [] (rev (map row_values rows) ++ r).
Proof.
  revert acc r. induction rows as [|row rows IH]; intros acc r Hrows Hacc; [done|].
  cbn [forallb foldl map rev] in Hrows |- *. apply andb_true_iff in Hrows as [Hrow Hrows].
  rewrite (IH _ (row_values row :: r)); [by rewrite <- app_assoc|done|].
  rewrite run_app, Hacc, row_line_values, run_fields; [done|done|].
  apply Forall_forall. intros v (h & -> & Hh)%list_elem_of_fmap.
  rewrite forallb_forall in Hrow. apply Hrow. by apply list_elem_of_In.
Qed.

(** C4: a spreadsheet opening the exported file sees the thirteen column
    names, then each exported record's thirteen values in order, provided
    no value holds a line break. *)
Theorem jsonToCsv_roundtrip (rows : list jsobj) :
  rows_without_line_breaks rows = true ->
  parse_csv (jsonToCsv rows) = headers :: map row_values rows.
Proof.
  intros H. unfold parse_csv, jsonToCsv.
  rewrite (run_rows rows _ [headers]) by (done || reflexivity).
  unfold finish; simpl. by rewrite rev_app_distr, rev_involutive.
Qed.

Definition sample_row : jsobj :=
  <["ID" := JNum 7]> (<["Name" := JStr "Patil, Asha"]>
    (<["Remarks" := JStr ("says " +s+ str1 dq +s+ "hi" +s+ str1 dq)]> ∅)).

Lemma jsonToCsv_roundtrip_witness :
  rows_without_line_breaks [sample_row] = true /\
  parse_csv (jsonToCsv [sample_row]) = headers :: map row_values [sample_row].
Proof.
  split; [vm_compute; reflexivity|].
  apply jsonToCsv_roundtrip. vm_compute. reflexivity.
Defined.

(** ** What a line break in an unquoted value costs *)

Definition is_break (c : ascii) : bool := (c =? CR)%char || (c =? LF)%char.

(** The line-break characters of a value. *)
Fixpoint breaks (s : string) : nat :=
  match s with
  | EmptyString => 0
  | c ::: r => (if is_break c then 1 else 0) + breaks r
  end.

(** The characters of a value the reader cannot give back: its line breaks
    when [escape_field] leaves it unquoted. *)
Definition lost (s : string) : nat :=
  if includes s (str1 dq) || includes s "," then 0 else breaks s.

(** The characters the reader has put into fields so far. *)
Definition chars (st : rstate) : nat :=
  List.length (fld st) + sum_list_with String.length (cur st) +
  sum_list_with (sum_list_with String.length) (recs st).

Definition loose (m : mode) : bool :=
  match m with FieldStart | Unquoted | AfterCR => true | _ => false end.

Definition ready (m : mode) : bool :=
  match m with Quoted => false | _ => true end.

Lemma sum_list_with_rev {A} (f : A -> nat) (l : list A) :
  sum_list_with f (rev l) = sum_list_with f l.
Proof. induction l; simpl; [done|]. rewrite sum_list_with_app; simpl. lia. Qed.

Lemma chars_end_field st : chars (end_field st) = chars st.
Proof. unfold chars, end_field; simpl. rewrite length_string_of_list_ascii, length_rev. lia. Qed.

Lemma chars_end_record m st : chars (end_record m st) = chars st.
Proof.
  unfold chars, end_record. cbn [fld cur recs sum_list_with List.length].
  rewrite sum_list_with_rev; simpl. rewrite length_string_of_list_ascii, length_rev. lia.
Qed.

Lemma no_line_break_breaks (s : string) : no_line_break s = false -> 1 <= breaks s.
Proof.
  unfold no_line_break. induction s as [|c r IH]; [done|]. simpl.
  unfold is_break. destruct ((c =? CR)%char || (c =? LF)%char); simpl; [lia|]. intros H. specialize (IH H). lia.
Qed.

(** Outside quotes, a character that is neither a quote nor a comma goes
    into the field unless it is a line break, which ends a record. *)
Lemma step_unquoted st c :
  loose (md st) = true -> (c =? dq)%char = false -> (c =? ",")%char = false ->
  loose (md (reader_step st c)) = true /\
  chars (reader_step st c) + (if is_break c then 1 else 0) = chars st + 1.
Proof.
  destruct st as [m f cu r]. intros Hm Hq Hc. unfold is_break.
  destruct m; try discriminate; unfold reader_step, step_outside; simpl; rewrite ?Hc, ?Hq;
    destruct (c =? LF)%char; destruct (c =? CR)%char; simpl;
    rewrite ?andb_false_r, ?chars_end_record; simpl; split; auto; unfold chars; simpl; lia.
Qed.

Lemma run_unquoted (s : string) st :
  loose (md st) = true ->
  str_forall (fun c => negb (c =? dq)%char) s = true ->
  str_forall (fun c => negb (c =? ",")%char) s = true ->
  loose (md (run st s)) = true /\ chars (run st s) + breaks s = chars st + String.length s.
Proof.
  revert st. induction s as [|c r IH]; intros st Hm Hq Hc;
    [cbn [run fold_left list_ascii_of_string breaks String.length]; split; [done|lia]|].
  cbn [str_forall] in Hq, Hc. apply andb_true_iff in Hq as [Hq1 Hq], Hc as [Hc1 Hc].
  apply negb_true_iff in Hq1, Hc1.
  destruct (step_unquoted st c) as [Hm' Hch]; [done..|].
  rewrite run_cons. destruct (IH (reader_step st c)) as [Hm'' Hr]; [done..|].
  split; [done|]. simpl. lia.
Qed.

(** One value, quoted or not, read from the start of a field. *)
Lemma run_field_chars (s : string) c r :
  ready (md (run (RState FieldStart [] c r) (escape_field s))) = true /\
  chars (run (RState FieldStart [] c r) (escape_field s)) + lost s =
  chars (RState FieldStart [] c r) + String.length s.
Proof.
  unfold escape_field, lost.
  destruct (includes s (str1 dq) || includes s ",") eqn:Hq.
  - change (str1 dq +s+ ?x) with (dq ::: x).
    rewrite run_cons, step_quote_in, run_quoted_body. split; [done|].
    unfold chars; simpl. rewrite app_nil_r, length_rev, length_list_ascii_of_string. lia.
  - apply orb_false_iff in Hq as [Hq1 Hq2]. change "," with (str1 ",") in Hq2.
    apply includes_single_false in Hq1, Hq2.
    destruct (run_unquoted s (RState FieldStart [] c r)) as [Hm Hr]; [done..|].
    split; [by destruct (md _)|lia].
Qed.

Lemma run_comma_ready st : ready (md st) = true -> run st "," = end_field st.
Proof. destruct st as [[] f c r]; done. Qed.

Lemma run_crlf_ready st : ready (md st) = true -> run st CRLF = end_record FieldStart st.
Proof. destruct st as [[] f c r]; done. Qed.

(** A line of values: the reader ends it at the start of a new record,
    having lost exactly the line breaks of the unquoted values. *)
Lemma run_fields_chars (fs : list string) c r :
  fs <> [] ->
  exists r', run (RState FieldStart [] c r) (join "," (map escape_field fs) +s+ CRLF) =
    RState FieldStart [] [] r' /\
    chars (RState FieldStart [] [] r') + sum_list_with lost fs =
    chars (RState FieldStart [] c r) + sum_list_with String.length fs.
Proof.
  revert c r. induction fs as [|s fs IH]; intros c r Hne; [done|].
  destruct (run_field_chars s c r) as [Hm Hs].
  destruct fs as [|s' fs'].
  - cbn [map join]. rewrite run_app, run_crlf_ready by done.
    set (st := run (RState FieldStart [] c r) (escape_field s)) in *.
    exists (recs (end_record FieldStart st)). split; [reflexivity|].
    change (chars (RState FieldStart [] [] (recs (end_record FieldStart st))))
      with (chars (end_record FieldStart st)).
    rewrite chars_end_record. simpl. lia.
  - cbn [map join]. rewrite !str_app_assoc, run_app, run_app, run_comma_ready by done.
    remember (run (RState FieldStart [] c r) (escape_field s)) as st eqn:Est.
    destruct st as [m f cu r0]. unfold end_field; simpl.
    destruct (IH (string_of_list_ascii (rev f) :: cu) r0) as [r' [Hrun Hr']]; [done|].
    cbn [map join] in Hrun. rewrite Hrun.
    exists r'. split; [done|]. rewrite <- (chars_end_field (RState m f cu r0)) in Hs.
    unfold end_field in Hs. cbn [sum_list_with] in *. unfold chars in *; simpl in *. lia.
Qed.

Definition row_lost (row : jsobj) : nat := sum_list_with lost (row_values row).
Definition row_len (row : jsobj) : nat := sum_list_with String.length (row_values row).

Lemma run_rows_chars (rows : list jsobj) acc r :
  run reader_init acc = RState FieldStart [] [] r ->
  exists r', run reader_init (foldl (fun csv row => csv +s+ row_line row) acc rows) =
    RState FieldStart [] [] r' /\
    chars (RState FieldStart [] [] r') + sum_list_with row_lost rows =
    chars (RState FieldStart [] [] r) + sum_list_with row_len rows.
Proof.
  revert acc r. induction rows as [|row rows IH]; intros acc r Hacc; [exists r; simpl; split; [done|lia]|].
  cbn [foldl]. destruct (run_fields_chars (row_values row) [] r) as [r1 [Hr1 Hc1]]; [done|].
  destruct (IH (acc +s+ row_line row) r1) as [r' [-> Hr']].
  { by rewrite run_app, Hacc, row_line_values. }
  exists r'. split; [done|]. unfold row_lost, row_len in *. simpl in *. lia.
Qed.

(** C5: a value holding a line break but neither a double quote nor a
    comma is written unquoted, so the reader splits it, and the exported
    file of any list of records holding such a value does not read back
    as the export's records. *)
Theorem jsonToCsv_line_break_breaks_roundtrip (rows : list jsobj) (row : jsobj) (h : string) :
  row ∈ rows -> h ∈ headers ->
  includes (cell_value row h) (str1 dq) = false -> includes (cell_value row h) "," = false ->
  no_line_break (cell_value row h) = false ->
  parse_csv (jsonToCsv rows) <> headers :: map row_values rows.
Proof.
  intros Hrow Hh Hq Hc Hb Heq.
  destruct (run_rows_chars rows (join "," headers +s+ CRLF) [headers]) as [r' [Hrun Hch]];
    [reflexivity|].
  unfold parse_csv, jsonToCsv in Heq. rewrite Hrun in Heq. cbv [finish md fld cur recs] in Heq.
  apply (f_equal (sum_list_with (sum_list_with String.length))) in Heq.
  rewrite sum_list_with_rev in Heq.
  assert (Hl : 1 <= row_lost row).
  { unfold row_lost, row_values. etrans; [|apply sum_list_with_in, list_elem_of_fmap_2, Hh].
    unfold lost. rewrite Hq, Hc. by apply no_line_break_breaks. }
  assert (Hs : sum_list_with (sum_list_with String.length) (map row_values rows) =
               sum_list_with row_len rows).
  { clear. induction rows; simpl; [done|]. by rewrite IHrows. }
  pose proof (sum_list_with_in _ row_lost _ Hrow).
  unfold chars in Hch; simpl in Hch, Heq. lia.
Qed.

Definition row_with_line_break : jsobj :=
  <["Name" := JStr "Asha"]> (<["Remarks" := JStr ("call" +s+ str1 LF +s+ "back")]> ∅).

Lemma jsonToCsv_line_break_breaks_roundtrip_witness :
  (row_with_line_break ∈ [row_with_line_break] /\ "Remarks" ∈ headers /\
   includes (cell_value row_with_line_break "Remarks") (str1 dq) = false /\
   includes (cell_value row_with_line_break "Remarks") "," = false /\
   no_line_break (cell_value row_with_line_break "Remarks") = false) /\
  parse_csv (jsonToCsv [row_with_line_break]) <> headers :: map row_values [row_with_line_break].
Proof.
  assert (H1 : row_with_line_break ∈ [row_with_line_break]) by (left; reflexivity).
  assert (H2 : "Remarks" ∈ headers) by (apply list_elem_of_In; do 12 right; left; reflexivity).
  split; [repeat split; [exact H1|exact H2|vm_compute; reflexivity..]|].
  apply (jsonToCsv_line_break_breaks_roundtrip _ row_with_line_break "Remarks" H1 H2);
    vm_compute; reflexivity.
Defined.

Example escape_field_ex :
  escape_field ("a" ::: dq ::: ",b") = dq ::: "a" ::: dq ::: dq ::: ",b" +s+ str1 dq.
Proof. reflexivity. Qed.

End Csv.
