(* ===== verification/VoterForm.v ===== *)
(** * The voter detail form of the worker dashboard

    worker.js [toggleDetailsRow] (117-245) opens, under a voter's row, a
    form of six fields (mobile number, occupation, education level,
    political affiliation, key issues, remarks) with a Save button.  Its
    local functions [setError], [validateField] and [updateSaveState]
    (203-235) check each field as it is typed and enable the button only
    when some field is filled and every filled field is valid; the button
    calls [saveVoterDetails] (247-272), which sends the trimmed non-empty
    fields in a PUT request.

    The form's state is the values of its six fields, the six error
    messages and the button's [disabled] flag.  The file proves that the
    mobile-number regular expression accepts exactly the ten-digit numbers
    starting with 6 to 9, that the button's state is, after every event,
    the validity of the current values, and that an enabled button sends
    each filled field's trimmed value, which is validated. *)

From stdpp Require Import base list strings.
From Stdlib Require Import Ascii String Lia.
From S2P Require Import Prelude JsCore.

Open Scope jp_scope.

Module VoterForm.

(** ** The form *)

(** The [data-field] elements of the form, worker.js 154-193. *)
Inductive field := MobileNumber | Occupation | EducationLevel | PoliticalAffiliation | KeyIssues | Remarks.

#[export] Instance field_eq_dec : EqDecision field.
Proof. solve_decision. Defined.

Definition field_key (f : field) : string :=
  match f with
  | MobileNumber => "mobile_number"
  | Occupation => "occupation"
  | EducationLevel => "education_level"
  | PoliticalAffiliation => "political_affiliation"
  | KeyIssues => "key_issues"
  | Remarks => "remarks"
  end.

(** The fields in document order, as [form.querySelectorAll('[data-field]')]
    lists them. *)
Definition form_fields : list field :=
  [MobileNumber; Occupation; EducationLevel; PoliticalAffiliation; KeyIssues; Remarks].

(** The texts [setError] writes into a field's error element: the empty
    text, 'Enter valid 10-digit mobile starting 6-9', 'At least 2
    characters', 'Max 300 characters', 'Max 200 characters'. *)
Inductive message := MsgNone | MsgMobile | MsgMinLength | MsgMax300 | MsgMax200.

Record form_state := FormState {
  values : field -> string;
  errors : field -> message;
  save_disabled : bool
}.

Definition update {A} (g : field -> A) (f : field) (a : A) : field -> A :=
  fun h => if decide (h = f) then a else g h.

(** ** validateField, worker.js 208-228 *)

(** [/^[6-9][0-9]{9}$/] *)
Definition mobile_re : regex := RSeq (RRange "6" "9") (RRep (RRange "0" "9") 9).

(** The verdict of [validateField] on a value: valid or not, and the
    message it sets. *)
Definition check (key : field) (raw : string) : bool * message :=
  let val := trim raw in
  if String.eqb val EmptyString then (true, MsgNone)
  else
    match key with
    | MobileNumber => if regex_test mobile_re val then (true, MsgNone) else (false, MsgMobile)
    | Occupation | EducationLevel =>
        if String.length val <? 2 then (false, MsgMinLength) else (true, MsgNone)
    | KeyIssues => if 300 <? String.length val then (false, MsgMax300) else (true, MsgNone)
    | Remarks => if 200 <? String.length val then (false, MsgMax200) else (true, MsgNone)
    | PoliticalAffiliation => (true, MsgNone)
    end.

(** [setError(key, msg)] *)
Definition setError (st : form_state) (key : field) (m : message) : form_state :=
  FormState (values st) (update (errors st) key m) (save_disabled st).

(** [validateField(key)]: the verdict, with the error element updated. *)
Definition validateField (st : form_state) (key : field) : bool * form_state :=
  let '(ok, m) := check key (values st key) in (ok, setError st key m).

(** ** updateSaveState, worker.js 230-235 *)

Definition filled (v : field -> string) (k : field) : bool :=
  negb (String.eqb (trim (v k)) EmptyString).

(** [filled.every(validateField)]: stops at the first invalid field. *)
Fixpoint every_valid (st : form_state) (ks : list field) : bool * form_state :=
  match ks with
  | [] => (true, st)
  | k :: ks' =>
      let '(ok, st') := validateField st k in
      if ok then every_valid st' ks' else (false, st')
  end.

Definition updateSaveState (st : form_state) : form_state :=
  let fs := List.filter (filled (values st)) form_fields in
  let '(valid, st') := every_valid st fs in
  FormState (values st') (errors st') (negb ((0 <? List.length fs) && valid)).

(** ** Events *)

(** The form as [toggleDetailsRow] builds it (154-197): empty fields, empty
    messages, the button [disabled]; then [updateSaveState()] (242). *)
Definition initial_form : form_state :=
  updateSaveState (FormState (fun _ => EmptyString) (fun _ => MsgNone) true).

(** The [input] and [change] listeners of a field (237-240): the field
    takes the typed value, then [validateField] and [updateSaveState]. *)
Definition on_input (st : form_state) (f : field) (v : string) : form_state :=
  let st1 := FormState (update (values st) f v) (errors st) (save_disabled st) in
  updateSaveState (snd (validateField st1 f)).

Inductive event := Input (f : field) (v : string).

Definition apply_event (st : form_state) (e : event) : form_state :=
  match e with Input f v => on_input st f v end.

Definition run_events (es : list event) : form_state := foldl apply_event initial_form es.

(** ** saveVoterDetails, worker.js 247-272 *)

(** The body of the PUT request: the trimmed non-empty fields in document
    order; [None] when there is none and the function returns early. *)
Definition save_body (st : form_state) : option (list (string * string)) :=
  let updates := map (fun k => (field_key k, trim (values st k)))
                     (List.filter (filled (values st)) form_fields) in
  match updates with [] => None | _ => Some updates end.

(** What the dashboard does after the request: on [res.ok] the details
    rows are removed, the list is fetched again and a success alert shown;
    otherwise (or on a network error) an error alert. *)
Inductive save_effect := RemoveDetailsRows | RefetchVoters | AlertText (s : string).

Definition save_outcome (ok : bool) : list save_effect :=
  if ok then [RemoveDetailsRows; RefetchVoters; AlertText "Voter details updated successfully"]
  else [AlertText "Error saving voter details"].

(** ** The rule the button implements *)

Definition valid (k : field) (raw : string) : bool := fst (check k raw).

Definition can_save (v : field -> string) : bool :=
  let fs := List.filter (filled v) form_fields in
  (0 <? List.length fs) && forallb (fun k => valid k (v k)) fs.

(** The ten-digit numbers starting with 6 to 9, directly. *)
Definition mobile_ok (s : string) : bool :=
  match list_ascii_of_string s with
  | c :: rest => in_range "6" "9" c && (List.length rest =? 9) && forallb (in_range "0" "9") rest
  | [] => false
  end.

(** ** The mobile-number pattern *)

(** C6: [/^[6-9][0-9]{9}$/.test(val)] holds exactly of the ten-character
    strings whose first character is 6 to 9 and whose nine others are
    digits. *)
Theorem mobile_re_spec (s : string) : regex_test mobile_re s = mobile_ok s.
Proof.
  unfold regex_test, mobile_ok. destruct (list_ascii_of_string s) as [|c t]; [done|].
  unfold mobile_re. rewrite rmatch_seq, rmatch_range_cons.
  destruct (in_range "6" "9" c); cbn [flat_map andb]; [|done].
  rewrite app_nil_r, rmatch_rep, rep_range.
  destruct (Nat.eqb_spec (List.length t) 9) as [Hl|Hl].
  - rewrite take_ge, drop_ge by lia. rewrite Hl. simpl.
    by destruct (forallb (in_range "0" "9") t).
  - destruct (9 <=? List.length t) eqn:H9; simpl; [|done].
    destruct (forallb _ (take 9 t)); simpl; [|done].
    apply Nat.leb_le in H9.
    destruct (drop 9 t) eqn:Hd; [|done].
    apply (f_equal List.length) in Hd. rewrite length_drop in Hd. simpl in Hd. lia.
Qed.

(** ** The button follows the values *)

Lemma validateField_values st k : values (snd (validateField st k)) = values st.
Proof. unfold validateField. by destruct (check k (values st k)). Qed.

Lemma validateField_verdict st k : fst (validateField st k) = valid k (values st k).
Proof. unfold validateField, valid. by destruct (check k (values st k)). Qed.

Lemma every_valid_spec st ks :
  fst (every_valid st ks) = forallb (fun k => valid k (values st k)) ks /\
  values (snd (every_valid st ks)) = values st.
Proof.
  revert st. induction ks as [|k ks IH]; intros st; [done|]. simpl.
  pose proof (validateField_values st k) as Hv.
  pose proof (validateField_verdict st k) as Hok.
  destruct (validateField st k) as [ok st'] eqn:E. simpl in Hv, Hok. subst ok.
  destruct (valid k (values st k)); simpl; [|done].
  destruct (IH st') as [-> ->]. by rewrite Hv.
Qed.

Lemma updateSaveState_spec st :
  values (updateSaveState st) = values st /\
  save_disabled (updateSaveState st) = negb (can_save (values st)).
Proof.
  unfold updateSaveState, can_save.
  destruct (every_valid_spec st (List.filter (filled (values st)) form_fields)) as [Hok Hv].
  destruct (every_valid st _) as [ok st']. simpl in *. by rewrite Hv, Hok.
Qed.

(** The state a form is in once [updateSaveState] has run. *)
Definition settled (st : form_state) : Prop := save_disabled st = negb (can_save (values st)).

Lemma settled_updateSaveState st : settled (updateSaveState st).
Proof.
  unfold settled. destruct (updateSaveState_spec st) as [-> ->]. done.
Qed.

Lemma on_input_values st f v : values (on_input st f v) = update (values st) f v.
Proof.
  unfold on_input. destruct (updateSaveState_spec (snd (validateField
    (FormState (update (values st) f v) (errors st) (save_disabled st)) f))) as [-> _].
  by rewrite validateField_values.
Qed.

Lemma run_events_settled es st : settled st -> settled (foldl apply_event st es).
Proof.
  revert st. induction es as [|[f v] es IH]; intros st Hst; [done|].
  simpl. apply IH. apply settled_updateSaveState.
Qed.

(** C7: in every state the form reaches from the one [toggleDetailsRow]
    builds, whatever was typed in which order, the Save button is enabled
    exactly when some field is filled and every filled field is valid. *)
Theorem save_button_invariant (es : list event) :
  save_disabled (run_events es) = negb (can_save (values (run_events es))).
Proof. apply run_events_settled, settled_updateSaveState. Qed.

(** ** What an enabled button sends *)

Lemma check_trim k raw : check k (trim raw) = check k raw.
Proof. unfold check. by rewrite trim_idem. Qed.

Lemma forallb_filter_Forall (v : field -> string) :
  forallb (fun k => valid k (v k)) (List.filter (filled v) form_fields) = true ->
  Forall (fun k => filled v k = true /\ valid k (v k) = true) (List.filter (filled v) form_fields).
Proof.
  intros H. apply List.Forall_forall. intros k Hk. rewrite forallb_forall in H.
  split; [by apply filter_In in Hk as [_ ?] | by apply H].
Qed.

(** C8: when the Save button is enabled, clicking it sends a PUT request
    whose body is not empty and pairs each key with the trimmed value of
    its field, a value that is not empty and passes [validateField]. *)
Theorem enabled_save_sends_valid_values (es : list event) :
  save_disabled (run_events es) = false ->
  exists body, save_body (run_events es) = Some body /\ body <> [] /\
    Forall (fun kv => exists f, kv.1 = field_key f /\ kv.2 = trim (values (run_events es) f) /\ kv.2 <> EmptyString /\ valid f kv.2 = true) body.
Proof.
  assert (Hs : save_disabled (run_events es) = negb (can_save (values (run_events es))))
    by (apply run_events_settled, settled_updateSaveState).
  rewrite Hs. set (v := values (run_events es)).
  intros H. apply negb_false_iff in H. unfold can_save in H. fold v in H.
  apply andb_true_iff in H as [Hlen Hall]. unfold save_body. fold v.
  apply forallb_filter_Forall in Hall.
  destruct (List.filter (filled v) form_fields) as [|k ks] eqn:E; [done|].
  eexists; split; [reflexivity|]. split; [done|].
  apply Forall_map. eapply Forall_impl; [exact Hall|]. intros f [Hf Hv]. simpl.
  exists f. do 2 (split; [done|]). unfold filled in Hf. apply negb_true_iff in Hf. split.
  - by apply String.eqb_neq.
  - unfold valid in *. by rewrite check_trim.
Qed.

Lemma enabled_save_sends_valid_values_witness :
  save_disabled (run_events [Input MobileNumber "9876543210"]) = false /\
  exists body, save_body (run_events [Input MobileNumber "9876543210"]) = Some body /\ body <> [] /\
    Forall (fun kv => exists f, kv.1 = field_key f /\ kv.2 = trim (values (run_events [Input MobileNumber "9876543210"]) f) /\ kv.2 <> EmptyString /\ valid f kv.2 = true) body.
Proof.
  assert (H : save_disabled (run_events [Input MobileNumber "9876543210"]) = false)
    by (vm_compute; reflexivity).
  split; [exact H|]. exact (enabled_save_sends_valid_values _ H).
Defined.

(** A form with nothing filled sends nothing: [saveVoterDetails] returns
    before the request. *)
Lemma save_body_empty : save_body initial_form = None.
Proof. reflexivity. Qed.

End VoterForm.
