(* ===== verification/VoterTable.v ===== *)
(** * The voter tables of the two dashboards

    Both dashboards render the voters the backend returns as table rows
    through [innerHTML].  The worker dashboard's [renderVoterRows]
    (worker.js 80-115) passes every value through [safe] and pads each row
    to the header's column count; the candidate dashboard's analytics list
    ([applyVoterFilters], candidate.js 426-443) interpolates the values as
    they come.

    A row is modelled as the list of its cells' HTML, the fixed markup of
    the template around the cells being left out.  The worker renderer is
    written against any escaper of the class [HtmlEscaper]; its theorems
    are proved against the class, and [safe]'s escaper discharges them.
    The candidate renderer is shown to put a voter's name into the page
    unescaped. *)

From stdpp Require Import base list strings gmap.
From Stdlib Require Import Ascii String Lia.
From S2P Require Import Prelude JsCore Escape.

Open Scope jp_scope.

Module VoterTable.
Import Html.

(** A property read with the backend's two spellings,
    [v.Key ?? v.key]. *)
Definition prop2 (v : jsobj) (k1 k2 : string) : jsval := get v k1 ?? get v k2.

(** ** The worker dashboard: renderVoterRows *)

Section WorkerRows.
Context (esc : string -> string) `{!HtmlEscaper esc}.

(** [safe(x ?? '')] written with the escaper of the section. *)
Definition cell (x : jsval) : string := esc (to_js_string (x ?? JStr EmptyString)).

(** The eight cells of worker.js 93-104, in order. *)
Definition voter_cells (v : jsobj) : list string :=
  [cell (prop2 v "ID" "id");
   cell (prop2 v "Name" "name");
   cell (prop2 v "Father's or Husband's name" "father_or_husband_name");
   cell (prop2 v "Age" "age");
   cell (prop2 v "Gender" "gender");
   cell (prop2 v "House number" "house_number");
   cell (prop2 v "EPIC number" "epic_number");
   formatAffiliation (prop2 v "Political Affiliation" "political_affiliation")].

(** The loop of worker.js 106-108: one empty cell per missing column. *)
Fixpoint pad (k : nat) (cells : list string) : list string :=
  match k with
  | 0 => cells
  | S k' => pad k' (cells ++ [EmptyString])
  end.

Definition voter_row (colCount : nat) (v : jsobj) : list string :=
  let cells := voter_cells v in pad (colCount - List.length cells) cells.

(** What [tbody] holds: the 'No voters found' row spanning the columns,
    or one row per voter. *)
Inductive table := NoVotersRow (colspan : nat) | VoterRows (rows : list (list string)).

Definition renderVoterRows_with (voters : list jsobj) (colCount : nat) : table :=
  match voters with
  | [] => NoVotersRow colCount
  | _ => VoterRows (map (voter_row colCount) voters)
  end.

(** The shown text of a property: its [String()] form, or nothing. *)
Definition shown (x : jsval) : string := if nullish x then EmptyString else to_js_string x.

Lemma pad_length k cells : List.length (pad k cells) = k + List.length cells.
Proof.
  revert cells. induction k as [|k IH]; intros cells; [done|].
  simpl. rewrite IH, length_app. simpl. lia.
Qed.

Lemma pad_prefix k cells : exists extra, pad k cells = cells ++ extra /\ Forall (eq EmptyString) extra.
Proof.
  revert cells. induction k as [|k IH]; intros cells; [exists []; by rewrite app_nil_r|].
  simpl. destruct (IH (cells ++ [EmptyString])) as [extra [-> Hx]].
  exists (EmptyString :: extra). rewrite <- app_assoc. split; [done|by constructor].
Qed.

Lemma cell_inert x : str_forall (fun c => negb (is_markup c)) (cell x) = true.
Proof. unfold cell. apply escaper_inert. Qed.

Lemma cell_decodes x : unescape_html (cell x) = shown x.
Proof. unfold cell, shown. rewrite escaper_faithful. by destruct x. Qed.

(** C9: each voter row of the worker dashboard has as many cells as the
    header has columns (at least its eight), its first seven cells carry no
    markup and read, once the browser decodes them, as the record's ID,
    name, father's or husband's name, age, gender, house number and EPIC
    number, and the cells past the eighth are empty.  Proved against any
    escaper that meets the [HtmlEscaper] contract. *)
Theorem voter_row_spec (colCount : nat) (v : jsobj) :
  let row := voter_row colCount v in
  List.length row = Nat.max 8 colCount /\
  (exists extra, row = voter_cells v ++ extra /\ Forall (eq EmptyString) extra) /\
  Forall (fun c => str_forall (fun ch => negb (is_markup ch)) c = true) (take 7 row) /\
  map unescape_html (take 7 row) =
    map (fun '(k1, k2) => shown (prop2 v k1 k2))
      [("ID", "id"); ("Name", "name");
       ("Father's or Husband's name", "father_or_husband_name"); ("Age", "age");
       ("Gender", "gender"); ("House number", "house_number"); ("EPIC number", "epic_number")].
Proof.
  intros row. destruct (pad_prefix (colCount - 8) (voter_cells v)) as [extra [Hrow Hx]].
  assert (Hr : row = voter_cells v ++ extra) by exact Hrow.
  split; [unfold row, voter_row; rewrite pad_length; simpl; lia|].
  split; [by exists extra|].
  rewrite Hr. simpl. split.
  - repeat constructor; apply cell_inert.
  - by rewrite !cell_decodes.
Qed.

End WorkerRows.

(** [renderVoterRows] of worker.js, with [safe]'s escaper. *)
Definition renderVoterRows (voters : list jsobj) (colCount : nat) : table :=
  renderVoterRows_with escape_html voters colCount.

Lemma cell_safe (x : jsval) : cell escape_html x = safe x.
Proof. reflexivity. Qed.

Definition sample_voter : jsobj := {[ "Name" := JStr "Asha <b>"; "age" := JNum 41 ]}.

Lemma voter_row_spec_witness :
  let row := voter_row escape_html 9 sample_voter in
  List.length row = Nat.max 8 9 /\
  (exists extra, row = voter_cells escape_html sample_voter ++ extra /\ Forall (eq EmptyString) extra) /\
  Forall (fun c => str_forall (fun ch => negb (is_markup ch)) c = true) (take 7 row) /\
  map unescape_html (take 7 row) =
    map (fun '(k1, k2) => shown (prop2 sample_voter k1 k2))
      [("ID", "id"); ("Name", "name");
       ("Father's or Husband's name", "father_or_husband_name"); ("Age", "age");
       ("Gender", "gender"); ("House number", "house_number"); ("EPIC number", "epic_number")].
Proof. exact (voter_row_spec escape_html 9 sample_voter). Defined.

(** ** The candidate dashboard: the analytics voter list *)

(** [<td><span class="badge CLS">AFF</span></td>] of candidate.js 438. *)
Definition badge_cell (cls label : string) : string :=
  "<span class=" +s+ str1 dq +s+ "badge " +s+ cls +s+ str1 dq +s+ ">" +s+ label +s+ "</span>".

(** candidate.js 432-440: the five cells of a voter.  [${x || ''}] is
    [String(x || '')].  [getAffiliationClass] may throw ([None]). *)
Definition analytics_cells (v : jsobj) : option (list string) :=
  match getAffiliationClass (get v "Political Affiliation") with
  | None => None
  | Some cls =>
      Some [to_js_string (js_or (get v "Name") (JStr EmptyString));
            to_js_string (js_or (get v "Age") (JStr EmptyString));
            to_js_string (js_or (get v "Gender") (JStr EmptyString));
            badge_cell cls (to_js_string (js_or (get v "Political Affiliation") (JStr "Empty")));
            to_js_string (js_or (get v "Key Issues") (JStr EmptyString))]
  end.

(** What the analytics [tbody] shows after the request: the rows, the
    'No voters match the criteria.' row, or, when rendering throws, the
    'Error loading data.' row of the [catch] (445-447). *)
Inductive analytics_view := AnalyticsRows (rows : list (list string)) | NoMatchRow | ErrorRow.

Fixpoint all_cells (vs : list jsobj) : option (list (list string)) :=
  match vs with
  | [] => Some []
  | v :: vs' =>
      match analytics_cells v, all_cells vs' with
      | Some c, Some cs => Some (c :: cs)
      | _, _ => None
      end
  end.

Definition render_analytics (voters : list jsobj) : analytics_view :=
  match voters with
  | [] => NoMatchRow
  | _ => match all_cells voters with Some rows => AnalyticsRows rows | None => ErrorRow end
  end.

(** C10: the candidate dashboard puts a voter's name into its table as it
    is: for a name that is a non-empty string, the first cell is the name
    itself, markup included. *)
Theorem analytics_name_unescaped (v : jsobj) (name : string) :
  get v "Name" = JStr name -> name <> EmptyString ->
  getAffiliationClass (get v "Political Affiliation") <> None ->
  exists cells, analytics_cells v = Some cells /\ head cells = Some name.
Proof.
  intros Hn Hne Hcls. unfold analytics_cells.
  destruct (getAffiliationClass _) as [cls|]; [|done].
  eexists; split; [reflexivity|]. simpl. rewrite Hn. unfold js_or, truthy.
  by destruct (String.eqb_spec name EmptyString).
Qed.

Definition script_name : string := "<img src=x onerror=alert(1)>".

Lemma analytics_name_unescaped_witness :
  get {[ "Name" := JStr script_name ]} "Name" = JStr script_name /\
  script_name <> EmptyString /\
  getAffiliationClass (get {[ "Name" := JStr script_name ]} "Political Affiliation") <> None /\
  exists cells, analytics_cells {[ "Name" := JStr script_name ]} = Some cells /\
    head cells = Some script_name.
Proof.
  assert (H1 : get {[ "Name" := JStr script_name ]} "Name" = JStr script_name) by reflexivity.
  assert (H2 : script_name <> EmptyString) by discriminate.
  assert (H3 : getAffiliationClass (get {[ "Name" := JStr script_name ]} "Political Affiliation") <> None)
    by (vm_compute; discriminate).
  split; [exact H1|]. split; [exact H2|]. split; [exact H3|].
  exact (analytics_name_unescaped _ _ H1 H2 H3).
Defined.

(** The same name is inert in the worker dashboard. *)
Example worker_name_escaped :
  str_forall (fun c => negb (is_markup c)) (safe (JStr script_name)) = true.
Proof. reflexivity. Qed.

End VoterTable.
