(* ===== verification/VoterDetails.v ===== *)
(** * The voter details row of the worker dashboard

    worker.js 117-153.  A click on a voter's name calls
    [toggleDetailsRow(row, voter, colCount)]: when the row is already
    followed by its details row, that row is removed and nothing else
    happens; otherwise every details row of the table is removed and a new
    one is opened under the row, showing the voter's details (each value
    through [safe], or through [formatValue], which shows a 'Not provided'
    placeholder for an empty value) and the editing form of VoterForm.

    The table's details are modelled as the row they follow, if any, with
    the form opened with it ([VoterForm.initial_form]); the details grid
    is the template's text, written out.

    Proved: a second click on the same name closes the details; a click
    on another name opens that voter's details with a fresh form, so what
    was typed in the other form is discarded; [formatValue] shows the
    placeholder exactly for falsy values and 'Not provided', and otherwise
    [safe]'s markup-free text. *)

From stdpp Require Import base list strings gmap.
From Stdlib Require Import Ascii String ZArith Lia.
From S2P Require Import Prelude JsCore Escape VoterForm VoterTable.

Open Scope jp_scope.

Module VoterDetails.
Import Html.

Definition not_provided : string := "<span class=" +s+ quote "not-provided" +s+ ">Not provided</span>".

(** 128-133 [formatValue(value)] *)
Definition formatValue (value : jsval) : string :=
  if negb (truthy value) || bool_decide (value = JStr EmptyString) || bool_decide (value = JStr "Not provided")
  then not_provided else safe value.

Definition detail (label value : string) : string :=
  "      <p><strong>" +s+ label +s+ ":</strong> " +s+ value +s+ "</p>" +s+ nl.

(** 147: [a ?? b ? formatAffiliation(a ?? b) : placeholder]. *)
Definition affiliation_detail (voter : jsobj) : string :=
  let a := VoterTable.prop2 voter "Political Affiliation" "political_affiliation" in
  if truthy a then formatAffiliation a else not_provided.

(** 135-151, the template as written. *)
Definition staticDetails (voter : jsobj) : string :=
  let p := VoterTable.prop2 voter in
  nl +s+ "    <div class=" +s+ quote "details-grid" +s+ ">" +s+ nl +s+
  detail "ID" (safe (p "ID" "id")) +s+
  detail "Name" (safe (p "Name" "name")) +s+
  detail "Father/Husband" (formatValue (p "Father's or Husband's name" "father_or_husband_name")) +s+
  detail "Age" (safe (p "Age" "age")) +s+
  detail "Gender" (safe (p "Gender" "gender")) +s+
  detail "House Number" (safe (p "House number" "house_number")) +s+
  detail "EPIC Number" (safe (p "EPIC number" "epic_number")) +s+
  detail "Mobile" (formatValue (p "Mobile Number" "mobile_number")) +s+
  detail "Occupation" (formatValue (p "Occupation" "occupation")) +s+
  detail "Education" (formatValue (p "Education Level" "education_level")) +s+
  detail "Political Affiliation" (affiliation_detail voter) +s+
  detail "Key Issues" (formatValue (p "Key Issues" "key_issues")) +s+
  detail "Remarks" (formatValue (p "Remarks" "remarks")) +s+
  "    </div>" +s+ nl +s+ "  ".

(** The table's details row: the index of the row it follows, the voter
    it shows and its form. *)
Record opened := Opened { after : nat; shown : jsobj; form : VoterForm.form_state }.

(** 117-125 [toggleDetailsRow] for the row [i] of [voter]. *)
Definition toggleDetailsRow (i : nat) (voter : jsobj) (d : option opened) : option opened :=
  match d with
  | Some o => if Nat.eqb (after o) i then None else Some (Opened i voter VoterForm.initial_form)
  | None => Some (Opened i voter VoterForm.initial_form)
  end.

(** ** Properties *)

(** A second click on the same name closes what the first opened. *)
Theorem toggle_twice_closes i voter d :
  toggleDetailsRow i voter (toggleDetailsRow i voter d) = match d with
    | Some o => if Nat.eqb (after o) i then Some (Opened i voter VoterForm.initial_form) else None
    | None => None
    end.
Proof. destruct d as [o|]; simpl; [destruct (Nat.eqb (after o) i) eqn:E|]; simpl; rewrite ?Nat.eqb_refl; done. Qed.

(** Opening another voter's details discards the open form, whatever was
    typed in it. *)
Theorem toggle_other_discards i voter o :
  after o <> i -> toggleDetailsRow i voter (Some o) = Some (Opened i voter VoterForm.initial_form).
Proof. intros H. simpl. by rewrite (proj2 (Nat.eqb_neq _ _) H). Qed.

Lemma formatValue_spec v :
  (formatValue v = not_provided /\
     (truthy v = false \/ v = JStr "Not provided")) \/
  (formatValue v = safe v /\ truthy v = true /\ v <> JStr "Not provided").
Proof.
  unfold formatValue. destruct (truthy v) eqn:Ht; simpl; [|left; split; [done|by left]].
  case_bool_decide as H1; [subst; discriminate|]. simpl.
  case_bool_decide as H2; simpl; [left; split; [done|by right]|]. right. auto.
Qed.

Definition sample_voter : jsobj := {[ "Name" := JStr "Asha"; "age" := JNum 41; "Mobile Number" := JStr EmptyString ]}.

Example sample_details :
  staticDetails sample_voter =
  nl +s+ "    <div class=" +s+ quote "details-grid" +s+ ">" +s+ nl +s+
  detail "ID" EmptyString +s+ detail "Name" "Asha" +s+ detail "Father/Husband" not_provided +s+
  detail "Age" "41" +s+ detail "Gender" EmptyString +s+ detail "House Number" EmptyString +s+
  detail "EPIC Number" EmptyString +s+ detail "Mobile" not_provided +s+ detail "Occupation" not_provided +s+
  detail "Education" not_provided +s+ detail "Political Affiliation" not_provided +s+
  detail "Key Issues" not_provided +s+ detail "Remarks" not_provided +s+ "    </div>" +s+ nl +s+ "  ".
Proof. vm_compute. reflexivity. Qed.

End VoterDetails.
