(* ===== verification/VoterPaging.v ===== *)
(** * Paging through the worker dashboard's voter list

    worker.js keeps the page in the global [currentPage] (line 5).  The
    Previous and Next buttons, the Search button (and Enter in the search
    box), the page-size select and the gender select change it (283-320,
    680-688) and call [fetchVoters] (30-70), which sends
    [GET /api/voters?page=..&per_page=..[&gender=..][&search=..]] and, when
    the answer arrives, renders the rows, the 'Page p of n' text and the
    [disabled] flags of the two buttons.

    [fetchVoters] is [async]: several requests can be in flight, and their
    answers are rendered in the order they arrive.  The model keeps the
    requests in flight in [pending]; an answer to any of them is a step.
    The backend is the class [VoterApi]: the client's theorems hold for
    every backend.  The state also records, as ghost state, the query of
    the latest [fetchVoters] ([last_query]).

    Proved: the page never drops below 1; if answers arrive in the order
    the requests were sent, a settled table shows the answer for the
    current page; answers that overtake each other leave the table on
    another page than [currentPage]; and fast clicks on Next send requests
    past the last page. *)

From stdpp Require Import base list strings gmap.
From Stdlib Require Import Ascii String ZArith Lia.
From S2P Require Import Prelude JsCore.

Open Scope jp_scope.

Module VoterPaging.

(** The parameters of [URLSearchParams], in order. *)
Abbreviation query := (list (string * string)).

(** The values of the gender select, the search box and the page-size
    select ([parseInt] of its value). *)
Record controls := Controls { gender_value : string; search_value : string; entries_value : Z }.

(** The answer to [/api/voters]: [res.ok], [data.page] and [data.pages]
    (0 when absent), [data.items]. *)
Record response := Response { res_ok : bool; res_page : Z; res_pages : Z; res_items : list jsobj }.

(** The backend, as the client sees it. *)
Class VoterApi := { voters_api : query -> response }.

(** What the table body shows. *)
Inductive view := Initial | LoadingRow | ErrorRow | RowsOf (items : list jsobj).

Record vstate := VState {
  currentPage : Z;
  entriesPerPage : Z;
  ctl : controls;
  pending : list query;            (** requests in flight, oldest first *)
  view_of : view;
  page_info : option (Z * Z);      (** the 'Page p of n' text, once set *)
  prev_disabled : bool;
  next_disabled : bool;
  last_query : option query        (** ghost: the query of the latest fetch *)
}.

(** Line 5-6 and the page as loaded: no request yet, buttons enabled. *)
Definition init (c : controls) : vstate := VState 1%Z 50%Z c [] Initial None false false None.

Definition set_page (p : Z) (st : vstate) : vstate :=
  VState p (entriesPerPage st) (ctl st) (pending st) (view_of st) (page_info st)
    (prev_disabled st) (next_disabled st) (last_query st).

Definition set_ctl (c : controls) (st : vstate) : vstate :=
  VState (currentPage st) (entriesPerPage st) c (pending st) (view_of st) (page_info st)
    (prev_disabled st) (next_disabled st) (last_query st).

(** ** fetchVoters, worker.js 30-70 *)

(** Lines 38-39: the trimmed gender, with 'all' in any case read as none. *)
Definition norm_gender (g : string) : string :=
  let g := trim g in if String.eqb (to_lower g) "all" then EmptyString else g.

Definition z_str (z : Z) : string := to_js_string (JNum z).

(** Lines 46-51. *)
Definition voters_query (page per : Z) (c : controls) : query :=
  [("page", z_str page); ("per_page", z_str per)] ++
  (let g := norm_gender (gender_value c) in if str_truthy g then [("gender", g)] else []) ++
  (let s := trim (search_value c) in if str_truthy s then [("search", s)] else []).

(** The synchronous part of [fetchVoters] (lines 37-54): read the
    controls, show 'Loading...', send the request. *)
Definition fetchVoters (st : vstate) : vstate :=
  let per := entries_value (ctl st) in
  let q := voters_query (currentPage st) per (ctl st) in
  VState (currentPage st) per (ctl st) (pending st ++ [q]) LoadingRow (page_info st)
    (prev_disabled st) (next_disabled st) (Some q).

(** The part after [await] (lines 55-69), on the answer [r]. *)
Definition on_response (st : vstate) (r : response) : vstate :=
  if res_ok r then
    let page := if Z.eqb (res_page r) 0 then 1%Z else res_page r in
    let pages := if Z.eqb (res_pages r) 0 then 1%Z else res_pages r in
    VState (currentPage st) (entriesPerPage st) (ctl st) (pending st) (RowsOf (res_items r))
      (Some (page, pages)) (Z.leb page 1) (Z.leb pages page) (last_query st)
  else
    VState (currentPage st) (entriesPerPage st) (ctl st) (pending st) ErrorRow
      (page_info st) (prev_disabled st) (next_disabled st) (last_query st).

Definition answer (i : nat) (st : vstate) : vstate :=
  VState (currentPage st) (entriesPerPage st) (ctl st) (delete i (pending st)) (view_of st)
    (page_info st) (prev_disabled st) (next_disabled st) (last_query st).

(** ** The controls, worker.js 289-320 and 680-688 *)

Definition on_prev (st : vstate) : vstate :=
  if Z.ltb 1 (currentPage st) then fetchVoters (set_page (currentPage st - 1)%Z st) else st.

Definition on_next (st : vstate) : vstate := fetchVoters (set_page (currentPage st + 1)%Z st).

(** Search, Enter in the search box, page size, gender. *)
Definition on_reset (st : vstate) : vstate := fetchVoters (set_page 1%Z st).

(** What the table shows once the answer [r] is rendered. *)
Definition view_after (r : response) : view := if res_ok r then RowsOf (res_items r) else ErrorRow.

Section Steps.
Context `{VoterApi}.

(** One event.  A disabled button fires no click.  [fetchVoters] alone is
    also called by the page load (691-694), by [showSection('manageVoters')]
    (19) and after a save (265).  When [fifo] holds, only the oldest
    request in flight can be answered. *)
Inductive vstep (fifo : bool) : vstate -> vstate -> Prop :=
| step_fetch st : vstep fifo st (fetchVoters st)
| step_prev st : prev_disabled st = false -> vstep fifo st (on_prev st)
| step_next st : next_disabled st = false -> vstep fifo st (on_next st)
| step_reset st : vstep fifo st (on_reset st)
| step_controls st c : vstep fifo st (set_ctl c st)
| step_answer st i q :
    pending st !! i = Some q -> (fifo = false \/ i = 0) ->
    vstep fifo st (on_response (answer i st) (voters_api q)).

Inductive reachable (fifo : bool) (c0 : controls) : vstate -> Prop :=
| reach_init : reachable fifo c0 (init c0)
| reach_step st st' : reachable fifo c0 st -> vstep fifo st st' -> reachable fifo c0 st'.

(** ** What each handler leaves unchanged *)

Lemma fetchVoters_fields st :
  currentPage (fetchVoters st) = currentPage st /\
  last_query (fetchVoters st) = Some (voters_query (currentPage st) (entries_value (ctl st)) (ctl st)) /\
  pending (fetchVoters st) = pending st ++ [voters_query (currentPage st) (entries_value (ctl st)) (ctl st)].
Proof. done. Qed.

Lemma on_response_fields st r :
  currentPage (on_response st r) = currentPage st /\ pending (on_response st r) = pending st /\
  last_query (on_response st r) = last_query st /\ view_of (on_response st r) = view_after r.
Proof. unfold on_response, view_after. by destruct (res_ok r). Qed.

Lemma page_after_step fifo st st' :
  vstep fifo st st' ->
  currentPage st' = currentPage st \/ currentPage st' = 1%Z \/
  currentPage st' = (currentPage st + 1)%Z \/
  (1 < currentPage st /\ currentPage st' = currentPage st - 1)%Z.
Proof.
  destruct 1 as [st|st _|st _|st|st c|st i q _ _]; simpl; auto.
  - unfold on_prev. destruct (Z.ltb_spec 1 (currentPage st)); simpl; [|auto].
    right; right; right. split; [lia|done].
  - left. unfold on_response. by destruct (res_ok _).
Qed.

(** C11: in every state the dashboard can reach, whatever the order of
    clicks, control changes and answers, [currentPage] is at least 1: the
    Previous button's guard keeps it from going below. *)
Theorem page_at_least_one fifo c0 st : reachable fifo c0 st -> (1 <= currentPage st)%Z.
Proof.
  induction 1 as [|st st' _ IH Hs]; [simpl; lia|].
  destruct (page_after_step _ _ _ Hs) as [->|[->|[->|[? ->]]]]; lia.
Qed.

(** ** Answers delivered in order *)

Definition fifo_inv (st : vstate) : Prop :=
  match last_query st with
  | None => pending st = []
  | Some q =>
      (exists per c, q = voters_query (currentPage st) per c) /\
      (pending st = [] -> view_of st = view_after (voters_api q)) /\
      (pending st <> [] -> last (pending st) = Some q)
  end.

Lemma fifo_inv_fetch st : fifo_inv (fetchVoters st).
Proof.
  unfold fifo_inv. destruct (fetchVoters_fields st) as (-> & -> & ->).
  split; [eauto|]. split.
  - intros Hnil. by apply app_eq_nil in Hnil as [_ ?].
  - intros _. apply last_snoc.
Qed.

Lemma fifo_inv_answer st q :
  fifo_inv st -> pending st !! 0 = Some q -> fifo_inv (on_response (answer 0 st) (voters_api q)).
Proof.
  unfold fifo_inv. destruct (on_response_fields (answer 0 st) (voters_api q)) as (-> & -> & -> & ->).
  simpl. destruct (pending st) as [|q0 rest] eqn:Hp; [done|]. intros Hinv [= ->].
  destruct (last_query st) as [lq|]; [|done]. destruct Hinv as (Hq & _ & Hlast).
  split; [done|]. specialize (Hlast ltac:(done)). destruct rest as [|q1 rest'].
  - simpl in Hlast. injection Hlast as ->. split; [done|]. done.
  - split; [done|]. intros _. by rewrite <- Hlast.
Qed.

Lemma fifo_inv_step st st' : fifo_inv st -> vstep true st st' -> fifo_inv st'.
Proof.
  intros Hinv Hs. destruct Hs as [st|st _|st _|st|st c|st i q Hq Hi].
  - apply fifo_inv_fetch.
  - unfold on_prev. destruct (Z.ltb 1 (currentPage st)); [apply fifo_inv_fetch|done].
  - apply fifo_inv_fetch.
  - apply fifo_inv_fetch.
  - done.
  - destruct Hi as [Hf| ->]; [discriminate|]. by apply fifo_inv_answer.
Qed.

Lemma reachable_fifo_inv c0 st : reachable true c0 st -> fifo_inv st.
Proof. induction 1 as [|st0 st1 _ IH Hs]; [exact eq_refl|]. by eapply fifo_inv_step. Qed.

(** C12: when every answer arrives in the order its request was sent, a
    table with no request in flight shows the backend's answer for the
    current page (for the page size and filters read by the latest
    [fetchVoters]). *)
Theorem fifo_settled_shows_current_page c0 st :
  reachable true c0 st -> pending st = [] -> last_query st <> None ->
  exists per c, view_of st = view_after (voters_api (voters_query (currentPage st) per c)).
Proof.
  intros Hr Hnil Hlq.
  pose proof (reachable_fifo_inv c0 st Hr) as Hinv. unfold fifo_inv in Hinv. destruct (last_query st) as [q|]; [|done].
  destruct Hinv as ([per [c ->]] & Hview & _). exists per, c. by apply Hview.
Qed.

End Steps.

(** ** Two runs of the dashboard *)

Definition c0 : controls := Controls EmptyString EmptyString 50.

Definition has_page_2 (q : query) : bool :=
  existsb (fun kv => String.eqb kv.1 "page" && String.eqb kv.2 "2") q.

(** A backend that serves page 1 or 2 of five, as asked. *)
Definition page_api : VoterApi :=
  {| voters_api q := Response true (if has_page_2 q then 2 else 1) 5 [] |}.

Definition q_page (p : Z) : query := voters_query p 50 c0.

Lemma page_at_least_one_witness :
  @reachable page_api false c0 (on_prev (fetchVoters (init c0))) /\
  (1 <= currentPage (on_prev (fetchVoters (init c0))))%Z.
Proof.
  assert (H : @reachable page_api false c0 (on_prev (fetchVoters (init c0)))).
  { eapply reach_step; [|apply step_prev; reflexivity].
    eapply reach_step; [apply reach_init|apply step_fetch]. }
  split; [exact H|exact (page_at_least_one _ _ _ H)].
Defined.

Definition race_s1 : vstate := fetchVoters (init c0).
Definition race_s2 : vstate := on_next race_s1.
Definition race_s3 : vstate := on_response (answer 1 race_s2) (@voters_api page_api (q_page 2)).
Definition race_s4 : vstate := on_response (answer 0 race_s3) (@voters_api page_api (q_page 1)).

Definition fifo_s2 : vstate := on_response (answer 0 race_s1) (@voters_api page_api (q_page 1)).

Lemma fifo_settled_shows_current_page_witness :
  @reachable page_api true c0 fifo_s2 /\ pending fifo_s2 = [] /\ last_query fifo_s2 <> None /\
  exists per c, view_of fifo_s2 =
    view_after (@voters_api page_api (voters_query (currentPage fifo_s2) per c)).
Proof.
  assert (Hr : @reachable page_api true c0 fifo_s2).
  { eapply reach_step; [eapply reach_step; [apply reach_init|apply step_fetch]|].
    apply step_answer; [reflexivity|by right]. }
  assert (Hp : pending fifo_s2 = []) by reflexivity.
  assert (Hl : last_query fifo_s2 <> None) by discriminate.
  split; [exact Hr|]. split; [exact Hp|]. split; [exact Hl|].
  exact (@fifo_settled_shows_current_page page_api c0 _ Hr Hp Hl).
Defined.

(** C13: answers that overtake each other leave the table on a page that
    is not [currentPage]: after a load and a click on Next, the answer for
    page 2 arrives first and the answer for page 1 last, and the settled
    dashboard says 'Page 1 of 5' while [currentPage] is 2. *)
Theorem stale_answer_shows_other_page :
  @reachable page_api false c0 race_s4 /\
  pending race_s4 = [] /\ currentPage race_s4 = 2%Z /\ page_info race_s4 = Some (1%Z, 5%Z).
Proof.
  split; [|vm_compute; auto].
  eapply reach_step; [|apply step_answer; [reflexivity|by left]].
  eapply reach_step; [|apply step_answer; [reflexivity|by left]].
  eapply reach_step; [|apply step_next; reflexivity].
  eapply reach_step; [apply reach_init|apply step_fetch].
Qed.

(** A backend whose list has two pages, and always serves the first. *)
Definition two_pages_api : VoterApi := {| voters_api _ := Response true 1 2 [] |}.

Definition over_s2 : vstate :=
  on_response (answer 0 (fetchVoters (init c0))) (@voters_api two_pages_api (q_page 1)).
Definition over_s4 : vstate := on_next (on_next over_s2).
Definition over_s5 : vstate := on_response (answer 0 over_s4) (@voters_api two_pages_api (q_page 2)).
Definition over_s6 : vstate := on_response (answer 0 over_s5) (@voters_api two_pages_api (q_page 3)).

(** C14: the Next button has no guard of its own; it counts on the
    [disabled] flag set by the last answer.  Two clicks before the answer
    arrives, with answers in order, make the dashboard ask for page 3 of a
    list of two pages. *)
Theorem next_overshoots_last_page :
  @reachable two_pages_api true c0 over_s6 /\
  pending over_s6 = [] /\ page_info over_s6 = Some (1%Z, 2%Z) /\
  currentPage over_s6 = 3%Z /\ last_query over_s6 = Some (q_page 3).
Proof.
  split; [|vm_compute; auto].
  eapply reach_step; [|apply (step_answer _ _ 0 (q_page 3)); [reflexivity|by right]].
  eapply reach_step; [|apply (step_answer _ _ 0 (q_page 2)); [reflexivity|by right]].
  eapply reach_step; [|apply step_next; reflexivity].
  eapply reach_step; [|apply step_next; reflexivity].
  eapply reach_step; [|apply (step_answer _ _ 0 (q_page 1)); [reflexivity|by right]].
  eapply reach_step; [apply reach_init|apply step_fetch].
Qed.

End VoterPaging.
