(* ===== verification/Households.v ===== *)
(** * The households table of the worker dashboard

    worker.js keeps the households the backend returned in [allHouseholds]
    and the page in [householdCurrentPage] (325-330).  [renderHouseholds]
    (410-463) filters the households by the search box (house number,
    case-insensitive), computes the page count, clamps the page into it,
    slices the page out and renders it; the Previous/Next buttons, the
    search box and the page-size select re-render (467-504).

    Page sizes are the options of the page-size select, positive integers
    (an empty or missing select reads as 25).  [h.house_number] is a JSON
    value: [(h.house_number || '').toLowerCase()] throws a TypeError on a
    truthy value that is not a string, and then nothing is rendered.

    Proved: the page is clamped into [1, totalPages] and holds at most a
    page size of households; the pages cover the matching households
    exactly once and in order; a household matches exactly when its house
    number contains the search text, ignoring case; the render fails
    exactly when some house number is a truthy non-string. *)

From stdpp Require Import base list strings gmap.
From Stdlib Require Import Ascii String ZArith Lia.
From S2P Require Import Prelude JsCore Escape.

Open Scope jp_scope.

Module Households.
Import Html.

(** A household of [/api/household-data]: its house number and its
    voters ([h.voters || []]). *)
Record household := Household { house_number : jsval; hh_voters : list jsobj }.

(** [(h.house_number || '').toLowerCase()]: [None] is the TypeError. *)
Definition house_key (h : household) : option string :=
  match js_or (house_number h) (JStr EmptyString) with
  | JStr s => Some (to_lower s)
  | _ => None
  end.

(** [allHouseholds.filter(h => key(h).includes(searchTerm))], which
    throws if any key throws. *)
Fixpoint filter_households (term : string) (hs : list household) : option (list household) :=
  match hs with
  | [] => Some []
  | h :: hs' =>
      match house_key h, filter_households term hs' with
      | Some k, Some rest => Some (if includes k term then h :: rest else rest)
      | _, _ => None
      end
  end.

(** [Math.max(1, Math.ceil(n / per))] for a positive page size. *)
Definition total_pages (n per : nat) : nat := Nat.max 1 ((n + per - 1) / per).

(** [filtered.slice((page - 1) * per, page * per)] *)
Definition page_items {A} (l : list A) (per page : nat) : list A :=
  take per (drop ((page - 1) * per) l).

(** The HTML of a voter chip (436-443): [data-id] and the coordinates are
    written as they come, the name and landmark through [safe]. *)
Definition chip (v : jsobj) : list string :=
  [to_js_string (get v "id"); safe (get v "name"); safe (js_or (get v "landmark") (JStr EmptyString));
   to_js_string (js_or (get v "latitude") (JStr EmptyString));
   to_js_string (js_or (get v "longitude") (JStr EmptyString)); safe (get v "name")].

Definition household_row (h : household) : string * list (list string) :=
  (safe (house_number h), map chip (hh_voters h)).

(** What [tbody] shows. *)
Inductive hview := HInitial | HRows (rows : list (string * list (list string))) | NoHouseholds.

Record hstate := HState {
  hpage : nat;                    (** householdCurrentPage *)
  hper : nat;                     (** householdEntriesPerPage *)
  all_households : list household;
  search_value : string;          (** the search box *)
  per_value : option positive;    (** the page-size select, [None] when empty *)
  tbody : hview;
  page_info : option (nat * nat)
}.

Definition per_of (o : option positive) : nat :=
  match o with Some p => Pos.to_nat p | None => 25 end.

(** worker.js 410-463 [renderHouseholds]; [None] when it throws. *)
Definition renderHouseholds (st : hstate) : option hstate :=
  let term := to_lower (search_value st) in
  let per := per_of (per_value st) in
  match filter_households term (all_households st) with
  | None => None
  | Some filtered =>
      let total := total_pages (List.length filtered) per in
      let page := if total <? hpage st then total else hpage st in
      let items := page_items filtered per page in
      Some (HState page per (all_households st) (search_value st) (per_value st)
              (match items with [] => NoHouseholds | _ => HRows (map household_row items) end)
              (Some (page, total)))
  end.

(** [fetchHouseholds] (399-408) on a successful answer. *)
Definition on_households (hs : list household) (st : hstate) : option hstate :=
  renderHouseholds (HState (hpage st) (hper st) hs (search_value st) (per_value st) (tbody st) (page_info st)).

(** The handlers of 472-504, as written (whether they are installed is
    the business of the script's initialisation, see [WorkerInit]). *)
Definition on_household_prev (st : hstate) : option hstate :=
  if 1 <? hpage st then
    renderHouseholds (HState (hpage st - 1) (hper st) (all_households st) (search_value st)
                        (per_value st) (tbody st) (page_info st))
  else Some st.

Definition on_household_search (v : string) (st : hstate) : option hstate :=
  renderHouseholds (HState 1 (hper st) (all_households st) v (per_value st) (tbody st) (page_info st)).

Definition on_household_entries (o : option positive) (st : hstate) : option hstate :=
  renderHouseholds (HState 1 (hper st) (all_households st) (search_value st) o (tbody st) (page_info st)).

(** The households that match the search text, by the specification:
    the house number (missing or empty read as empty) contains the text,
    both lowercased. *)
Definition matches (term : string) (h : household) : Prop :=
  exists s, js_or (house_number h) (JStr EmptyString) = JStr s /\ includes (to_lower s) term = true.

(** ** Paging *)

Lemma total_pages_pos n per : 1 <= total_pages n per.
Proof. unfold total_pages. lia. Qed.

Lemma total_pages_cover n per : 0 < per -> n <= total_pages n per * per.
Proof.
  intros Hper. unfold total_pages.
  pose proof (Nat.div_mod_eq (n + per - 1) per) as Hd.
  pose proof (Nat.mod_upper_bound (n + per - 1) per ltac:(lia)) as Hm.
  set (q := (n + per - 1) / per) in *. set (r := (n + per - 1) mod per) in *.
  rewrite (Nat.mul_comm per q) in Hd.
  assert (q * per <= Nat.max 1 q * per) by (apply Nat.mul_le_mono_r; lia). lia.
Qed.

Lemma pages_prefix {A} (l : list A) per k :
  List.concat (map (page_items l per) (seq 1 k)) = take (k * per) l.
Proof.
  induction k as [|k IH]; [done|].
  rewrite seq_S, map_app, concat_app, IH. simpl. rewrite app_nil_r.
  unfold page_items. replace (S k - 1) with k by lia.
  rewrite take_take_drop. f_equal. lia.
Qed.

(** C15: the pages [renderHouseholds] can show, from the first to the
    last, hold every matching household exactly once and in order. *)
Theorem pages_partition {A} (l : list A) (per : nat) :
  0 < per -> List.concat (map (page_items l per) (seq 1 (total_pages (List.length l) per))) = l.
Proof.
  intros Hper. rewrite pages_prefix. apply take_ge. by apply total_pages_cover.
Qed.

Lemma pages_partition_witness :
  0 < 2 /\ List.concat (map (page_items [1; 2; 3; 4; 5] 2) (seq 1 (total_pages 5 2))) = [1; 2; 3; 4; 5].
Proof. split; [lia|]. exact (pages_partition [1; 2; 3; 4; 5] 2 ltac:(lia)). Defined.

Lemma length_page_items {A} (l : list A) per page : List.length (page_items l per page) <= per.
Proof. unfold page_items. rewrite length_take. lia. Qed.

Lemma per_of_pos o : 0 < per_of o.
Proof. destruct o; simpl; lia. Qed.

(** C16: a render that succeeds leaves the page inside [1, totalPages],
    writes 'Page p of totalPages' with that page, and shows at most a page
    size of households. *)
Theorem render_clamps st st' :
  1 <= hpage st -> renderHouseholds st = Some st' ->
  exists total, page_info st' = Some (hpage st', total) /\ 1 <= hpage st' <= total /\
    0 < hper st' /\
    match tbody st' with HRows rows => List.length rows <= hper st' | _ => True end.
Proof.
  intros Hp. unfold renderHouseholds.
  destruct (filter_households _ _) as [filtered|]; [|done]. intros [= <-]. simpl.
  set (total := total_pages _ _). pose proof (total_pages_pos (List.length filtered) (per_of (per_value st))).
  exists total. split; [done|]. split; [destruct (Nat.ltb_spec total (hpage st)); lia|].
  split; [apply per_of_pos|].
  destruct (page_items _ _ _) as [|x xs] eqn:E; [done|].
  rewrite length_map, <- E. apply length_page_items.
Qed.

Definition sample_households : list household :=
  [Household (JStr "12-A") []; Household (JStr "12-B") []; Household JNull []].

Definition sample_hstate : hstate :=
  HState 7 25 sample_households "12" (Some 1%positive) HInitial None.

Lemma render_clamps_witness :
  1 <= hpage sample_hstate /\
  exists st', renderHouseholds sample_hstate = Some st' /\
  exists total, page_info st' = Some (hpage st', total) /\ 1 <= hpage st' <= total /\
    0 < hper st' /\
    match tbody st' with HRows rows => List.length rows <= hper st' | _ => True end.
Proof.
  assert (Hp : 1 <= hpage sample_hstate) by (simpl; lia).
  split; [exact Hp|].
  destruct (renderHouseholds sample_hstate) as [st'|] eqn:E; [|discriminate].
  exists st'. split; [reflexivity|]. exact (render_clamps _ _ Hp E).
Defined.

(** ** The search filter *)

Lemma house_key_spec h k :
  house_key h = Some k <-> exists s, js_or (house_number h) (JStr EmptyString) = JStr s /\ k = to_lower s.
Proof.
  unfold house_key. destruct (js_or _ _); naive_solver.
Qed.

Lemma house_key_none h :
  house_key h = None <-> truthy (house_number h) = true /\ forall s, house_number h <> JStr s.
Proof.
  unfold house_key, js_or. destruct (house_number h) as [| |[]|z|s]; simpl;
    try destruct (Z.eqb z 0); try destruct (String.eqb s EmptyString); simpl; naive_solver.
Qed.

(** C17: the search keeps, in their order, exactly the households whose
    house number contains the lowercased search text, ignoring its case;
    and it throws, so that nothing is rendered, exactly when some house
    number is a truthy value that is not a string. *)
Theorem filter_households_spec term hs :
  (filter_households term hs = None <->
     Exists (fun h => truthy (house_number h) = true /\ forall s, house_number h <> JStr s) hs) /\
  (forall l, filter_households term hs = Some l ->
     sublist l hs /\ forall h, In h l <-> In h hs /\ matches term h).
Proof.
  induction hs as [|h hs [IHn IHs]]; simpl.
  - split; [split; [discriminate|intros H; inversion H]|].
    intros l [= <-]. split; [constructor|]. intros h'. simpl. tauto.
  - split.
    + rewrite Exists_cons, <- house_key_none, <- IHn.
      destruct (house_key h), (filter_households term hs); simpl; intuition congruence.
    + intros l Hl. destruct (house_key h) as [k|] eqn:Hk; [|done].
      destruct (filter_households term hs) as [rest|]; [|done].
      destruct (IHs rest eq_refl) as [Hsub Hin]. injection Hl as <-.
      apply house_key_spec in Hk as (s & Hs & ->).
      destruct (includes (to_lower s) term) eqn:Hi.
      * assert (Hm : matches term h) by (exists s; split; done).
        split; [by constructor|]. intros h'. simpl. rewrite Hin. split.
        -- intros [<-|[Hin' Hm']]; split; auto.
        -- intros [[<-|Hin'] Hm']; [by left|by right].
      * split; [by constructor|]. intros h'. rewrite Hin. simpl. split.
        -- intros [Hin' Hm']. split; [by right|done].
        -- intros [[<-|Hin'] Hm']; [|done].
           destruct Hm' as (s' & Hs' & Hi'). rewrite Hs in Hs'. injection Hs' as <-. congruence.
Qed.

End Households.
