(* ===== verification/WorkerInit.v ===== *)
(** * The top-level statements of worker.js

    Besides its functions, worker.js is a sequence of top-level statements
    that look up page elements and install event listeners (283-320,
    467-504, 549-564, 618-633, 662-677, 680-688, 691-694).  A classic
    script stops at the first uncaught exception: the statements after it
    never run.

    Line 483, [householdNextBtn.disabled = householdCurrentPage >=
    totalPages], reads a global [totalPages] that no script declares (the
    name is a local of [renderHouseholds]).  The model runs the statements
    in a small exception monad over the set of installed listeners; the
    global names the page defines are a parameter, so the theorems hold for
    every page that does not define [totalPages].

    Proved: on a page with the household Next button, initialisation
    throws a ReferenceError at line 483 and installs none of the listeners
    after it (household search and page size, the task, message and report
    forms, Enter in the search box, and the DOMContentLoaded loader); on a
    page without it, every listener of a present element is installed; and
    the household Previous button is left disabled. *)

From stdpp Require Import base list strings sets.
From Stdlib Require Import Ascii String.
From S2P Require Import Prelude.

Open Scope jp_scope.

Module WorkerInit.

(** Which of the elements the statements look up the page has. *)
Record page := Page {
  has_prevPage : bool; has_nextPage : bool; has_searchBtn : bool;
  has_entriesPerPage : bool; has_genderFilter : bool;
  has_householdPrevPage : bool; has_householdNextPage : bool;
  has_householdSearchInput : bool; has_householdEntriesPerPage : bool;
  has_taskForm : bool; has_messageForm : bool; has_reportForm : bool;
  has_searchInput : bool
}.

(** The listeners the statements install, by the element and event. *)
Inductive listener :=
| VoterPrevClick | VoterNextClick | VoterSearchClick | VoterEntriesChange | VoterGenderChange
| HouseholdPrevClick | HouseholdNextClick | HouseholdSearchInput | HouseholdEntriesChange
| TaskSubmit | MessageSubmit | ReportSubmit | SearchEnterKey | DomContentLoaded.

#[export] Instance listener_eq_dec : EqDecision listener.
Proof. solve_decision. Defined.

Inductive exn := ReferenceError (name : string).

Record istate := IState {
  listeners : list listener;           (** installed, in order *)
  household_prev_disabled : option bool
}.

(** A statement: it completes ([None]) or throws, and changes the state. *)
Definition stmt := istate -> option exn * istate.

Definition skip : stmt := fun st => (None, st).

Definition seq (s1 s2 : stmt) : stmt :=
  fun st => match s1 st with (None, st') => s2 st' | (Some e, st') => (Some e, st') end.

Local Notation "s1 ;; s2" := (seq s1 s2) (at level 100, s2 at level 200, right associativity).

(** [if (el) { ... }] *)
Definition when (b : bool) (s : stmt) : stmt := if b then s else skip.

(** [el.addEventListener(...)] or [el.onX = ...] *)
Definition listen (l : listener) : stmt :=
  fun st => (None, IState (listeners st ++ [l]) (household_prev_disabled st)).

(** Reading a global: a ReferenceError when the page does not define it. *)
Definition read_global (globals : list string) (x : string) : stmt :=
  fun st => if decide (x ∈ globals) then (None, st) else (Some (ReferenceError x), st).

(** Line 473: [householdPrevBtn.disabled = householdCurrentPage <= 1]
    with [householdCurrentPage] = 1 (line 325). *)
Definition set_household_prev_disabled : stmt :=
  fun st => (None, IState (listeners st) (Some (Nat.leb 1 1))).

(** The top-level statements of worker.js, in order. *)
Definition worker_top (globals : list string) (p : page) : stmt :=
  (* 289-320 *)
  when (has_prevPage p) (listen VoterPrevClick) ;;
  when (has_nextPage p) (listen VoterNextClick) ;;
  when (has_searchBtn p) (listen VoterSearchClick) ;;
  when (has_entriesPerPage p) (listen VoterEntriesChange) ;;
  when (has_genderFilter p) (listen VoterGenderChange) ;;
  (* 472-480 *)
  when (has_householdPrevPage p) (set_household_prev_disabled ;; listen HouseholdPrevClick) ;;
  (* 482-490: the right-hand side of line 483 reads totalPages *)
  when (has_householdNextPage p) (read_global globals "totalPages" ;; listen HouseholdNextClick) ;;
  (* 492-504 *)
  when (has_householdSearchInput p) (listen HouseholdSearchInput) ;;
  when (has_householdEntriesPerPage p) (listen HouseholdEntriesChange) ;;
  (* 549-564, 618-633, 662-677 *)
  when (has_taskForm p) (listen TaskSubmit) ;;
  when (has_messageForm p) (listen MessageSubmit) ;;
  when (has_reportForm p) (listen ReportSubmit) ;;
  (* 680-688 *)
  when (has_searchInput p) (listen SearchEnterKey) ;;
  (* 691-694 *)
  listen DomContentLoaded.

(** The global names worker.js declares at its top level. *)
Definition worker_globals : list string :=
  ["currentPage"; "entriesPerPage"; "showSection"; "fetchVoters"; "formatAffiliation";
   "renderVoterRows"; "toggleDetailsRow"; "saveVoterDetails"; "safe"; "prevBtnEl";
   "nextBtnEl"; "searchBtnEl"; "entriesEl"; "genderEl"; "householdCurrentPage";
   "householdEntriesPerPage"; "allHouseholds"; "activeVoterId"; "mapInstance"; "marker";
   "openVoterLocationModal"; "initVoterMap"; "saveLocationDetails"; "closeLocationModal";
   "fetchHouseholds"; "renderHouseholds"; "householdPrevBtn"; "householdNextBtn";
   "householdSearchInput"; "householdEntriesEl"; "fetchTasks"; "taskForm";
   "updateTaskStatus"; "deleteTask"; "fetchMessages"; "messageForm"; "fetchReports";
   "reportForm"; "searchInputEl"].

Definition init_state : istate := IState [] None.

(** The listeners of the statements before line 483. *)
Definition early_listeners (p : page) : list listener :=
  (if has_prevPage p then [VoterPrevClick] else []) ++
  (if has_nextPage p then [VoterNextClick] else []) ++
  (if has_searchBtn p then [VoterSearchClick] else []) ++
  (if has_entriesPerPage p then [VoterEntriesChange] else []) ++
  (if has_genderFilter p then [VoterGenderChange] else []) ++
  (if has_householdPrevPage p then [HouseholdPrevClick] else []).

(** The listeners of the statements after it. *)
Definition late_listeners (p : page) : list listener :=
  (if has_householdSearchInput p then [HouseholdSearchInput] else []) ++
  (if has_householdEntriesPerPage p then [HouseholdEntriesChange] else []) ++
  (if has_taskForm p then [TaskSubmit] else []) ++
  (if has_messageForm p then [MessageSubmit] else []) ++
  (if has_reportForm p then [ReportSubmit] else []) ++
  (if has_searchInput p then [SearchEnterKey] else []) ++ [DomContentLoaded].

(** ** Lemmas on statements *)

Lemma seq_none s1 s2 st st' : s1 st = (None, st') -> (s1 ;; s2) st = s2 st'.
Proof. intros H. unfold seq. by rewrite H. Qed.

Lemma seq_some s1 s2 st e st' : s1 st = (Some e, st') -> (s1 ;; s2) st = (Some e, st').
Proof. intros H. unfold seq. by rewrite H. Qed.

Lemma when_listen b l st :
  when b (listen l) st = (None, IState (listeners st ++ (if b then [l] else [])) (household_prev_disabled st)).
Proof. destruct b; simpl; [done|]. by rewrite app_nil_r; destruct st. Qed.

Lemma when_prev b st :
  when b (set_household_prev_disabled ;; listen HouseholdPrevClick) st =
  (None, IState (listeners st ++ (if b then [HouseholdPrevClick] else []))
                (if b then Some true else household_prev_disabled st)).
Proof. destruct b; simpl; [done|]. by rewrite app_nil_r; destruct st. Qed.

Lemma when_read_fail globals s st :
  "totalPages" ∉ globals ->
  when true (read_global globals "totalPages" ;; s) st = (Some (ReferenceError "totalPages"), st).
Proof. intros H. simpl. unfold seq, read_global. by rewrite decide_False. Qed.

Ltac run_listeners :=
  repeat first [ erewrite seq_none; [|apply when_listen] | erewrite seq_none; [|apply when_prev] ].

Lemma early_state p :
  exists st, (forall s, (when (has_prevPage p) (listen VoterPrevClick) ;;
    when (has_nextPage p) (listen VoterNextClick) ;;
    when (has_searchBtn p) (listen VoterSearchClick) ;;
    when (has_entriesPerPage p) (listen VoterEntriesChange) ;;
    when (has_genderFilter p) (listen VoterGenderChange) ;;
    when (has_householdPrevPage p) (set_household_prev_disabled ;; listen HouseholdPrevClick) ;; s)
      init_state = s st) /\
  st = IState (early_listeners p) (if has_householdPrevPage p then Some true else None).
Proof.
  eexists. split; [intros s; run_listeners; reflexivity|].
  unfold early_listeners. simpl. by rewrite <- !app_assoc.
Qed.

(** The listeners installed before line 483. *)
Definition is_early (l : listener) : bool :=
  match l with
  | VoterPrevClick | VoterNextClick | VoterSearchClick | VoterEntriesChange
  | VoterGenderChange | HouseholdPrevClick => true
  | _ => false
  end.

Lemma early_listeners_early p : Forall (fun l => is_early l = true) (early_listeners p).
Proof. unfold early_listeners. repeat apply Forall_app_2; case_match; repeat constructor. Qed.

Lemma late_listeners_late p : Forall (fun l => is_early l = false) (late_listeners p).
Proof. unfold late_listeners. repeat apply Forall_app_2; try case_match; repeat constructor. Qed.

(** C18: on every page with the household Next button, and whatever
    globals the page defines besides [totalPages], worker.js stops with a
    ReferenceError at line 483: the only listeners installed are those of
    the voter pagination controls and of the household Previous button;
    neither the forms' submit handlers, nor the household search, nor the
    DOMContentLoaded loader of the voter and household lists are. *)
Theorem init_stops_at_totalPages globals p :
  "totalPages" ∉ globals -> has_householdNextPage p = true ->
  worker_top globals p init_state =
    (Some (ReferenceError "totalPages"),
     IState (early_listeners p) (if has_householdPrevPage p then Some true else None)) /\
  Forall (fun l => l ∉ early_listeners p) (late_listeners p).
Proof.
  intros Hg Hn. split.
  - destruct (early_state p) as [st [Hrun ->]]. unfold worker_top. rewrite Hrun, Hn.
    erewrite seq_some; [done|]. by apply when_read_fail.
  - eapply Forall_impl; [apply late_listeners_late|]. intros l Hl Hin.
    pose proof (early_listeners_early p) as He. rewrite Forall_forall in He.
    specialize (He l Hin). congruence.
Qed.

Definition full_page : page := Page true true true true true true true true true true true true true.

Lemma init_stops_at_totalPages_witness :
  "totalPages" ∉ worker_globals /\ has_householdNextPage full_page = true /\
  worker_top worker_globals full_page init_state =
    (Some (ReferenceError "totalPages"),
     IState (early_listeners full_page) (if has_householdPrevPage full_page then Some true else None)) /\
  Forall (fun l => l ∉ early_listeners full_page) (late_listeners full_page).
Proof.
  assert (Hg : "totalPages" ∉ worker_globals) by (apply (bool_decide_eq_true_1 ("totalPages" ∉ worker_globals)); vm_compute; reflexivity).
  assert (Hn : has_householdNextPage full_page = true) by reflexivity.
  split; [exact Hg|]. split; [exact Hn|]. exact (init_stops_at_totalPages _ _ Hg Hn).
Defined.

(** C19: on a page without the household Next button the statements run
    to the end and install the listener of every element the page has,
    the DOMContentLoaded loader last; the household Previous button is
    still left [disabled] (line 473), and no statement enables it. *)
Theorem init_completes_without_household_next globals p :
  has_householdNextPage p = false ->
  worker_top globals p init_state =
    (None, IState (early_listeners p ++ late_listeners p)
                  (if has_householdPrevPage p then Some true else None)).
Proof.
  intros Hn. destruct (early_state p) as [st [Hrun ->]]. unfold worker_top. rewrite Hrun, Hn.
  erewrite seq_none; [|reflexivity]. run_listeners.
  unfold listen, late_listeners. simpl. by rewrite <- !app_assoc.
Qed.

Definition page_without_household_next : page :=
  Page true true true true true true false true true true true true true.

Lemma init_completes_without_household_next_witness :
  has_householdNextPage page_without_household_next = false /\
  worker_top worker_globals page_without_household_next init_state =
    (None, IState (early_listeners page_without_household_next ++ late_listeners page_without_household_next)
                  (if has_householdPrevPage page_without_household_next then Some true else None)).
Proof.
  assert (Hn : has_householdNextPage page_without_household_next = false) by reflexivity.
  split; [exact Hn|]. exact (init_completes_without_household_next _ _ Hn).
Defined.

End WorkerInit.
