(* ===== verification/Navigation.v ===== *)
(** * Switching dashboard sections: the three copies of [showSection]

    main.js (4-25), worker.js (9-24) and candidate.js (22-59) each define
    a [showSection(sectionId)] that the navigation links call from their
    [onclick] attributes.  All three hide every [.dashboard-section], show
    the element [document.getElementById(sectionId)], clear the [active]
    class of every [.main-nav a] and set it again on the link of the
    section; they differ in how they find that link:
    - main.js asks [querySelector] for the first link whose [onclick] is
      exactly [showSection('ID')];
    - worker.js takes the first link whose [onclick] contains [ID];
    - candidate.js marks every link whose [onclick] contains ['ID'].
    The worker and candidate copies then start the loaders of the section.

    The document is modelled as the list of its elements in document order
    (an id, whether it is a [.dashboard-section], its inline [display]) and
    the list of the navigation links (their [onclick] attribute and whether
    they are [active]).

    Proved: the sections are hidden and the first element with the id is
    shown, in each copy; the three copies mark the same link when the
    links are the canonical [showSection('x')] calls and no other link's
    call contains the id; the worker's copy marks a wrong link when
    another call does contain it. *)

From stdpp Require Import base list strings sets.
From Stdlib Require Import Ascii String Lia.
From S2P Require Import Prelude JsCore.

Open Scope jp_scope.

Module Navigation.

Record element := Element { el_id : string; el_section : bool; el_display : string }.
Record link := Link { onclick : option string; active : bool }.
Record dom := Dom { elements : list element; nav_links : list link }.

(** [document.querySelectorAll('.dashboard-section').forEach(s => s.style.display = 'none')] *)
Definition hide_sections (es : list element) : list element :=
  map (fun e => if el_section e then Element (el_id e) true "none" else e) es.

(** The first element with the id gets [display = 'block']. *)
Fixpoint show_first_in (id : string) (es : list element) : list element :=
  match es with
  | [] => []
  | e :: es' =>
      if String.eqb (el_id e) id then Element (el_id e) (el_section e) "block" :: es'
      else e :: show_first_in id es'
  end.

(** [const t = document.getElementById(id); if (t) t.style.display = 'block']:
    [getElementById('')] is [null]. *)
Definition show_first (id : string) (es : list element) : list element :=
  if String.eqb id EmptyString then es else show_first_in id es.

Definition show_sections (id : string) (es : list element) : list element :=
  show_first id (hide_sections es).

(** [document.querySelectorAll('.main-nav a').forEach(l => l.classList.remove('active'))] *)
Definition clear_active (ls : list link) : list link :=
  map (fun l => Link (onclick l) false) ls.

(** [classList.add('active')] on the first link whose attribute passes [p]. *)
Fixpoint activate_first (p : option string -> bool) (ls : list link) : list link :=
  match ls with
  | [] => []
  | l :: ls' => if p (onclick l) then Link (onclick l) true :: ls' else l :: activate_first p ls'
  end.

(** The attribute a navigation link of the templates carries. *)
Definition call (x : string) : string := "showSection('" +s+ x +s+ "')".

(** ** main.js *)

(** Characters that end or break the CSS string [\"showSection('ID')\"] of
    the selector (a double quote, a line feed, a carriage return, a form
    feed), and the backslash, which starts a CSS escape. *)
Definition css_breaks (c : ascii) : bool := existsb (N.eqb (code c)) [34; 10; 13; 12]%N.
Definition css_backslash (c : ascii) : bool := N.eqb (code c) 92.

(** [a[onclick=\"showSection('ID')\"]] matches an attribute equal to the call. *)
Definition main_match (id : string) (o : option string) : bool :=
  bool_decide (o = Some (call id)).

(** What main.js's [showSection] does: it shows the section and marks the
    link; or, when the id breaks the selector, [querySelector] throws a
    SyntaxError once the sections are switched and the links cleared.
    An id with a backslash, whose selector denotes a CSS-unescaped value,
    is left out of the model. *)
Inductive main_result := MainShown (d : dom) | MainSyntaxError (d : dom) | MainEscaped.

Definition main_showSection (id : string) (d : dom) : main_result :=
  let es := show_sections id (elements d) in
  let ls := clear_active (nav_links d) in
  if str_forall (fun c => negb (css_breaks c)) id then
    if str_forall (fun c => negb (css_backslash c)) id then
      MainShown (Dom es (activate_first (main_match id) ls))
    else MainEscaped
  else MainSyntaxError (Dom es ls).

(** main.js 28-33: the first section is shown once the page is loaded. *)
Fixpoint show_default (es : list element) : list element :=
  match es with
  | [] => []
  | e :: es' => if el_section e then Element (el_id e) true "block" :: es' else e :: show_default es'
  end.

(** ** worker.js *)

(** [a.getAttribute('onclick') && a.getAttribute('onclick').includes(id)] *)
Definition worker_match (id : string) (o : option string) : bool :=
  match o with Some s => str_truthy s && includes s id | None => false end.

(** The loaders [showSection] starts, in both dashboards. *)
Inductive loader :=
| FetchVoters | FetchHouseholds | FetchTasks | FetchMessages | FetchReports
| LoadCommandCenterData | LoadWardMap | LoadOverdueTasks | LoadBoothPerformance
| LoadTopIssues | LoadSegmentPerformance | ApplyVoterFilters | LoadCampaignHub | LoadBoothStrategy.

(** worker.js 19-23 *)
Definition worker_loaders (id : string) : list loader :=
  (if String.eqb id "manageVoters" then [FetchVoters] else []) ++
  (if String.eqb id "householdData" then [FetchHouseholds] else []) ++
  (if String.eqb id "campaignTasks" then [FetchTasks] else []) ++
  (if String.eqb id "communication" then [FetchMessages] else []) ++
  (if String.eqb id "reports" then [FetchReports] else []).

Definition worker_showSection (id : string) (d : dom) : dom * list loader :=
  (Dom (show_sections id (elements d)) (activate_first (worker_match id) (clear_active (nav_links d))),
   worker_loaders id).

(** ** candidate.js *)

(** [l.getAttribute('onclick') && l.getAttribute('onclick').includes(`'ID'`)] *)
Definition candidate_match (id : string) (o : option string) : bool :=
  match o with Some s => str_truthy s && includes s ("'" +s+ id +s+ "'") | None => false end.

(** candidate.js 38-58, the [switch] on the id. *)
Definition candidate_loaders (id : string) : list loader :=
  if String.eqb id "commandCenter" then
    [LoadCommandCenterData; LoadWardMap; LoadOverdueTasks; LoadBoothPerformance;
     LoadTopIssues; LoadSegmentPerformance]
  else if String.eqb id "voterAnalytics" then [ApplyVoterFilters]
  else if String.eqb id "campaignHub" then [LoadCampaignHub]
  else if String.eqb id "boothStrategy" then [LoadBoothStrategy]
  else [].

(** candidate.js 30-35: one pass that clears and re-marks each link. *)
Definition candidate_showSection (id : string) (d : dom) : dom * list loader :=
  (Dom (show_sections id (elements d))
       (map (fun l => Link (onclick l) (candidate_match id (onclick l))) (nav_links d)),
   candidate_loaders id).

(** ** Which element is shown *)

Definition first_in (id : string) (es : list element) : option nat :=
  fst <$> list_find (fun e => el_id e = id) es.

(** [getElementById(id)]: the position of the first element with the id,
    none for the empty id. *)
Definition first_with (id : string) (es : list element) : option nat :=
  if String.eqb id EmptyString then None else first_in id es.

(** The element at position [i] once the sections are switched: the first
    element with the id is [block], the other sections [none], the rest as
    it was. *)
Definition shown_after (id : string) (es : list element) (i : nat) (e : element) : element :=
  Element (el_id e) (el_section e)
    (if decide (first_with id es = Some i) then "block"
     else if el_section e then "none" else el_display e).

Lemma first_in_cons id e es :
  first_in id (e :: es) = if decide (el_id e = id) then Some 0 else S <$> first_in id es.
Proof.
  unfold first_in. simpl. case_decide; [done|].
  by destruct (list_find _ es) as [[k y]|].
Qed.

Lemma show_first_in_lookup id es i :
  show_first_in id es !! i =
  (fun e => if decide (first_in id es = Some i) then Element (el_id e) (el_section e) "block" else e) <$> es !! i.
Proof.
  revert i. induction es as [|e es IH]; intros i; [done|].
  rewrite first_in_cons.
  change (show_first_in id (e :: es)) with (if String.eqb (el_id e) id
    then Element (el_id e) (el_section e) "block" :: es else e :: show_first_in id es).
  destruct (String.eqb_spec (el_id e) id); case_decide; try congruence;
    cbn beta iota; rewrite !lookup_cons; destruct i as [|j];
    try rewrite IH; destruct (first_in id es); try destruct (es !! j); simpl;
    repeat case_decide; simpl in *; simplify_eq; done.
Qed.

Lemma show_first_lookup id es i :
  show_first id es !! i =
  (fun e => if decide (first_with id es = Some i) then Element (el_id e) (el_section e) "block" else e) <$> es !! i.
Proof.
  unfold show_first, first_with. destruct (String.eqb id EmptyString); [|apply show_first_in_lookup].
  by destruct (es !! i).
Qed.

Lemma first_in_hide id es : first_in id (hide_sections es) = first_in id es.
Proof.
  induction es as [|e es IH]; [done|]. change (hide_sections (e :: es)) with
    ((if el_section e then Element (el_id e) true "none" else e) :: hide_sections es).
  rewrite !first_in_cons, IH. by destruct (el_section e).
Qed.

Lemma first_with_hide id es : first_with id (hide_sections es) = first_with id es.
Proof. unfold first_with. destruct (String.eqb id EmptyString); [done|apply first_in_hide]. Qed.

(** C21: in each of the three copies, the element at every position after
    [showSection(id)] is the first element with that id, shown as [block],
    or a section hidden as [none], or an element left as it was. *)
Theorem show_sections_spec id es i :
  show_sections id es !! i = shown_after id es i <$> es !! i.
Proof.
  unfold show_sections. rewrite show_first_lookup, first_with_hide.
  unfold hide_sections. rewrite list_lookup_fmap.
  destruct (es !! i) as [[x sec disp]|]; simpl; [|done].
  unfold shown_after. simpl. case_decide; destruct sec; done.
Qed.

(** ** Which link is marked *)

(** The links of the templates, [onclick=\"showSection('x')\"] for the
    sections [xs], with the link of [id] marked. *)
Definition marked (id : string) (xs : list string) : list link :=
  map (fun x => Link (Some (call x)) (bool_decide (x = id))) xs.

Lemma call_inj x y : call x = call y -> x = y.
Proof. unfold call. intros H. apply str_app_inv_l, str_app_inv_r in H. done. Qed.

Lemma includes_call_quoted x : includes (call x) ("'" +s+ x +s+ "'") = true.
Proof.
  replace (call x) with ("showSection(" +s+ ("'" +s+ x +s+ "'") +s+ ")"); [apply includes_middle|].
  unfold call. str_simpl. by rewrite !str_app_assoc.
Qed.

Lemma call_truthy x : str_truthy (call x) = true.
Proof. reflexivity. Qed.

(** Relabelling canonical links by a test that agrees with [x = id]. *)
Lemma relabel_marked (f : option string -> bool) id xs ls :
  map onclick ls = map (fun x => Some (call x)) xs ->
  (forall x, x ∈ xs -> f (Some (call x)) = bool_decide (x = id)) ->
  map (fun l => Link (onclick l) (f (onclick l))) ls = marked id xs.
Proof.
  revert ls. induction xs as [|x xs IH]; intros [|l ls] Hl Hf; simplify_eq/=; [done|].
  rewrite H, Hf by set_solver. f_equal. apply IH; [done|]. intros y Hy. apply Hf. set_solver.
Qed.

Lemma activate_first_marked (p : option string -> bool) id xs ls :
  map onclick ls = map (fun x => Some (call x)) xs -> NoDup xs ->
  (forall x, x ∈ xs -> p (Some (call x)) = bool_decide (x = id)) ->
  activate_first p (clear_active ls) = marked id xs.
Proof.
  revert ls. induction xs as [|x xs IH]; intros [|l ls] Hl Hnd Hp; simplify_eq/=; [done|].
  apply NoDup_cons in Hnd as [Hx Hnd]. rewrite H, Hp by set_solver.
  case_bool_decide as Hxi; simpl.
  - f_equal. subst x. apply (relabel_marked (fun _ => false)); [done|]. intros y Hy.
    rewrite bool_decide_false; [done|]. intros ->. contradiction.
  - f_equal. apply IH; [done..|]. intros y Hy. apply Hp. set_solver.
Qed.

Section Agree.
Context (id : string) (xs : list string).
Hypothesis Hcalls : forall x, x ∈ xs -> x <> id -> includes (call x) id = false.

Lemma main_match_canonical x : main_match id (Some (call x)) = bool_decide (x = id).
Proof.
  unfold main_match. apply bool_decide_ext. split; [|by intros ->].
  intros Heq. apply call_inj. congruence.
Qed.

Lemma worker_match_canonical x : x ∈ xs -> worker_match id (Some (call x)) = bool_decide (x = id).
Proof.
  intros Hx. unfold worker_match. rewrite call_truthy, andb_true_l.
  case_bool_decide as E; [subst; apply includes_middle|].
  by apply Hcalls.
Qed.

Lemma candidate_match_canonical x : x ∈ xs -> candidate_match id (Some (call x)) = bool_decide (x = id).
Proof.
  intros Hx. unfold candidate_match. rewrite call_truthy, andb_true_l.
  case_bool_decide as E; [subst; apply includes_call_quoted|].
  destruct (includes (call x) _) eqn:Hi; [|done]. exfalso.
  assert (includes (call x) id = true) by (eapply includes_trans; [exact Hi|apply includes_middle]).
  by rewrite Hcalls in H.
Qed.

End Agree.

(** C22: on navigation links that are the canonical calls of distinct
    sections, the three copies of [showSection] agree: each switches the
    sections the same way and marks exactly the link of the id, as long as
    no other link's call contains the id (and, for main.js's selector, the
    id neither breaks nor escapes the CSS string). *)
Theorem nav_variants_agree id xs es ls :
  map onclick ls = map (fun x => Some (call x)) xs -> NoDup xs ->
  str_forall (fun c => negb (css_breaks c)) id = true ->
  str_forall (fun c => negb (css_backslash c)) id = true ->
  (forall x, x ∈ xs -> x <> id -> includes (call x) id = false) ->
  main_showSection id (Dom es ls) = MainShown (Dom (show_sections id es) (marked id xs)) /\
  fst (worker_showSection id (Dom es ls)) = Dom (show_sections id es) (marked id xs) /\
  fst (candidate_showSection id (Dom es ls)) = Dom (show_sections id es) (marked id xs).
Proof.
  intros Hl Hnd Hb Hs Hc. unfold main_showSection, worker_showSection, candidate_showSection.
  simpl. rewrite Hb, Hs. split; [|split]; do 2 f_equal.
  - apply activate_first_marked; [done..|]. intros x _. apply main_match_canonical.
  - apply activate_first_marked; [done..|]. intros x Hx. by apply (worker_match_canonical id xs).
  - apply relabel_marked; [done|]. intros x Hx. by apply (candidate_match_canonical id xs).
Qed.

(** The sections of the worker dashboard, whose loaders [showSection]
    starts. *)
Definition worker_sections : list string :=
  ["manageVoters"; "householdData"; "campaignTasks"; "communication"; "reports"].

Definition canonical (xs : list string) : list link := map (fun x => Link (Some (call x)) false) xs.

Definition sample_sections : list element :=
  [Element "manageVoters" true "block"; Element "reports" true EmptyString; Element "footer" false "flex"].

Lemma nav_variants_agree_witness :
  let id := "reports" in
  map onclick (canonical worker_sections) = map (fun x => Some (call x)) worker_sections /\
  NoDup worker_sections /\
  str_forall (fun c => negb (css_breaks c)) id = true /\
  str_forall (fun c => negb (css_backslash c)) id = true /\
  (forall x, x ∈ worker_sections -> x <> id -> includes (call x) id = false) /\
  main_showSection id (Dom sample_sections (canonical worker_sections)) =
    MainShown (Dom (show_sections id sample_sections) (marked id worker_sections)) /\
  fst (worker_showSection id (Dom sample_sections (canonical worker_sections))) =
    Dom (show_sections id sample_sections) (marked id worker_sections) /\
  fst (candidate_showSection id (Dom sample_sections (canonical worker_sections))) =
    Dom (show_sections id sample_sections) (marked id worker_sections).
Proof.
  intros id.
  assert (H1 : map onclick (canonical worker_sections) = map (fun x => Some (call x)) worker_sections)
    by reflexivity.
  assert (H2 : NoDup worker_sections) by (apply (bool_decide_eq_true_1 (NoDup worker_sections)); vm_compute; reflexivity).
  assert (H3 : str_forall (fun c => negb (css_breaks c)) id = true) by reflexivity.
  assert (H4 : str_forall (fun c => negb (css_backslash c)) id = true) by reflexivity.
  assert (H5 : forall x, x ∈ worker_sections -> x <> id -> includes (call x) id = false).
  { intros x Hx Hne. unfold worker_sections in Hx.
    repeat (apply elem_of_cons in Hx as [->|Hx]; [first [vm_compute; reflexivity | exfalso; apply Hne; reflexivity]|]).
    exfalso. exact (not_elem_of_nil _ Hx). }
  do 5 (split; [assumption|]). exact (nav_variants_agree id worker_sections _ _ H1 H2 H3 H4 H5).
Defined.

(** The worker's copy marks the first link whose call contains the
    id: asked for [Tasks] it marks the [campaignTasks] link, where the
    candidate's and main.js's copies mark the [Tasks] link. *)
Example worker_marks_first_containing :
  let d := Dom [] (canonical ["campaignTasks"; "Tasks"]) in
  nav_links (fst (worker_showSection "Tasks" d)) =
    [Link (Some (call "campaignTasks")) true; Link (Some (call "Tasks")) false] /\
  nav_links (fst (candidate_showSection "Tasks" d)) = marked "Tasks" ["campaignTasks"; "Tasks"] /\
  main_showSection "Tasks" d = MainShown (Dom [] (marked "Tasks" ["campaignTasks"; "Tasks"])).
Proof. vm_compute. repeat split. Qed.

End Navigation.
