(* ===== verification/Modals.v ===== *)
(** * The role and login modals of the landing page (script.js)

    On [DOMContentLoaded] script.js looks up the login button, the login
    modal with its close button and its [h2] title, the role modal with its
    close button and the three role buttons, and installs the listeners of
    the elements it found (3-103).  Clicking the login button opens the
    role modal; a role button hides the role modal, opens the login modal,
    titles it 'Welcome ROLE!' and stores the role in [localStorage]
    ([openLoginModal], 52-68); the close buttons, a click on a modal's
    backdrop and the Escape key close the modals and put the title back.

    The page is a record of the elements found (the close button and the
    title exist only inside their modal); the state holds the inline
    [display] of both modals, the title's text and the stored role.  A user
    event is one click or key press: the handler of the target runs first,
    then the two [window] click listeners in the order they were added.
    A handler is a computation of Effects' state and exception monad: one
    that throws ends with the TypeError and the state it reached, so the
    browser reports the exception and the state keeps what the handler
    changed before it threw; the window listeners still run.

    Proved: every reachable state has a title that is either the default
    or the welcome of the stored role, and a login modal that is shown only
    once a role is stored; Escape closes both modals; a role button on a
    page without the role modal throws before anything is shown or
    stored. *)

From stdpp Require Import base list strings.
From Stdlib Require Import Ascii String Lia.
From S2P Require Import Prelude JsCore Effects.

Open Scope jp_scope.

Module Modals.

(** [loginModal.querySelector('.close-btn')] and [loginModal.querySelector('h2')] *)
Record login_parts := LoginParts { lp_close : bool; lp_title : bool }.

Record modal_page := Page {
  loginBtn : bool;                    (** #login-popup-btn *)
  loginModal : option login_parts;    (** #login-modal *)
  roleModal : option bool;            (** #roleModal, with its .close-btn or not *)
  candidateBtn : bool; partyBtn : bool; adminBtn : bool
}.

Record mstate := MState {
  login_display : string;             (** loginModal.style.display *)
  role_display : string;              (** roleModal.style.display *)
  title : string;                     (** loginTitle.textContent *)
  selectedRole : option string        (** localStorage.getItem('selectedRole') *)
}.

Definition defaultLoginTitle : string := "Welcome Back!".

Definition has_title (p : modal_page) : bool :=
  match loginModal p with Some lp => lp_title lp | None => false end.

Definition set_login (d : string) (st : mstate) : mstate :=
  MState d (role_display st) (title st) (selectedRole st).
Definition set_role (d : string) (st : mstate) : mstate :=
  MState (login_display st) d (title st) (selectedRole st).
Definition set_title (p : modal_page) (t : string) (st : mstate) : mstate :=
  if has_title p then MState (login_display st) (role_display st) t (selectedRole st) else st.

(** The three roles and the names the buttons pass (70-72). *)
Inductive role := Candidate | PartyWorker | Admin.

Definition role_name (r : role) : string :=
  match r with Candidate => "Candidate" | PartyWorker => "Party Worker" | Admin => "Admin" end.

Definition role_button (p : modal_page) (r : role) : bool :=
  match r with Candidate => candidateBtn p | PartyWorker => partyBtn p | Admin => adminBtn p end.

Definition welcome (r : string) : string := "Welcome " +s+ r +s+ "!".

Definition store_role (r : string) (st : mstate) : mstate :=
  MState (login_display st) (role_display st) (title st) (Some r).

(** [openLoginModal(role)] (52-68), statement by statement:
    [roleModal.style.display] throws a TypeError when there is no role
    modal, keeping what was done before it. *)
Definition openLoginModal (p : modal_page) (r : string) : M mstate unit :=
  _ ← read (roleModal p);
  modify (set_role "none");;
  (if bool_decide (loginModal p <> None) then modify (set_login "flex") else mret ());;
  modify (set_title p (welcome r));;
  modify (store_role r).

(** What a click lands on, for the [window] listeners: the backdrop of a
    modal, or anything else. *)
Inductive target := RoleBackdrop | LoginBackdrop | Elsewhere.

(** The two [window] click listeners (42-46 and 85-90), in order. *)
Definition window_click (p : modal_page) (t : target) (st : mstate) : mstate :=
  let st := match t, roleModal p with RoleBackdrop, Some _ => set_role "none" st | _, _ => st end in
  match t, loginModal p with
  | LoginBackdrop, Some _ => set_title p defaultLoginTitle (set_login "none" st)
  | _, _ => st
  end.

Inductive modal_event :=
| ClickLoginBtn | ClickRoleClose | ClickRole (r : role) | ClickLoginClose
| ClickBackdrop (t : target) | KeyDown (key : string).

(** The handler of the element clicked (22-30, 35-39, 70-72, 77-82); an
    element the page lacks cannot be clicked, and one whose listener was not
    installed does nothing. *)
Definition on_target (p : modal_page) (ev : modal_event) : M mstate unit :=
  match ev with
  | ClickLoginBtn =>
      if loginBtn p && bool_decide (roleModal p <> None)
      then modify (set_title p defaultLoginTitle);; modify (set_role "flex") else mret ()
  | ClickRoleClose =>
      match roleModal p with Some true => modify (set_role "none") | _ => mret () end
  | ClickRole r => if role_button p r then openLoginModal p (role_name r) else mret ()
  | ClickLoginClose =>
      match loginModal p with
      | Some lp =>
          if lp_close lp then modify (set_login "none");; modify (set_title p defaultLoginTitle)
          else mret ()
      | None => mret ()
      end
  | _ => mret ()
  end.

(** The keydown listener (93-103). *)
Definition on_key (p : modal_page) (key : string) (st : mstate) : mstate :=
  if String.eqb key "Escape" then
    let st := if bool_decide (loginModal p <> None) && String.eqb (login_display st) "flex"
              then set_title p defaultLoginTitle (set_login "none" st) else st in
    if bool_decide (roleModal p <> None) && String.eqb (role_display st) "flex"
    then set_role "none" st else st
  else st.

(** One user event: the target's handler, then the window listeners; a
    handler that throws leaves the state as it was when it threw
    ([exec]), and the window listeners still run. *)
Definition modal_step (p : modal_page) (ev : modal_event) (st : mstate) : mstate :=
  match ev with
  | KeyDown k => on_key p k st
  | ClickBackdrop t => window_click p t st
  | _ => window_click p Elsewhere (exec (on_target p ev) st)
  end.

Definition init_modals (stored : option string) : mstate :=
  MState EmptyString EmptyString defaultLoginTitle stored.

Inductive reachable (p : modal_page) (stored : option string) : mstate -> Prop :=
| reach_init : reachable p stored (init_modals stored)
| reach_step ev st : reachable p stored st -> reachable p stored (modal_step p ev st).

(** ** The invariant of the modals *)

(** The title is the default or the welcome of the stored role (and the
    default on a page without a title); the login modal is shown only once
    a role is stored. *)
Definition modal_inv (p : modal_page) (st : mstate) : Prop :=
  (has_title p = false -> title st = defaultLoginTitle) /\
  (title st = defaultLoginTitle \/ exists r, selectedRole st = Some r /\ title st = welcome r) /\
  (login_display st = "flex" -> selectedRole st <> None).

Lemma inv_set_role p d st : modal_inv p st -> modal_inv p (set_role d st).
Proof. done. Qed.

Lemma inv_close_login p st : modal_inv p st -> modal_inv p (set_title p defaultLoginTitle (set_login "none" st)).
Proof.
  intros (Ht & Hr & _). unfold set_title. destruct (has_title p) eqn:E; simpl.
  - split; [done|]. split; [by left|discriminate].
  - split; [intros _; by apply Ht|]. split; [left; by apply Ht|discriminate].
Qed.

Lemma inv_reset_title p st : modal_inv p st -> modal_inv p (set_title p defaultLoginTitle st).
Proof.
  intros H. unfold set_title. destruct (has_title p) eqn:E; [|done].
  destruct H as (_ & _ & Hl). split; [congruence|]. split; [by left|exact Hl].
Qed.

Lemma inv_open p r st : modal_inv p st -> modal_inv p (exec (openLoginModal p r) st).
Proof.
  intros H. unfold openLoginModal. destruct (roleModal p); m_unfold; simpl; [|exact H].
  destruct H as (Ht & _ & _). unfold modal_inv, store_role, set_title.
  destruct (has_title p) eqn:E, (bool_decide _); simpl;
    (split; [try congruence; by intros; apply Ht|]); (split; [|intros _; discriminate]);
    first [right; by exists r | left; by apply Ht].
Qed.

#[local] Hint Resolve inv_set_role inv_close_login inv_reset_title : jp.

Lemma inv_window p t st : modal_inv p st -> modal_inv p (window_click p t st).
Proof.
  intros H. unfold window_click.
  destruct t, (roleModal p), (loginModal p); auto with jp.
Qed.

Lemma inv_on_target p ev st : modal_inv p st -> modal_inv p (exec (on_target p ev) st).
Proof.
  intros H. destruct ev as [| |r| | |]; simpl; try done.
  - destruct (loginBtn p && _); m_unfold; simpl; auto with jp.
  - destruct (roleModal p) as [[]|]; m_unfold; simpl; auto with jp.
  - destruct (role_button p r); [by apply inv_open|done].
  - destruct (loginModal p) as [[[] ?]|]; m_unfold; simpl; auto with jp.
Qed.

Lemma inv_on_key p k st : modal_inv p st -> modal_inv p (on_key p k st).
Proof.
  intros H. unfold on_key. destruct (String.eqb k "Escape"); [|done].
  destruct (_ && String.eqb (login_display st) "flex"); destruct (_ && _); auto with jp.
Qed.

Lemma inv_step p ev st : modal_inv p st -> modal_inv p (modal_step p ev st).
Proof.
  intros H. destruct ev; unfold modal_step; [apply inv_window, inv_on_target, H..| |];
    [apply inv_window, H|apply inv_on_key, H].
Qed.

(** C24: in every state the landing page can reach, the login modal's
    title is 'Welcome Back!' or 'Welcome ROLE!' for the role stored in
    [localStorage], and the login modal is shown only once a role is
    stored. *)
Theorem reachable_modal_inv p stored st : reachable p stored st -> modal_inv p st.
Proof.
  induction 1 as [|ev st _ IH]; [|by apply inv_step].
  split; [done|]. split; [by left|]. discriminate.
Qed.

Definition landing_page : modal_page := Page true (Some (LoginParts true true)) (Some true) true true true.

Lemma reachable_modal_inv_witness :
  let st := modal_step landing_page (ClickRole PartyWorker) (modal_step landing_page ClickLoginBtn (init_modals None)) in
  reachable landing_page None st /\ modal_inv landing_page st.
Proof.
  intros st. assert (Hr : reachable landing_page None st) by (repeat constructor).
  split; [exact Hr|exact (reachable_modal_inv _ _ _ Hr)].
Defined.

(** ** Escape, the role flow and the missing role modal *)

(** After an Escape key press neither modal the page has is shown,
    and the stored role is kept. *)
Theorem escape_closes_modals p st :
  let st' := modal_step p (KeyDown "Escape") st in
  (loginModal p <> None -> login_display st' <> "flex") /\
  (roleModal p <> None -> role_display st' <> "flex") /\
  selectedRole st' = selectedRole st.
Proof.
  cbn [modal_step]. unfold on_key. simpl (String.eqb _ _). cbv iota.
  set (st1 := if bool_decide (loginModal p <> None) && String.eqb (login_display st) "flex"
              then set_title p defaultLoginTitle (set_login "none" st) else st).
  assert (H1 : loginModal p <> None -> login_display st1 <> "flex").
  { intros Hl. subst st1. rewrite (bool_decide_eq_true_2 _ Hl). simpl.
    destruct (String.eqb_spec (login_display st) "flex"); simpl; [|done].
    unfold set_title. by destruct (has_title p). }
  assert (H2 : selectedRole st1 = selectedRole st).
  { subst st1. destruct (_ && _); [|done]. unfold set_title. by destruct (has_title p). }
  destruct (bool_decide (roleModal p <> None) && String.eqb (role_display st1) "flex") eqn:E; simpl.
  - split; [done|]. split; [intros _; discriminate|done].
  - split; [done|]. split; [|done]. intros Hr Hf.
    rewrite bool_decide_eq_true_2, Hf in E by done. discriminate.
Qed.

Lemma escape_closes_modals_witness :
  let st' := modal_step landing_page (KeyDown "Escape")
               (modal_step landing_page (ClickRole Admin) (modal_step landing_page ClickLoginBtn (init_modals None))) in
  (loginModal landing_page <> None -> login_display st' <> "flex") /\
  (roleModal landing_page <> None -> role_display st' <> "flex") /\
  selectedRole st' = Some "Admin".
Proof. exact (escape_closes_modals _ _). Defined.

(** C26: on a page with the login button, both modals and the title, the
    login button then a role button show the login modal titled with the
    role's welcome, hide the role modal and store the role, from any
    state. *)
Theorem role_choice_opens_login p r st :
  loginBtn p = true -> loginModal p <> None -> roleModal p <> None -> has_title p = true ->
  role_button p r = true ->
  let st1 := modal_step p ClickLoginBtn st in
  let st2 := modal_step p (ClickRole r) st1 in
  role_display st1 = "flex" /\ login_display st2 = "flex" /\ role_display st2 = "none" /\
  title st2 = welcome (role_name r) /\ selectedRole st2 = Some (role_name r).
Proof.
  intros Hb Hl Hr Ht Hrb.
  destruct p as [lb [[lc lt]|] [c|] cb pb ab]; simpl in *; try congruence. subst.
  unfold has_title in Ht; simpl in Ht; rewrite Ht. destruct r; simpl in Hrb; subst; cbv -[welcome]; repeat split.
Qed.

Lemma role_choice_opens_login_witness :
  let st1 := modal_step landing_page ClickLoginBtn (init_modals None) in
  let st2 := modal_step landing_page (ClickRole Candidate) st1 in
  role_display st1 = "flex" /\ login_display st2 = "flex" /\ role_display st2 = "none" /\
  title st2 = welcome (role_name Candidate) /\ selectedRole st2 = Some (role_name Candidate).
Proof.
  exact (role_choice_opens_login landing_page Candidate (init_modals None) eq_refl ltac:(discriminate)
           ltac:(discriminate) eq_refl eq_refl).
Defined.

(** C27: on a page with a role button but no role modal, [openLoginModal]
    throws a TypeError at its first statement, before it hides, shows,
    titles or stores anything: the handler ends in the state it started
    from, and so does the whole click. *)
Theorem role_click_without_role_modal p r st :
  roleModal p = None -> role_button p r = true ->
  on_target p (ClickRole r) st = (inl TypeError, st) /\ modal_step p (ClickRole r) st = st.
Proof.
  intros Hr Hb. unfold modal_step, on_target, openLoginModal, window_click.
  rewrite Hb, Hr. m_unfold. simpl. by destruct (loginModal p).
Qed.

Definition page_without_role_modal : modal_page := Page false None None true false false.

Lemma role_click_without_role_modal_witness :
  roleModal page_without_role_modal = None /\ role_button page_without_role_modal Candidate = true /\
  on_target page_without_role_modal (ClickRole Candidate) (init_modals None) = (inl TypeError, init_modals None) /\
  modal_step page_without_role_modal (ClickRole Candidate) (init_modals None) = init_modals None.
Proof.
  split; [reflexivity|]. split; [reflexivity|].
  exact (role_click_without_role_modal page_without_role_modal Candidate (init_modals None) eq_refl eq_refl).
Defined.

End Modals.
