(* ===== verification/Login.v ===== *)
(** * The login form (login.js)

    login.js adds, when it is loaded, a [submit] listener to
    [#login-form] (3-56).  The listener prevents the submission, trims
    both fields, asks for both when one is empty, and otherwise compares
    them with three fixed pairs: each pair alerts a success message and
    navigates to its dashboard, anything else alerts the invalid-credentials
    message.  The request to the backend is commented out (30-55).

    The listener is modelled as the list of effects it has, in order:
    [preventDefault], the alerts and the navigation.  Loading the script
    on a page without [#login-form] throws a TypeError, and no listener is
    installed.

    Proved: the listener navigates exactly when the trimmed fields are one
    of the three pairs, to that role's dashboard and after that role's
    alert, and a navigation needs no request to the backend. *)

From stdpp Require Import base list strings.
From Stdlib Require Import Ascii String Lia.
From S2P Require Import Prelude JsCore.

Open Scope jp_scope.

Module Login.

Inductive login_effect :=
| PreventDefault
| Alert (msg : string)
| Navigate (url : string).

(** 26: the message quotes the pairs with double quotes. *)
Definition invalid_message : string :=
  "Invalid credentials. Try " +s+ str1 dq +s+ "admin/admin" +s+ str1 dq +s+ ", " +s+
  str1 dq +s+ "candidate/candidate" +s+ str1 dq +s+ ", or " +s+ str1 dq +s+ "worker/worker" +s+
  str1 dq +s+ ".".

(** The three pairs of 16-24: user name (also the password), the
    success alert and the dashboard. *)
Definition accounts : list (string * string * string) :=
  [("admin", "Admin login successful!", "/admin");
   ("candidate", "Candidate login successful!", "/candidate");
   ("worker", "Party Worker login successful!", "/worker")].

(** The [if]/[else if] chain of 16-27, tried in order. *)
Fixpoint route (u p : string) (accs : list (string * string * string)) : list login_effect :=
  match accs with
  | [] => [Alert invalid_message]
  | (name, msg, url) :: rest =>
      if String.eqb u name && String.eqb p name then [Alert msg; Navigate url] else route u p rest
  end.

(** The [submit] listener (3-28). *)
Definition on_submit (username password : string) : list login_effect :=
  let u := trim username in
  let p := trim password in
  PreventDefault ::
  (if negb (str_truthy u) || negb (str_truthy p)
   then [Alert "Please enter both username and password."]
   else route u p accounts).

(** Loading the script (3): [None] is the TypeError of a page without
    the form; otherwise the listener is installed. *)
Definition load (has_login_form : bool) : option (string -> string -> list login_effect) :=
  if has_login_form then Some on_submit else None.

Definition is_navigation (e : login_effect) : bool :=
  match e with Navigate _ => true | _ => false end.

(** ** Lemmas *)

Lemma route_spec u p accs :
  (exists n msg url, (n, msg, url) ∈ accs /\ u = n /\ p = n /\ route u p accs = [Alert msg; Navigate url]) \/
  ((forall n msg url, (n, msg, url) ∈ accs -> u <> n \/ p <> n) /\ route u p accs = [Alert invalid_message]).
Proof.
  induction accs as [|[[n msg] url] accs IH]; simpl.
  - right. split; [|done]. intros n msg url H. exfalso. exact (not_elem_of_nil _ H).
  - destruct (String.eqb u n && String.eqb p n) eqn:E.
    + bool_hyps. apply String.eqb_eq in H, H0. subst. left. exists n, msg, url.
      split; [left|done].
    + destruct IH as [(n' & msg' & url' & Hin & Hu & Hp & Hr)|[Hall Hr]].
      * left. exists n', msg', url'. split; [by right|done].
      * right. split; [|done]. intros n' m' u' [[= <- <- <-]|Hin]%elem_of_cons; [|by eapply Hall].
        apply andb_false_iff in E as [E|E]; apply String.eqb_neq in E; tauto.
Qed.


Lemma accounts_names_nonempty n msg url : (n, msg, url) ∈ accounts -> str_truthy n = true.
Proof.
  intros Hin. unfold accounts in Hin.
  repeat (apply elem_of_cons in Hin as [Heq|Hin]; [injection Heq as -> _ _; reflexivity|]).
  exfalso. exact (not_elem_of_nil _ Hin).
Qed.

(** C28: submitting the login form navigates exactly when the trimmed
    user name and password are both the name of one of the three demo
    accounts: then it alerts that account's success message and navigates
    to its dashboard, with no request to the backend; otherwise it never
    navigates. *)
Theorem login_routes username password :
  let effs := on_submit username password in
  (exists n msg url, (n, msg, url) ∈ accounts /\ trim username = n /\ trim password = n /\
     effs = [PreventDefault; Alert msg; Navigate url]) \/
  (Forall (fun e => is_navigation e = false) effs /\
   forall n msg url, (n, msg, url) ∈ accounts -> trim username <> n \/ trim password <> n).
Proof.
  intros effs. unfold effs, on_submit. cbv zeta.
  destruct (negb (str_truthy (trim username)) || negb (str_truthy (trim password))) eqn:E.
  - right. split; [repeat constructor|]. intros n msg url Hin.
    pose proof (accounts_names_nonempty _ _ _ Hin) as Hn.
    apply orb_true_iff in E as [E|E]; apply negb_true_iff in E; [left|right]; intros Heq;
      rewrite Heq in E; congruence.
  - destruct (route_spec (trim username) (trim password) accounts)
      as [(n & msg & url & Hin & Hu & Hp & Hr)|[Hall Hr]]; rewrite Hr.
    + left. by exists n, msg, url.
    + right. split; [repeat constructor|done].
Qed.

(** The fields are trimmed before they are compared. *)
Example login_trims_fields :
  on_submit " worker " ("worker" +s+ str1 "009"%char) =
  [PreventDefault; Alert "Party Worker login successful!"; Navigate "/worker"].
Proof. reflexivity. Qed.

End Login.
