(* ===== verification/Admin.v ===== *)
(** * The admin dashboard's actions (admin.js)

    admin.js holds the handlers of the admin dashboard's buttons (1-92):
    adding, renaming and deleting wards and workers, assigning wards to a
    worker, importing a voter file and loading the analytics.  Each reads
    the form fields or asks the user through [prompt] or [confirm], and
    answers with [alert]s; the requests to the backend are comments.

    A handler is modelled as a function from what it reads (the field
    values, the answer of [prompt], [null] being [None], the answer of
    [confirm]) to the list of its effects in order.  [${id}] and
    [${name}] are [String(id)] and [String(name)] of the JSON values the
    templates pass; [setTimeout(f, 2000)] is the effect [After 2000] with
    the effects of [f].

    Proved: each action reports a change (an alert that starts with
    'Adding', 'Updating', 'Deleting' or 'Assigning') exactly when the user
    gave what it asks for: the fields filled, a new name, a ward list, or
    the confirmation; and the form is cleared exactly then. *)

From stdpp Require Import base list strings.
From Stdlib Require Import Ascii String Lia.
From S2P Require Import Prelude JsCore.

Open Scope jp_scope.

Module Admin.

Inductive admin_effect :=
| Alert (msg : string)
| Prompt (msg : string)
| Confirm (msg : string)
| ClearField (id : string)          (** [document.getElementById(id).value = ''] *)
| SetStatus (text : string)         (** [statusDiv.textContent = text] *)
| After (ms : nat) (cb : list admin_effect).

Definition quoted (s : string) : string := str1 dq +s+ s +s+ str1 dq.

(** 2-11 *)
Definition addWard (wardName : string) : list admin_effect :=
  if str_truthy wardName then [Alert ("Adding Ward: " +s+ wardName); ClearField "wardName"]
  else [Alert "Please enter a ward name."].

(** [newName && newName !== name]: a non-empty answer that is not the
    current name (a non-string name is never [===] to a string). *)
Definition renamed (answer : option string) (name : jsval) : option string :=
  match answer with
  | Some n => if str_truthy n && negb (bool_decide (JStr n = name)) then Some n else None
  | None => None
  end.

(** 13-19 *)
Definition editWard (id name : jsval) (answer : option string) : list admin_effect :=
  Prompt ("Editing Ward ID " +s+ to_js_string id +s+ ". Enter new name for " +s+
          quoted (to_js_string name) +s+ ":") ::
  match renamed answer name with
  | Some n => [Alert ("Updating Ward ID " +s+ to_js_string id +s+ " to " +s+ n)]
  | None => []
  end.

(** 21-26 *)
Definition deleteWard (id : jsval) (confirmed : bool) : list admin_effect :=
  Confirm ("Are you sure you want to delete Ward ID " +s+ to_js_string id +s+ "?") ::
  (if confirmed then [Alert ("Deleting Ward ID " +s+ to_js_string id)] else []).

(** 28-39 *)
Definition addWorker (workerName workerUsername : string) : list admin_effect :=
  if str_truthy workerName && str_truthy workerUsername then
    [Alert ("Adding Worker: " +s+ workerName +s+ " (Username: " +s+ workerUsername +s+ ")");
     ClearField "workerName"; ClearField "workerUsername"]
  else [Alert "Please enter worker name and username."].

(** 41-47 *)
Definition editWorker (id name : jsval) (answer : option string) : list admin_effect :=
  Prompt ("Editing Worker ID " +s+ to_js_string id +s+ ". Enter new name for " +s+
          quoted (to_js_string name) +s+ ":") ::
  match renamed answer name with
  | Some n => [Alert ("Updating Worker ID " +s+ to_js_string id +s+ " to " +s+ n)]
  | None => []
  end.

(** 49-55 *)
Definition assignWards (id : jsval) (answer : option string) : list admin_effect :=
  Prompt ("Assigning wards for Worker ID " +s+ to_js_string id +s+
          ". Enter ward IDs separated by commas (e.g., 1,2,5):") ::
  match answer with
  | Some w => if str_truthy w then [Alert ("Assigning wards [" +s+ w +s+ "] to Worker ID " +s+ to_js_string id)] else []
  | None => []
  end.

(** 57-62 *)
Definition deleteWorker (id : jsval) (confirmed : bool) : list admin_effect :=
  Confirm ("Are you sure you want to delete Worker ID " +s+ to_js_string id +s+ "?") ::
  (if confirmed then [Alert ("Deleting Worker ID " +s+ to_js_string id)] else []).

(** 64-85: [files] are the names of the chosen files. *)
Definition importVoterData (files : list string) : list admin_effect :=
  match files with
  | f :: _ =>
      [SetStatus ("Uploading " +s+ f +s+ "...");
       After 2000 [SetStatus (f +s+ " imported successfully! (This is a dummy message)");
                   Alert "File uploaded and ready for processing by backend."]]
  | [] => [SetStatus "Please select a file to import."]
  end.

(** 87-92 *)
Definition loadAnalytics (selectedWard : string) : list admin_effect :=
  [Alert ("Loading analytics for Ward ID: " +s+ (if str_truthy selectedWard then selectedWard else "All Wards"))].

(** An alert that reports a change. *)
Definition change_words : list string := ["Adding "; "Updating "; "Deleting "; "Assigning "].

Definition reports_change (e : admin_effect) : bool :=
  match e with Alert m => existsb (fun w => String.prefix w m) change_words | _ => false end.

Definition is_clear (e : admin_effect) : bool :=
  match e with ClearField _ => true | _ => false end.

Lemma change_alert w m : In w change_words -> String.prefix w m = true -> reports_change (Alert m) = true.
Proof. intros Hw Hp. apply existsb_exists. by exists w. Qed.

(** An alert of a change: its message starts with the word [w]. *)
Ltac reported w :=
  apply (change_alert w); [simpl; tauto|apply prefix_spec; eexists; reflexivity].


(** The reports of each action, as booleans of what it read. *)
Lemma admin_reports (w n u : string) (id name : jsval) (a : option string) (ok : bool) :
  existsb reports_change (addWard w) = str_truthy w /\
  existsb reports_change (addWorker n u) = str_truthy n && str_truthy u /\
  existsb reports_change (editWard id name a) = bool_decide (renamed a name <> None) /\
  existsb reports_change (editWorker id name a) = bool_decide (renamed a name <> None) /\
  existsb reports_change (assignWards id a) = (match a with Some s => str_truthy s | None => false end) /\
  existsb reports_change (deleteWard id ok) = ok /\
  existsb reports_change (deleteWorker id ok) = ok /\
  existsb is_clear (addWard w) = str_truthy w /\
  existsb is_clear (addWorker n u) = str_truthy n && str_truthy u.
Proof.
  unfold addWard, addWorker, editWard, editWorker, assignWards, deleteWard, deleteWorker.
  repeat split.
  - destruct (str_truthy w); [|reflexivity]. apply existsb_exists.
    eexists; split; [left; reflexivity|reported "Adding "].
  - destruct (str_truthy n && str_truthy u); [|reflexivity]. apply existsb_exists.
    eexists; split; [left; reflexivity|reported "Adding "].
  - destruct (renamed a name) as [m|]; [|reflexivity]. apply existsb_exists.
    eexists; split; [right; left; reflexivity|reported "Updating "].
  - destruct (renamed a name) as [m|]; [|reflexivity]. apply existsb_exists.
    eexists; split; [right; left; reflexivity|reported "Updating "].
  - destruct a as [m|]; [|reflexivity]. destruct (str_truthy m); [|reflexivity]. apply existsb_exists.
    eexists; split; [right; left; reflexivity|reported "Assigning "].
  - destruct ok; [|reflexivity]. apply existsb_exists.
    eexists; split; [right; left; reflexivity|reported "Deleting "].
  - destruct ok; [|reflexivity]. apply existsb_exists.
    eexists; split; [right; left; reflexivity|reported "Deleting "].
  - by destruct (str_truthy w).
  - by destruct (str_truthy n && str_truthy u).
Qed.

Lemma str_truthy_true_iff s : str_truthy s = true <-> s <> EmptyString.
Proof. unfold str_truthy. rewrite negb_true_iff, String.eqb_neq. done. Qed.

Lemma renamed_not_none a name :
  bool_decide (renamed a name <> None) = true <->
  exists s, a = Some s /\ s <> EmptyString /\ JStr s <> name.
Proof.
  rewrite bool_decide_eq_true. unfold renamed. split.
  - destruct a as [s|]; [|done]. destruct (str_truthy s) eqn:Hs; [|done].
    case_bool_decide; [done|]. intros _. exists s. by rewrite <- str_truthy_true_iff.
  - intros (s & -> & Hs & Hn). apply str_truthy_true_iff in Hs as ->.
    by rewrite bool_decide_eq_false_2.
Qed.

(** C29: every action of the admin dashboard reports a change (an alert
    that starts with 'Adding', 'Updating', 'Deleting' or 'Assigning')
    exactly when the user gave what it asks for, in the code's terms: the
    add forms when their fields are not empty ([if (wardName)],
    [if (workerName && workerUsername)]), the renames when [prompt]
    returns a non-empty name that is not [===] the current one, the
    assignment when [prompt] returns a non-empty list, the deletions when
    confirmed; and the add forms are cleared exactly when they report the
    addition. *)
Theorem admin_changes_guarded (w n u : string) (id name : jsval) (a : option string) (ok : bool) :
  (existsb reports_change (addWard w) = true <-> w <> EmptyString) /\
  (existsb reports_change (addWorker n u) = true <-> n <> EmptyString /\ u <> EmptyString) /\
  (existsb reports_change (editWard id name a) = true <->
     exists s, a = Some s /\ s <> EmptyString /\ JStr s <> name) /\
  (existsb reports_change (editWorker id name a) = true <->
     exists s, a = Some s /\ s <> EmptyString /\ JStr s <> name) /\
  (existsb reports_change (assignWards id a) = true <-> exists s, a = Some s /\ s <> EmptyString) /\
  existsb reports_change (deleteWard id ok) = ok /\
  existsb reports_change (deleteWorker id ok) = ok /\
  (existsb is_clear (addWard w) = true <-> w <> EmptyString) /\
  (existsb is_clear (addWorker n u) = true <-> n <> EmptyString /\ u <> EmptyString).
Proof.
  destruct (admin_reports w n u id name a ok) as (H1 & H2 & H3 & H4 & H5 & H6 & H7 & H8 & H9).
  rewrite H1, H2, H3, H4, H5, H8, H9, andb_true_iff, !str_truthy_true_iff, renamed_not_none.
  split_and!; try done.
  - destruct a as [s|]; [rewrite str_truthy_true_iff; naive_solver|naive_solver].
Qed.

(** A ward whose name the template passes as a number is renamed to the
    same text: [prompt] returns a string, which is never [===] to a
    number. *)
Example edit_numeric_name_reports_update :
  editWard (JNum 7) (JNum 12) (Some "12") =
    [Prompt ("Editing Ward ID 7. Enter new name for " +s+ quoted "12" +s+ ":");
     Alert "Updating Ward ID 7 to 12"].
Proof. reflexivity. Qed.

End Admin.
