(* ===== verification/Filters.v ===== *)
(** * The voter analytics filters of the candidate dashboard

    candidate.js [applyVoterFilters] (398-453) reads the seven filter
    selects, appends each non-empty one to a [URLSearchParams] and sends
    its [toString()] as the query of [/api/candidate/voters] (and of the
    chart data); [resetFilters] (455-465) empties the selects and applies
    them again; [saveSegment] (485-529) posts four of the filters under a
    trimmed segment name.

    [URLSearchParams.prototype.toString] is the
    application/x-www-form-urlencoded serializer of the WHATWG URL
    standard: each name and value is encoded in UTF-8, every byte that is
    not an ASCII letter or digit or one of [*-._] is percent-encoded in
    upper-case hexadecimal, except the space, which becomes [+]; the pairs
    are written [name=value] and joined by [&].  The server reads the query
    with the standard's parser, modelled here from the standard as the
    specification: split on [&] (dropping empty pieces), split each piece
    at its first [=], read [+] as a space, percent-decode, decode UTF-8.
    Characters are the code units 0..255, encoded in one or two UTF-8
    bytes.

    Proved: the parser reads back exactly the non-empty filters, in the
    order of the object's keys, whatever characters they hold; after
    [resetFilters] the query is empty. *)

From stdpp Require Import base list strings.
From Stdlib Require Import Ascii String NArith Lia.
From S2P Require Import Prelude JsCore.

Open Scope jp_scope.

Module Filters.

(** ** The encoder (URLSearchParams.toString) *)

(** The bytes the serializer leaves as they are: [*], [-], [.], digits,
    letters and [_]. *)
Definition url_safe (n : N) : bool :=
  (n =? 42)%N || (n =? 45)%N || (n =? 46)%N || ((48 <=? n) && (n <=? 57))%N ||
  ((65 <=? n) && (n <=? 90))%N || (n =? 95)%N || ((97 <=? n) && (n <=? 122))%N.

(** An upper-case hexadecimal digit. *)
Definition hex_digit (n : N) : ascii :=
  if (n <? 10)%N then ascii_of_N (48 + n) else ascii_of_N (55 + n).

Definition enc_byte (n : N) : string :=
  if (n =? 32)%N then "+"
  else if url_safe n then str1 (ascii_of_N n)
  else "%" ::: hex_digit (n / 16) ::: hex_digit (n mod 16) ::: EmptyString.

(** The UTF-8 bytes of a code unit below 256. *)
Definition utf8 (c : ascii) : list N :=
  let n := N_of_ascii c in
  if (n <? 128)%N then [n] else [192 + n / 64; 128 + n mod 64]%N.

Fixpoint str_concat (l : list string) : string :=
  match l with [] => EmptyString | s :: r => s +s+ str_concat r end.

Fixpoint urlencode (s : string) : string :=
  match s with
  | EmptyString => EmptyString
  | c ::: r => str_concat (map enc_byte (utf8 c)) +s+ urlencode r
  end.

(** [Array.prototype.join(sep)] on strings. *)
Fixpoint join_on (sep : ascii) (l : list string) : string :=
  match l with
  | [] => EmptyString
  | [s] => s
  | s :: r => s +s+ String sep (join_on sep r)
  end.

(** One pair, [name=value]. *)
Definition pair_text (kv : string * string) : string := urlencode kv.1 +s+ "=" +s+ urlencode kv.2.

(** [URLSearchParams.toString()] of a list of name/value pairs. *)
Definition serialize (ps : list (string * string)) : string := join_on "&" (map pair_text ps).

(** ** The filters *)

Record filters := Filters {
  affiliation : string; age : string; issues : string; occupation : string;
  gender : string; ward : string; education : string
}.

(** The object literal of 400-408, its keys in insertion order, which is
    the order of [for (const key in filters)]. *)
Definition filter_pairs (f : filters) : list (string * string) :=
  [("affiliation", affiliation f); ("age", age f); ("issues", issues f);
   ("occupation", occupation f); ("gender", gender f); ("ward", ward f);
   ("education", education f)].

(** 409-414: only the truthy values are appended. *)
Definition appended (ps : list (string * string)) : list (string * string) :=
  List.filter (fun kv => str_truthy kv.2) ps.

Definition queryString (f : filters) : string := serialize (appended (filter_pairs f)).

(** 420 and 452: the two requests [applyVoterFilters] sends. *)
Definition voters_url (f : filters) : string := "/api/candidate/voters?" +s+ queryString f.

(** 455-465: every select emptied, then the filters applied. *)
Definition resetFilters (f : filters) : filters * string :=
  let f' := Filters EmptyString EmptyString EmptyString EmptyString EmptyString EmptyString EmptyString in
  (f', voters_url f').

(** 485-529 [saveSegment]: the trimmed name, or the alert when it is
    empty; the four filters it reads, the empty ones deleted (496-502). *)
Definition segment_filters (f : filters) : list (string * string) :=
  List.filter (fun kv => str_truthy kv.2)
    [("affiliation", affiliation f); ("age", age f); ("issues", issues f); ("occupation", occupation f)].

Inductive segment_request :=
| SegmentNameMissing                                       (** alert, 488-490 *)
| PostSegment (name : string) (fs : list (string * string)). (** the POST of 505-512 *)

Definition saveSegment (segmentName : string) (f : filters) : segment_request :=
  let name := trim segmentName in
  if str_truthy name then PostSegment name (segment_filters f) else SegmentNameMissing.

(** 514-528: the alert after the answer; [None] is a failed request,
    [Some (ok, error)] an answer with its [error] field. *)
Definition segment_alert (name : string) (resp : option (bool * option string)) : string :=
  match resp with
  | Some (true, _) => "Segment " +s+ str1 dq +s+ name +s+ str1 dq +s+ " saved successfully!"
  | Some (false, Some e) => if str_truthy e then "Error: " +s+ e else "Error: Failed to save segment"
  | Some (false, None) => "Error: Failed to save segment"
  | None => "Error: Failed to fetch"
  end.

Lemma app_nil_r_inv {A} (l m : list A) : l = l ++ m -> m = [].
Proof. intros H. apply (f_equal List.length) in H. rewrite length_app in H. destruct m; [done|simpl in H; lia]. Qed.

Lemma str_truthy_false_iff s : str_truthy s = false <-> s = EmptyString.
Proof. unfold str_truthy. rewrite negb_false_iff. apply String.eqb_eq. Qed.

(** ** The parser (WHATWG application/x-www-form-urlencoded parsing) *)

Definition hex_val (c : ascii) : option N :=
  let n := N_of_ascii c in
  if ((48 <=? n) && (n <=? 57))%N then Some (n - 48)%N
  else if ((65 <=? n) && (n <=? 70))%N then Some (n - 55)%N
  else if ((97 <=? n) && (n <=? 102))%N then Some (n - 87)%N
  else None.

(** [+] read as a space, then percent-decoding: [%] followed by two hex
    digits is their byte, any other [%] stays. *)
Fixpoint pct_decode (l : list ascii) : list N :=
  match l with
  | [] => []
  | c :: t =>
      if (c =? "+")%char then 32%N :: pct_decode t
      else if (c =? "%")%char then
        match t with
        | h1 :: t1 =>
            match t1 with
            | h2 :: t2 =>
                match hex_val h1, hex_val h2 with
                | Some a, Some b => (16 * a + b)%N :: pct_decode t2
                | _, _ => 37%N :: pct_decode t
                end
            | [] => 37%N :: pct_decode t
            end
        | [] => [37%N]
        end
      else N_of_ascii c :: pct_decode t
  end.

(** UTF-8 decoding of the one- and two-byte sequences of the code units
    0..255; [None] for any other sequence, whose code point the character
    model cannot hold. *)
Fixpoint utf8_decode (l : list N) : option string :=
  match l with
  | [] => Some EmptyString
  | b :: t =>
      if (b <? 128)%N then String (ascii_of_N b) <$> utf8_decode t
      else match t with
           | b2 :: t2 =>
               if ((b =? 194) || (b =? 195))%N && (128 <=? b2)%N && (b2 <? 192)%N
               then String (ascii_of_N ((b - 192) * 64 + (b2 - 128))) <$> utf8_decode t2
               else None
           | [] => None
           end
  end.

(** Splitting on a byte, as [String.prototype.split] and the standard do. *)
Fixpoint split_on (sep : ascii) (s : string) : list string :=
  match s with
  | EmptyString => [EmptyString]
  | c ::: r =>
      if (c =? sep)%char then EmptyString :: split_on sep r
      else match split_on sep r with
           | x :: xs => (c ::: x) :: xs
           | [] => [str1 c]
           end
  end.

(** The name before the first [=] and the value after it. *)
Fixpoint split_first (sep : ascii) (s : string) : string * string :=
  match s with
  | EmptyString => (EmptyString, EmptyString)
  | c ::: r => if (c =? sep)%char then (EmptyString, r) else let '(a, b) := split_first sep r in (c ::: a, b)
  end.

Definition decode (s : string) : option string := utf8_decode (pct_decode (list_ascii_of_string s)).

Definition parse_pair (piece : string) : option (string * string) :=
  let '(n, v) := split_first "=" piece in
  match decode n, decode v with Some a, Some b => Some (a, b) | _, _ => None end.

Fixpoint parse_pieces (l : list string) : option (list (string * string)) :=
  match l with
  | [] => Some []
  | p :: r =>
      if str_truthy p then
        match parse_pair p, parse_pieces r with Some kv, Some kvs => Some (kv :: kvs) | _, _ => None end
      else parse_pieces r
  end.

(** The server's reading of a query. *)
Definition parse_query (q : string) : option (list (string * string)) := parse_pieces (split_on "&" q).

(** ** Bytes *)

Lemma below_of_nat (n : N) (k : nat) : (n < N.of_nat k)%N -> In n (map N.of_nat (seq 0 k)).
Proof.
  intros Hn. apply in_map_iff. exists (N.to_nat n). split; [lia|]. apply in_seq. lia.
Qed.

(** A boolean property of every byte, checked by evaluation. *)
Lemma all_bytes (P : N -> bool) :
  forallb P (map N.of_nat (seq 0 256)) = true -> forall n, (n < 256)%N -> P n = true.
Proof. intros Hall n Hn. rewrite forallb_forall in Hall. apply Hall, (below_of_nat n 256), Hn. Qed.

Lemma hex_val_digit d : (d < 16)%N -> hex_val (hex_digit d) = Some d.
Proof.
  intros Hd. apply (below_of_nat d 16) in Hd. simpl in Hd.
  repeat (destruct Hd as [<-|Hd]; [reflexivity|]). contradiction.
Qed.

Lemma ascii_of_N_neq (n : N) (m : ascii) : (n < 256)%N -> n <> N_of_ascii m -> ascii_of_N n <> m.
Proof. intros Hn Hne <-. apply Hne. by rewrite N_ascii_embedding. Qed.

(** Percent-decoding reads back the byte [enc_byte] wrote. *)
Lemma pct_decode_enc_byte n rest : (n < 256)%N ->
  pct_decode (list_ascii_of_string (enc_byte n) ++ rest) = n :: pct_decode rest.
Proof.
  intros Hn. unfold enc_byte.
  destruct (N.eqb_spec n 32) as [->|H32]; [reflexivity|].
  destruct (url_safe n) eqn:Hs; simpl.
  - assert (Hp : ascii_of_N n <> "+"%char)
      by (apply ascii_of_N_neq; [done|]; intros ->; discriminate).
    assert (Hq : ascii_of_N n <> "%"%char)
      by (apply ascii_of_N_neq; [done|]; intros ->; discriminate).
    apply Ascii.eqb_neq in Hp, Hq. rewrite Hp, Hq. by rewrite N_ascii_embedding.
  - rewrite !hex_val_digit by (apply N.mod_lt || apply N.Div0.div_lt_upper_bound; lia).
    f_equal. pose proof (N.div_mod n 16 ltac:(lia)). lia.
Qed.

(** A code unit past 127 is [64 q + r] with [q] 2 or 3: its two UTF-8
    bytes. *)
Lemma two_byte_split (x : N) : (128 <= x < 256)%N ->
  exists q r, (x / 64 = q /\ x mod 64 = r /\ x = 64 * q + r /\ r < 64 /\ (q = 2 \/ q = 3))%N.
Proof.
  intros Hx. exists (x / 64)%N, (x mod 64)%N.
  pose proof (N.mod_lt x 64 ltac:(lia)) as Hr. pose proof (N.div_mod x 64 ltac:(lia)) as Hd.
  set (q := (x / 64)%N) in *. set (r := (x mod 64)%N) in *. clearbody q r. repeat split; lia.
Qed.

(** The UTF-8 bytes of a code unit, and their decoding. *)
Lemma utf8_bytes c : Forall (fun b => (b < 256)%N) (utf8 c).
Proof.
  unfold utf8. cbv zeta. pose proof (N_ascii_bounded c). destruct (N.ltb_spec (N_of_ascii c) 128).
  - constructor; [lia|constructor].
  - destruct (two_byte_split (N_of_ascii c)) as (q & r & -> & -> & _ & Hr & Hq); [lia|].
    constructor; [lia|constructor; [lia|constructor]].
Qed.

Lemma utf8_decode_utf8 c rest :
  utf8_decode (utf8 c ++ rest) = String c <$> utf8_decode rest.
Proof.
  unfold utf8. pose proof (N_ascii_bounded c) as Hb. set (n := N_of_ascii c) in *.
  destruct (N.ltb_spec n 128) as [Hlt|Hge]; simpl.
  - replace (n <? 128)%N with true by (symmetry; apply N.ltb_lt; lia).
    unfold n. by rewrite ascii_N_embedding.
  - destruct (two_byte_split n) as (q & r & -> & -> & Hn & Hr & Hq); [lia|].
    replace (192 + q <? 128)%N with false by (symmetry; apply N.ltb_ge; lia).
    replace (((192 + q =? 194) || (192 + q =? 195)) && (128 <=? 128 + r) && (128 + r <? 192))%N
      with true by (symmetry; destruct Hq as [-> | ->]; simpl;
                    rewrite (proj2 (N.leb_le _ _)), (proj2 (N.ltb_lt _ _)) by lia; done).
    replace ((192 + q - 192) * 64 + (128 + r - 128))%N with n by lia.
    unfold n. by rewrite ascii_N_embedding.
Qed.

(** ** Names and values *)

Lemma pct_decode_bytes bs rest : Forall (fun b => (b < 256)%N) bs ->
  pct_decode (list_ascii_of_string (str_concat (map enc_byte bs)) ++ rest) = bs ++ pct_decode rest.
Proof.
  induction 1 as [|b bs Hb _ IH]; [done|]. simpl.
  rewrite list_ascii_of_string_app, <- app_assoc, pct_decode_enc_byte, IH by done. done.
Qed.

Lemma pct_decode_urlencode s rest :
  pct_decode (list_ascii_of_string (urlencode s) ++ rest) =
  flat_map utf8 (list_ascii_of_string s) ++ pct_decode rest.
Proof.
  induction s as [|c r IH]; [done|]. simpl.
  rewrite list_ascii_of_string_app, <- app_assoc, pct_decode_bytes, IH by apply utf8_bytes.
  by rewrite app_assoc.
Qed.

Lemma utf8_decode_flat l rest :
  utf8_decode (flat_map utf8 l ++ rest) = (fun t => string_of_list_ascii l +s+ t) <$> utf8_decode rest.
Proof.
  induction l as [|c l IH]; simpl.
  - by destruct (utf8_decode rest).
  - rewrite <- app_assoc, utf8_decode_utf8, IH. by destruct (utf8_decode rest).
Qed.

(** Every name and value the serializer writes decodes back. *)
Lemma decode_urlencode s : decode (urlencode s) = Some s.
Proof.
  unfold decode. rewrite <- (app_nil_r (list_ascii_of_string (urlencode s))).
  rewrite pct_decode_urlencode, app_nil_r, <- (app_nil_r (flat_map _ _)), utf8_decode_flat. simpl.
  by rewrite str_app_nil_r, string_of_list_ascii_of_string.
Qed.

(** ** Separators *)

Definition no_char (sep : ascii) (s : string) : bool := str_forall (fun c => negb (c =? sep)%char) s.

(** The serializer never writes an [&] or an [=] inside a name or value. *)
Definition plain (c : ascii) : bool := negb ((c =? "&")%char || (c =? "=")%char).

Lemma enc_byte_plain n : (n < 256)%N -> str_forall plain (enc_byte n) = true.
Proof. apply (all_bytes (fun n => str_forall plain (enc_byte n))). vm_compute. reflexivity. Qed.

Lemma urlencode_plain s : str_forall plain (urlencode s) = true.
Proof.
  induction s as [|c r IH]; [done|]. simpl. rewrite str_forall_app, IH, andb_true_r.
  pose proof (utf8_bytes c) as Hb. induction Hb as [|b bs Hb _ IHb]; [done|].
  simpl. rewrite str_forall_app, enc_byte_plain, IHb by done. done.
Qed.

Lemma plain_no_char sep s : sep = "&"%char \/ sep = "="%char -> str_forall plain s = true -> no_char sep s = true.
Proof.
  intros Hsep. apply str_forall_impl. intros c. unfold plain. rewrite negb_true_iff, orb_false_iff.
  intros [H1 H2]. by destruct Hsep as [-> | ->]; rewrite ?H1, ?H2.
Qed.

Lemma split_on_nosep sep a : no_char sep a = true -> split_on sep a = [a].
Proof.
  unfold no_char. induction a as [|c r IH]; [done|]. simpl.
  rewrite andb_true_iff, negb_true_iff. intros [Hc Hr]. by rewrite Hc, IH.
Qed.

Lemma split_on_app sep a b : no_char sep a = true -> split_on sep (a +s+ String sep b) = a :: split_on sep b.
Proof.
  unfold no_char. induction a as [|c r IH]; simpl.
  - by rewrite Ascii.eqb_refl.
  - rewrite andb_true_iff, negb_true_iff. intros [Hc Hr]. by rewrite Hc, IH.
Qed.

Lemma split_first_app sep a b : no_char sep a = true -> split_first sep (a +s+ String sep b) = (a, b).
Proof.
  unfold no_char. induction a as [|c r IH]; simpl.
  - by rewrite Ascii.eqb_refl.
  - rewrite andb_true_iff, negb_true_iff. intros [Hc Hr]. by rewrite Hc, IH.
Qed.

Lemma split_join sep xs :
  xs <> [] -> Forall (fun x => no_char sep x = true) xs -> split_on sep (join_on sep xs) = xs.
Proof.
  induction xs as [|x [|y r] IH]; intros Hne Hx; [done| |].
  - apply Forall_inv in Hx. by apply split_on_nosep.
  - apply Forall_cons in Hx as [Hx Hr].
    change (join_on sep (x :: y :: r)) with (x +s+ String sep (join_on sep (y :: r))).
    rewrite split_on_app, IH by done. done.
Qed.

Lemma parse_pair_text kv : parse_pair (pair_text kv) = Some kv.
Proof.
  destruct kv as [k v]. unfold parse_pair, pair_text. simpl.
  change ("=" +s+ urlencode v) with (String "=" (urlencode v)).
  rewrite split_first_app by (apply plain_no_char; [by right|apply urlencode_plain]).
  by rewrite !decode_urlencode.
Qed.

Lemma pair_text_truthy kv : str_truthy (pair_text kv) = true.
Proof. unfold pair_text. by destruct (urlencode kv.1). Qed.

Lemma parse_pieces_pairs ps : parse_pieces (map pair_text ps) = Some ps.
Proof.
  induction ps as [|kv ps IH]; [done|]. simpl. by rewrite pair_text_truthy, parse_pair_text, IH.
Qed.

Lemma pair_text_no_amp kv : no_char "&" (pair_text kv) = true.
Proof.
  pose proof (plain_no_char "&" (urlencode kv.1) (or_introl eq_refl) (urlencode_plain _)) as H1.
  pose proof (plain_no_char "&" (urlencode kv.2) (or_introl eq_refl) (urlencode_plain _)) as H2.
  unfold pair_text, no_char in *. rewrite !str_forall_app, H1, H2. done.
Qed.

(** [URLSearchParams] round trip: the standard's parser reads back the
    pairs the serializer wrote, whatever characters they hold. *)
Lemma parse_serialize ps : parse_query (serialize ps) = Some ps.
Proof.
  destruct ps as [|kv ps]; [reflexivity|]. unfold parse_query, serialize.
  rewrite split_join; [apply parse_pieces_pairs|done|].
  apply Forall_forall. intros x Hx. apply list_elem_of_fmap in Hx as (kv' & -> & _). apply pair_text_no_amp.
Qed.

(** C34: the query [applyVoterFilters] sends is read by the server as
    exactly the filters whose select is not empty, each with its value, in
    the order of the filters object (affiliation, age, issues, occupation,
    gender, ward, education), whatever characters the values hold. *)
Theorem queryString_roundtrip f :
  parse_query (queryString f) = Some (List.filter (fun kv => str_truthy kv.2) (filter_pairs f)).
Proof. apply parse_serialize. Qed.

(** C35: the segment [saveSegment] stores has the filters the analytics
    view applies exactly when the gender, ward and education selects are
    empty: it reads only the first four filters, so a segment saved while
    one of the other three is set describes other voters than the ones on
    screen. *)
Theorem segment_matches_view_iff name f :
  str_truthy (trim name) = true ->
  (saveSegment name f = PostSegment (trim name) (List.filter (fun kv => str_truthy kv.2) (filter_pairs f)) <->
   gender f = EmptyString /\ ward f = EmptyString /\ education f = EmptyString).
Proof.
  intros Hn. unfold saveSegment, segment_filters. rewrite Hn.
  change (filter_pairs f) with
    ([("affiliation", affiliation f); ("age", age f); ("issues", issues f); ("occupation", occupation f)] ++
     [("gender", gender f); ("ward", ward f); ("education", education f)]).
  rewrite List.filter_app. split.
  - intros [= Heq]. apply app_nil_r_inv in Heq. simpl in Heq.
    destruct (str_truthy (gender f)) eqn:Hg; [done|]. destruct (str_truthy (ward f)) eqn:Hw; [done|].
    destruct (str_truthy (education f)) eqn:He; [done|].
    by rewrite !str_truthy_false_iff in Hg, Hw, He.
  - intros (Hg & Hw & He). rewrite Hg, Hw, He. simpl. by rewrite app_nil_r.
Qed.


(** The characters a query string can hold: the unreserved bytes, [+],
    [%] with upper-case hex digits, [=] and [&]. *)
Definition query_char (c : ascii) : bool :=
  let n := N_of_ascii c in url_safe n || (n =? 43)%N || (n =? 37)%N || (n =? 61)%N || (n =? 38)%N.

Lemma enc_byte_query n : (n < 256)%N -> str_forall query_char (enc_byte n) = true.
Proof. apply (all_bytes (fun n => str_forall query_char (enc_byte n))). vm_compute. reflexivity. Qed.

Lemma urlencode_query s : str_forall query_char (urlencode s) = true.
Proof.
  induction s as [|c r IH]; [done|]. simpl. rewrite str_forall_app, IH, andb_true_r.
  pose proof (utf8_bytes c) as Hb. induction Hb as [|b bs Hb _ IHb]; [done|].
  simpl. rewrite str_forall_app, enc_byte_query, IHb by done. done.
Qed.

(** Every query string [applyVoterFilters] builds is made of URL
    characters only (letters, digits, [*-._], [+], [%] escapes, [=] and
    [&]): whatever the filters hold, the request line needs no further
    encoding. *)
Theorem queryString_chars f : str_forall query_char (queryString f) = true.
Proof.
  unfold queryString, serialize.
  induction (appended (filter_pairs f)) as [|kv ps IH]; [done|].
  assert (Hkv : str_forall query_char (pair_text kv) = true).
  { unfold pair_text. rewrite !str_forall_app, !urlencode_query. done. }
  destruct ps as [|kv' ps]; [done|].
  change (join_on "&" (map pair_text (kv :: kv' :: ps))) with
    (pair_text kv +s+ String "&" (join_on "&" (map pair_text (kv' :: ps)))).
  rewrite str_forall_app, Hkv, str_forall_cons, IH. done.
Qed.

Definition youth_filters : filters := Filters "Supporter" "18-25" EmptyString EmptyString EmptyString EmptyString EmptyString.

Lemma segment_matches_view_iff_witness :
  str_truthy (trim " Youth ") = true /\
  (saveSegment " Youth " youth_filters =
     PostSegment (trim " Youth ") (List.filter (fun kv => str_truthy kv.2) (filter_pairs youth_filters)) <->
   gender youth_filters = EmptyString /\ ward youth_filters = EmptyString /\ education youth_filters = EmptyString).
Proof.
  assert (H : str_truthy (trim " Youth ") = true) by reflexivity.
  split; [exact H|exact (segment_matches_view_iff " Youth " youth_filters H)].
Defined.

(** After [resetFilters] the request carries no filter. *)
Example resetFilters_query f : snd (resetFilters f) = "/api/candidate/voters?".
Proof. reflexivity. Qed.

End Filters.
