(* ===== verification/WardMap.v ===== *)
(** * The ward map of the candidate dashboard (candidate.js loadWardMap)

    [loadWardMap] (356-391) fetches [ImpFiles/Pandharpur_final.csv], trims
    the text, splits it into lines at line feeds, drops the header line,
    splits each line at commas, names the first five pieces
    [name, lat, lng, supporters, opponents] and, for each line whose [lat]
    and [lng] are non-empty, adds [L.marker([parseFloat(lat),
    parseFloat(lng)])] to the map with a popup.  The whole is in a
    [try]: its [catch] (387-390) replaces the map container's content with
    'Error loading map data.'.

    The handler is a computation of Effects' state and exception monad.
    The state is what the container shows (the Leaflet map set up at
    357-366, or the HTML written at 389) and the markers added, in order;
    a marker is the five pieces as read (a missing piece is [undefined]),
    which is what its popup shows.  [parseFloat] is modelled as far as the
    marker depends on it, whether the result is NaN ([parse_float_nan]:
    after leading white space and a sign, the text must start with a
    digit, a point and a digit, or [Infinity]); Leaflet's [LatLng]
    constructor throws an Error on a NaN coordinate, which stops the
    [forEach].  A failed request is [None]; [response.ok] is not checked
    by the code, so the body of an error answer is read as the file.

    Proved: on a file whose fields hold no comma or line break and whose
    coordinates are numbers, every data line with both coordinates gives
    its marker, in order, on the Leaflet map; any line whose marker
    throws makes the page show the error text instead; and a name written
    the way RFC 4180 writers quote a comma (as candidate.js's own
    [jsonToCsv] does) is cut at the comma, its second half read as the
    latitude, so that a ward like ["Ward 1, East"] turns the whole map
    into the error text. *)

From stdpp Require Import base list strings.
From Stdlib Require Import Ascii String Lia.
From S2P Require Import Prelude JsCore Effects Filters.

Open Scope jp_scope.

Module WardMap.
Import Filters.

Definition line_feed : ascii := "010"%char.

(** The five names of the destructuring (377): [undefined] past the end. *)
Record marker := Marker {
  m_name : jsval; m_lat : jsval; m_lng : jsval; m_supporters : jsval; m_opponents : jsval
}.

Definition piece (l : list string) (i : nat) : jsval :=
  match l !! i with Some s => JStr s | None => JUndefined end.

(** 376-377: the marker of a line whose [lat] and [lng] are truthy. *)
Definition row_marker (row : string) : option marker :=
  let p := split_on "," row in
  if truthy (piece p 1) && truthy (piece p 2)
  then Some (Marker (piece p 0) (piece p 1) (piece p 2) (piece p 3) (piece p 4))
  else None.

(** The markers of the lines, in order, when none throws. *)
Fixpoint markers_of (rows : list string) : list marker :=
  match rows with
  | [] => []
  | r :: rs => match row_marker r with Some m => m :: markers_of rs | None => markers_of rs end
  end.

(** ** parseFloat and the Leaflet marker *)

Definition is_digit (c : ascii) : bool := in_range "0" "9" c.

(** The text after the sign starts a StrDecimalLiteral: a digit, a point
    followed by a digit, or [Infinity]. *)
Definition starts_number (t : string) : bool :=
  match t with
  | EmptyString => false
  | c ::: r =>
      is_digit c ||
      ((c =? ".")%char && match r with d ::: _ => is_digit d | EmptyString => false end) ||
      String.prefix "Infinity" t
  end.

(** [isNaN(parseFloat(s))]: after the leading white space and an optional
    sign, no prefix of the text is a decimal literal. *)
Definition parse_float_nan (s : string) : bool :=
  let t := trim_start s in
  negb (match t with
        | c ::: r => if (c =? "+")%char || (c =? "-")%char then starts_number r else starts_number t
        | EmptyString => false
        end).

Definition coord_nan (v : jsval) : bool :=
  match v with JStr s => parse_float_nan s | _ => true end.

(** Leaflet's [L.marker([lat, lng])] builds a [LatLng], whose constructor
    throws [new Error('Invalid LatLng object: (' + lat + ', ' + lng + ')')]
    when either coordinate is NaN (the coordinates of the message are not
    written out: the catch of 387 only logs it). *)
Definition invalid_latlng : string := "Invalid LatLng object".

(** What the map container shows: the Leaflet map set up at 357-366, or
    the HTML that line 389 writes into it; and the markers added to the
    map, in order. *)
Inductive map_view := LeafletMap | Html (s : string).

Record wstate := WState { view : map_view; placed : list marker }.

Definition ward_init : wstate := WState LeafletMap [].

Definition add_marker (m : marker) (st : wstate) : wstate := WState (view st) (placed st ++ [m]).

Definition map_error_html : string := "<p>Error loading map data.</p>".

(** 375-385, the callback of [rows.forEach] for one line: the marker is
    added to the map (378) unless [L.marker] throws; the popup (379-383)
    is the marker's five pieces. *)
Definition row_step (row : string) : M wstate unit :=
  match row_marker row with
  | Some m =>
      if coord_nan (m_lat m) || coord_nan (m_lng m) then raise (Error invalid_latlng)
      else modify (add_marker m)
  | None => mret ()
  end.

(** [rows.forEach(...)]: an exception stops the loop and leaves it. *)
Fixpoint forEach_rows (rows : list string) : M wstate unit :=
  match rows with
  | [] => mret ()
  | r :: rs => row_step r;; forEach_rows rs
  end.

(** 368-390: [csvText] is [None] when the request fails.  The catch logs
    the error and replaces the container's content with the error text. *)
Definition loadWardMap (csvText : option string) : M wstate unit :=
  try_catch
    (t ← read csvText; forEach_rows (drop 1 (split_on line_feed (trim t))))
    (fun _ => modify (fun st => WState (Html map_error_html) (placed st))).

Definition row_throws (row : string) : bool :=
  match row_marker row with Some m => coord_nan (m_lat m) || coord_nan (m_lng m) | None => false end.

(** ** The loop *)

Lemma forEach_rows_ok rows st :
  Forall (fun r => row_throws r = false) rows ->
  forEach_rows rows st = (inr (), WState (view st) (placed st ++ markers_of rows)).
Proof.
  revert st. induction rows as [|r rows IH]; intros st Hr; [by destruct st; rewrite app_nil_r|].
  apply Forall_cons in Hr as [Hr Hrs]. cbn [forEach_rows markers_of].
  unfold row_step, row_throws in *. destruct (row_marker r) as [m|].
  - rewrite Hr, bind_modify, IH by done. simpl. by rewrite <- app_assoc.
  - by rewrite bind_ret, IH.
Qed.

Lemma forEach_rows_throws rows r st :
  r ∈ rows -> row_throws r = true -> exists e st', forEach_rows rows st = (inl e, st').
Proof.
  revert st. induction rows as [|r0 rows IH]; intros st Hin Hr; [by apply not_elem_of_nil in Hin|].
  cbn [forEach_rows]. apply elem_of_cons in Hin as [<-|Hin].
  - unfold row_step, row_throws in *. destruct (row_marker r) as [m|]; [|done].
    rewrite Hr, bind_raise. by do 2 eexists.
  - unfold row_step. destruct (row_marker r0) as [m|];
      [destruct (coord_nan (m_lat m) || coord_nan (m_lng m))|];
      rewrite ?bind_raise, ?bind_modify, ?bind_ret; [by do 2 eexists|by apply IH..].
Qed.

(** A line that throws leaves the error text in the container, whatever
    the other lines hold. *)
Lemma loadWardMap_error t r st :
  r ∈ drop 1 (split_on line_feed (trim t)) -> row_throws r = true ->
  view (exec (loadWardMap (Some t)) st) = Html map_error_html.
Proof.
  intros Hin Hr. destruct (forEach_rows_throws _ r st Hin Hr) as (e & st' & He).
  unfold loadWardMap, exec. erewrite try_catch_exn; [reflexivity|].
  unfold read. by rewrite bind_ret.
Qed.

(** ** Files without quoting *)

(** A line of the file: the five fields. *)
Record ward_row := WardRow { w_name : string; w_lat : string; w_lng : string; w_sup : string; w_opp : string }.

Definition fields (r : ward_row) : list string := [w_name r; w_lat r; w_lng r; w_sup r; w_opp r].

Definition line (r : ward_row) : string := join_on "," (fields r).

Definition to_marker (r : ward_row) : marker :=
  Marker (JStr (w_name r)) (JStr (w_lat r)) (JStr (w_lng r)) (JStr (w_sup r)) (JStr (w_opp r)).

Lemma no_char_join (c sep : ascii) xs :
  c <> sep -> Forall (fun x => no_char c x = true) xs -> no_char c (join_on sep xs) = true.
Proof.
  intros Hcs. induction 1 as [|x xs Hx Hxs IH]; [done|].
  destruct xs as [|y r]; [done|].
  change (join_on sep (x :: y :: r)) with (x +s+ String sep (join_on sep (y :: r))).
  unfold no_char in *. rewrite str_forall_app, Hx, str_forall_cons, IH, andb_true_r.
  apply negb_true_iff, Ascii.eqb_neq. congruence.
Qed.

Lemma row_marker_line r :
  Forall (fun x => no_char "," x = true) (fields r) ->
  row_marker (line r) = if str_truthy (w_lat r) && str_truthy (w_lng r) then Some (to_marker r) else None.
Proof.
  intros Hf. unfold row_marker, line. rewrite split_join by done. reflexivity.
Qed.

Definition clean (r : ward_row) : Prop :=
  Forall (fun x => no_char "," x = true /\ no_char line_feed x = true) (fields r).

Lemma markers_of_lines rows : Forall clean rows ->
  markers_of (map line rows) =
  map to_marker (List.filter (fun r => str_truthy (w_lat r) && str_truthy (w_lng r)) rows).
Proof.
  induction 1 as [|r rows Hr _ IH]; [done|]. simpl.
  rewrite row_marker_line by (eapply Forall_impl; [exact Hr|]; by intros x [? _]).
  destruct (_ && _); simpl; by rewrite IH.
Qed.

(** The coordinates of a line that gets a marker are numbers. *)
Definition numeric (r : ward_row) : Prop :=
  str_truthy (w_lat r) && str_truthy (w_lng r) = true ->
  parse_float_nan (w_lat r) = false /\ parse_float_nan (w_lng r) = false.

Lemma row_throws_line r :
  Forall (fun x => no_char "," x = true) (fields r) -> numeric r -> row_throws (line r) = false.
Proof.
  intros Hf Hn. unfold row_throws. rewrite row_marker_line by done.
  destruct (_ && _) eqn:E; [|done]. destruct (Hn E) as [H1 H2]. simpl. by rewrite H1, H2.
Qed.

(** C36: on a file whose fields hold no comma and no line break, whose
    coordinates are numbers where both are given (and whose text has no
    surrounding white space for [trim] to remove), [loadWardMap] keeps
    the Leaflet map and adds one marker per data line whose latitude and
    longitude are non-empty, with that line's five fields, in the order
    of the file. *)
Theorem loadWardMap_spec header rows :
  no_char line_feed header = true -> Forall clean rows -> Forall numeric rows ->
  let text := join_on line_feed (header :: map line rows) in
  trim text = text ->
  exec (loadWardMap (Some text)) ward_init =
    WState LeafletMap (map to_marker (List.filter (fun r => str_truthy (w_lat r) && str_truthy (w_lng r)) rows)).
Proof.
  intros Hh Hrows Hnum text Ht.
  assert (Hsplit : split_on line_feed (trim text) = header :: map line rows).
  { rewrite Ht. unfold text. apply split_join; [done|]. constructor; [done|].
    apply Forall_forall. intros x Hx.
    apply list_elem_of_fmap in Hx as (r & -> & Hr). apply no_char_join; [discriminate|].
    eapply Forall_forall in Hrows; [|exact Hr].
    eapply Forall_impl; [exact Hrows|]. by intros y [_ ?]. }
  assert (Hok : Forall (fun r => row_throws r = false) (map line rows)).
  { apply Forall_fmap. eapply Forall_impl; [apply Forall_and; split; [exact Hrows|exact Hnum]|].
    intros r [Hc Hn]. apply row_throws_line; [|done].
    eapply Forall_impl; [exact Hc|]. by intros y [? _]. }
  unfold loadWardMap, exec. erewrite try_catch_ok; [reflexivity|].
  unfold read. rewrite bind_ret, Hsplit. simpl. rewrite drop_0, forEach_rows_ok by done.
  simpl. by rewrite markers_of_lines.
Qed.

Definition ward_header : string := "name,lat,lng,supporters,opponents".

Definition sample_rows : list ward_row :=
  [WardRow "Ward 1" "16.70" "74.25" "120" "80"; WardRow "Ward 2" EmptyString EmptyString "5" "9"].

Lemma loadWardMap_spec_witness :
  no_char line_feed ward_header = true /\ Forall clean sample_rows /\ Forall numeric sample_rows /\
  let text := join_on line_feed (ward_header :: map line sample_rows) in
  trim text = text /\
  exec (loadWardMap (Some text)) ward_init =
    WState LeafletMap [to_marker (WardRow "Ward 1" "16.70" "74.25" "120" "80")].
Proof.
  assert (H1 : no_char line_feed ward_header = true) by reflexivity.
  assert (H2 : Forall clean sample_rows) by (repeat constructor).
  assert (H3 : Forall numeric sample_rows)
    by (repeat constructor; unfold numeric; vm_compute; intros; (discriminate || split; reflexivity)).
  assert (H4 : trim (join_on line_feed (ward_header :: map line sample_rows)) =
               join_on line_feed (ward_header :: map line sample_rows)) by reflexivity.
  split; [exact H1|]. split; [exact H2|]. split; [exact H3|]. split; [exact H4|].
  rewrite (loadWardMap_spec ward_header sample_rows H1 H2 H3 H4). reflexivity.
Defined.

(** The line of a name written the way RFC 4180 writers quote a comma. *)
Definition quoted_name_line (a b lat rest : string) : string :=
  str1 dq +s+ a +s+ "," +s+ b +s+ str1 dq +s+ "," +s+ lat +s+ "," +s+ rest.

Lemma row_throws_quoted a b lat rest :
  no_char "," a = true -> no_char "," b = true -> no_char "," lat = true ->
  lat <> EmptyString -> parse_float_nan (b +s+ str1 dq) = true ->
  row_throws (quoted_name_line a b lat rest) = true.
Proof.
  intros Ha Hb Hl Hne Hnan.
  assert (E : quoted_name_line a b lat rest =
    String dq a +s+ String "," ((b +s+ str1 dq) +s+ String "," (lat +s+ String "," rest)))
    by (unfold quoted_name_line; simpl; by rewrite str_app_assoc).
  unfold row_throws, row_marker. rewrite E.
  rewrite split_on_app by (unfold no_char in *; simpl; by rewrite Ha).
  rewrite split_on_app by (unfold no_char in *; by rewrite str_forall_app, Hb).
  rewrite split_on_app by done.
  assert (Hq : (b +s+ str1 dq =? EmptyString)%string = false) by (destruct b; reflexivity).
  destruct lat as [|c l]; [done|]. unfold piece. simpl. by rewrite Hq; simpl; rewrite Hnan.
Qed.

(** C37: a ward name quoted the way RFC 4180 writers quote a comma, as
    candidate.js's own [jsonToCsv] writes it, is cut at the comma, so the
    second half of the name (with the closing quote) is read as the
    latitude.  When that text is not a number, [L.marker] throws and,
    whatever the other lines of the file, the catch replaces the map with
    'Error loading map data.'. *)
Theorem quoted_name_shows_error (t a b lat rest : string) st :
  quoted_name_line a b lat rest ∈ drop 1 (split_on line_feed (trim t)) ->
  no_char "," a = true -> no_char "," b = true -> no_char "," lat = true ->
  lat <> EmptyString -> parse_float_nan (b +s+ str1 dq) = true ->
  view (exec (loadWardMap (Some t)) st) = Html map_error_html.
Proof.
  intros Hin Ha Hb Hl Hne Hnan. eapply loadWardMap_error; [exact Hin|].
  by apply row_throws_quoted.
Qed.

Definition quoted_file : string :=
  ward_header +s+ str1 line_feed +s+ quoted_name_line "Ward 1" " East" "16.70" "74.25,120,80".

Lemma quoted_name_shows_error_witness :
  (quoted_name_line "Ward 1" " East" "16.70" "74.25,120,80" ∈ drop 1 (split_on line_feed (trim quoted_file)) /\
   no_char "," "Ward 1" = true /\ no_char "," " East" = true /\ no_char "," "16.70" = true /\
   "16.70" <> EmptyString /\ parse_float_nan (" East" +s+ str1 dq) = true) /\
  view (exec (loadWardMap (Some quoted_file)) ward_init) = Html map_error_html.
Proof.
  assert (H1 : quoted_name_line "Ward 1" " East" "16.70" "74.25,120,80" ∈
               drop 1 (split_on line_feed (trim quoted_file))) by (vm_compute; left).
  split; [split; [exact H1|split_and!; (reflexivity || discriminate)]|].
  apply (quoted_name_shows_error quoted_file "Ward 1" " East" "16.70" "74.25,120,80" ward_init H1);
    (reflexivity || discriminate).
Defined.

End WardMap.
