(* ===== verification/Chatbot.v ===== *)
(** * The chatbot widget of the candidate dashboard

    candidate.js 1014-1090.  [addMessage(text, from)] appends a bubble to
    the chat window, its text interpolated into [innerHTML] as it is;
    [sendToServer] trims the input, ignores an empty one, shows it as the
    user's bubble, clears the input and posts [{message, lang}] to [/chat];
    when the answer arrives its [reply] is shown as the bot's bubble, and a
    failed request or a body that is not JSON shows a network-issue bubble.
    The send button, Enter in the input and a voice result send; the
    language buttons set [currentLang] and the placeholder.  The script
    starts with the welcome bubble.

    The window is the list of its bubbles; the requests in flight are the
    list of their bodies, answered in any order (a browser does not order
    the answers of concurrent [fetch]es), and an answer is an event of its
    own.  A missing [data-lang] makes [currentLang] [undefined], which
    [JSON.stringify] leaves out of the body: [lang] is an [option].

    Proved: in every reachable state each question the user sent has, or is
    still waiting for, exactly one answer bubble; when answers overtake each
    other the reply to the second question follows the first. *)

From stdpp Require Import base list strings.
From Stdlib Require Import Ascii String Lia.
From S2P Require Import Prelude JsCore.

Open Scope jp_scope.

Module Chatbot.

Record bubble := Bubble { from_user : bool; text : string }.

(** What a request posted: [{message: msg, lang: currentLang}]. *)
Record chat_request := ChatRequest { message : string; lang : option string }.

Record chat := Chat {
  window : list bubble;          (** chatWindow's children *)
  input : string;                (** chatInput.value *)
  currentLang : option string;   (** currentLang *)
  placeholder : string;          (** chatInput.placeholder *)
  in_flight : list chat_request  (** the posts not answered yet *)
}.

(** 1021-1030 [addMessage(text, from)]: [from === "user"] picks the class
    and avatar. *)
Definition addMessage (t : string) (from : string) (c : chat) : chat :=
  Chat (window c ++ [Bubble (String.eqb from "user") t]) (input c) (currentLang c) (placeholder c) (in_flight c).

(** 1033-1039: the part of [sendToServer] before [await]. *)
Definition sendToServer (c : chat) : chat :=
  let msg := trim (input c) in
  if negb (str_truthy msg) then c
  else
    let c := addMessage msg "user" c in
    Chat (window c) EmptyString (currentLang c) (placeholder c)
         (in_flight c ++ [ChatRequest msg (currentLang c)]).

Definition network_issue : string := "⚠️ Network issue.".

(** 1047-1051: the part after [await] for the [i]-th request in flight:
    [None] is a rejected [fetch] or [res.json()] or a [null] body (whose
    [.reply] throws), all caught; [Some r] a body whose [reply] is [r]
    ([undefined] when absent).  The status is not checked. *)
Definition on_reply (i : nat) (resp : option jsval) (c : chat) : chat :=
  match in_flight c !! i with
  | None => c
  | Some _ =>
      let c := Chat (window c) (input c) (currentLang c) (placeholder c) (delete i (in_flight c)) in
      match resp with
      | Some r => addMessage (to_js_string r) "bot" c
      | None => addMessage network_issue "bot" c
      end
  end.

Definition marathi_placeholder : string := "प्रश्न विचारा...".

(** 1074-1087: a language button; [None] is a button without [data-lang]. *)
Definition on_lang (l : option string) (c : chat) : chat :=
  Chat (window c) (input c) l
       (if bool_decide (l = Some "mr") then marathi_placeholder else "Ask your question...")
       (in_flight c).

Inductive chat_event :=
| TypeInput (s : string)              (** the user edits the input *)
| ClickSend                           (** 1053 *)
| KeyPress (key : string)             (** 1054-1056 *)
| VoiceResult (transcript : string)   (** 1065-1068 *)
| Reply (i : nat) (resp : option jsval)
| ClickLang (l : option string).

Definition set_input (s : string) (c : chat) : chat :=
  Chat (window c) s (currentLang c) (placeholder c) (in_flight c).

Definition chat_step (ev : chat_event) (c : chat) : chat :=
  match ev with
  | TypeInput s => set_input s c
  | ClickSend => sendToServer c
  | KeyPress k => if String.eqb k "Enter" then sendToServer c else c
  | VoiceResult t => sendToServer (set_input t c)
  | Reply i r => on_reply i r c
  | ClickLang l => on_lang l c
  end.

Definition welcome_text : string :=
  "Hello! I assist with voter analytics + general political strategy. 😊".

(** 1015-1019 and 1090: the script's start, [currentLang = "en"] and the
    welcome bubble; [ph] is the placeholder the page comes with. *)
Definition chat_init (ph : string) : chat :=
  addMessage welcome_text "bot" (Chat [] EmptyString (Some "en") ph []).

Inductive reachable (ph : string) : chat -> Prop :=
| reach_init : reachable ph (chat_init ph)
| reach_step ev c : reachable ph c -> reachable ph (chat_step ev c).

(** ** Questions and answers *)

Definition questions (c : chat) : nat := List.length (List.filter from_user (window c)).
Definition answers (c : chat) : nat := List.length (List.filter (fun b => negb (from_user b)) (window c)).

(** Every question sent so far has its answer bubble or its request in
    flight; the welcome bubble is the one answer without a question. *)
Definition chat_inv (c : chat) : Prop := questions c + 1 = answers c + List.length (in_flight c).

Lemma counts_addMessage t from c :
  questions (addMessage t from c) = questions c + (if String.eqb from "user" then 1 else 0) /\
  answers (addMessage t from c) = answers c + (if String.eqb from "user" then 0 else 1).
Proof.
  unfold questions, answers, addMessage. simpl. rewrite !List.filter_app, !length_app.
  by destruct (String.eqb from "user").
Qed.

Lemma inv_sendToServer c : chat_inv c -> chat_inv (sendToServer c).
Proof.
  unfold chat_inv, sendToServer. intros H. destruct (negb _); [done|].
  destruct (counts_addMessage (trim (input c)) "user" c) as [Hq Ha].
  unfold questions, answers in *. simpl in *. rewrite Hq, Ha, length_app. simpl. lia.
Qed.

Lemma inv_on_reply i r c : chat_inv c -> chat_inv (on_reply i r c).
Proof.
  unfold chat_inv, on_reply. intros H. destruct (in_flight c !! i) as [q|] eqn:Hi; [|done].
  set (c' := Chat (window c) (input c) (currentLang c) (placeholder c) (delete i (in_flight c))).
  assert (Hlen : List.length (in_flight c') = List.length (in_flight c) - 1)
    by (simpl; apply length_delete; by eexists).
  apply lookup_lt_Some in Hi.
  assert (Hq0 : questions c' = questions c) by reflexivity.
  assert (Ha0 : answers c' = answers c) by reflexivity.
  assert (Hbot : forall t, chat_inv (addMessage t "bot" c')).
  { intros t. destruct (counts_addMessage t "bot" c') as [Hq Ha]. unfold chat_inv.
    rewrite Hq, Ha. change (in_flight (addMessage t "bot" c')) with (in_flight c'). simpl in *. lia. }
  destruct r; apply Hbot.
Qed.

(** C39: in every state the chat can reach, whatever was typed, sent,
    spoken or answered and in whatever order the answers came, the user's
    questions in the window are one fewer than the bot's bubbles plus the
    requests still in flight: each question has exactly one answer bubble
    once its request is answered, and none before. *)
Theorem reachable_chat_inv ph c : reachable ph c -> chat_inv c.
Proof.
  induction 1 as [|ev c _ IH].
  - reflexivity.
  - destruct ev as [s| |k|t|i r|l]; simpl.
    + done.
    + by apply inv_sendToServer.
    + destruct (String.eqb k "Enter"); [by apply inv_sendToServer|done].
    + by apply inv_sendToServer.
    + by apply inv_on_reply.
    + done.
Qed.

Definition two_questions : chat :=
  chat_step (Reply 0 (Some (JStr "About A")))
    (chat_step (Reply 1 (Some (JStr "About B")))
      (chat_step (KeyPress "Enter") (chat_step (TypeInput "B")
        (chat_step ClickSend (chat_step (TypeInput "A") (chat_init "Ask your question...")))))).

Lemma reachable_chat_inv_witness : reachable "Ask your question..." two_questions /\ chat_inv two_questions.
Proof.
  assert (H : reachable "Ask your question..." two_questions) by (repeat constructor).
  split; [exact H|exact (reachable_chat_inv _ _ H)].
Defined.

(** The bubbles are not tied to the questions: when the second answer
    arrives first, the window reads question A, question B, the answer to
    B, the answer to A. *)
Example answers_in_arrival_order :
  map text (window two_questions) = [welcome_text; "A"; "B"; "About B"; "About A"].
Proof. reflexivity. Qed.

End Chatbot.
