(* ===== verification/WorkerForms.v ===== *)
(** * The tasks, messages and reports panels of the worker dashboard

    worker.js 508-688.  [fetchTasks], [fetchMessages] and [fetchReports]
    fetch their list, look up their container, empty it and fill it with a
    row or card per item, or with a note when the list is empty; the three
    forms post their fields as JSON, then reset themselves and reload their
    list; a task's status dropdown and delete button send [PUT] and
    [DELETE] and reload; Enter in the voter search input clicks the search
    button.

    The three loaders are one function in a Section whose [Context] is the
    item's rendering and the empty note.  The body of an answer is an
    array of objects or primitives, an object, or a primitive; [None] is a
    [fetch] or [res.json()] that rejects.  A row or card keeps its cells as
    the strings the template interpolates ([new Date(..).toLocaleString()]
    is left as the raw value).  A panel's state keeps the view, the form's
    fields, the requests in flight (answered in any order) and the reloads
    in flight; [alert] is recorded.

    Proved: a load fills the panel with one row per item, or the note; an
    answer that is not an array empties it and throws; a posted form is
    reset and its list reloaded whatever status the server answers, and
    kept when the request fails; the task controls reload or alert. *)

From stdpp Require Import base list strings gmap.
From Stdlib Require Import Ascii String ZArith Lia.
From S2P Require Import Prelude JsCore Escape VoterPaging.

Open Scope jp_scope.

Module WorkerForms.
Import Html.

(** What [res.json()] gives. *)
Abbreviation body := (jbody jelem).

Inductive err := Rejected | TypeError.

(** A panel shows its items or its note. *)
Inductive panel (A : Type) := Items (l : list A) | Note (s : string).
Arguments Items {A} l.
Arguments Note {A} s.

Section Loader.
Context {A : Type} (render : jsobj -> A) (empty_note : string).

(** [list.forEach(x => ...)]: a property read on [null] or [undefined]
    throws, leaving the items appended before; a number, string or
    boolean has no such properties, it renders like [{}]. *)
Fixpoint render_all (l : list jelem) : list A * option err :=
  match l with
  | [] => ([], None)
  | EObj o :: r => let '(xs, e) := render_all r in (render o :: xs, e)
  | EPrim v :: r =>
      if nullish v then ([], Some TypeError)
      else let '(xs, e) := render_all r in (render ∅ :: xs, e)
  end.

(** 511-547, 594-616, 638-660 [fetchTasks] / [fetchMessages] /
    [fetchReports], from the answer: [has_el] is the container's presence;
    the error is the one the returned promise rejects with. *)
Definition load_panel (has_el : bool) (ans : option body) (cur : panel A) : panel A * option err :=
  match ans with
  | None => (cur, Some Rejected)
  | Some b =>
      if negb has_el then (cur, None) else
      match js_length b with
      | None => (Items [], Some TypeError)
      | Some len =>
          if bool_decide (len = JNum 0) then (Note empty_note, None)
          else match b with
               | BArray l => let '(xs, e) := render_all l in (Items xs, e)
               | _ => (Items [], Some TypeError)
               end
      end
  end.

End Loader.

(** ** Rows and cards *)

(** 525-527. *)
Definition statusClass (status : jsval) : string :=
  if bool_decide (status = JStr "Completed") then "completed"
  else if bool_decide (status = JStr "In Progress") then "progress"
  else "pending".

Definition task_statuses : list string := ["Pending"; "In Progress"; "Completed"].

Record task_row := TaskRow {
  title_cell : string; desc_cell : string;
  badge_class : string; status_cell : string; due_cell : string;
  onchange : string;                 (** the select's handler *)
  selected : list string;            (** the options marked [selected] *)
  delete_onclick : string            (** the button's handler *)
}.

(** 529-544: [${task.id}] goes into the handlers as it is. *)
Definition task_row_of (task : jsobj) : task_row :=
  let id := to_js_string (get task "id") in
  TaskRow (safe (get task "title")) (safe (js_or (get task "description") (JStr EmptyString)))
    (statusClass (get task "status")) (safe (get task "status"))
    (safe (js_or (get task "due_date") (JStr EmptyString)))
    ("updateTaskStatus(" +s+ id +s+ ", this.value)")
    (List.filter (fun v => bool_decide (get task "status" = JStr v)) task_statuses)
    ("deleteTask(" +s+ id +s+ ")").

Record card := Card { card_title : string; card_meta : string; card_time : jsval; card_text : string }.

(** 609-613. *)
Definition message_card (m : jsobj) : card :=
  Card (safe (get m "title")) (safe (js_or (get m "audience") (JStr EmptyString)))
       (get m "created_at") (safe (js_or (get m "body") (JStr EmptyString))).

(** 653-657. *)
Definition report_card (r : jsobj) : card :=
  Card (safe (get r "title")) (safe (js_or (get r "date") (JStr EmptyString)))
       (get r "submitted_at") (safe (js_or (get r "content") (JStr EmptyString))).

Definition fetchTasks := load_panel task_row_of "No tasks assigned".
Definition fetchMessages := load_panel message_card "No messages found".
Definition fetchReports := load_panel report_card "No reports submitted".

(** ** The panels' state *)

(** [Object.fromEntries(formData.entries())]: a later entry of a name
    overwrites an earlier one. *)
Definition fromEntries (l : list (string * string)) : jsobj :=
  foldl (fun o '(k, v) => <[k := JStr v]> o) ∅ l.

(** The requests a panel sends and waits for. *)
Inductive panel_request :=
| Post (url : string) (b : jsobj)      (** a form's submit, 556, 625, 669 *)
| Put (id : jsval) (status : string)   (** [updateTaskStatus], 568 *)
| Delete (id : jsval).                 (** [deleteTask], 583 *)

Record pstate (A : Type) := PState {
  view : panel A;
  entries : list (string * string);   (** the form's fields *)
  reqs : list panel_request;                (** sent, not settled *)
  reloads : nat;                      (** [fetch*] calls not answered *)
  alerts : list string;
  errors : list err                   (** rejections nobody catches *)
}.
Arguments PState {A}.
Arguments view {A}. Arguments entries {A}. Arguments reqs {A}.
Arguments reloads {A}. Arguments alerts {A}. Arguments errors {A}.

Inductive pevent :=
| Edit (fields : list (string * string))     (** the user fills the form *)
| Submit                                     (** the form's submit listener *)
| Settle (i : nat) (status : option Z)       (** the [i]-th request: its status, or rejected *)
| Reload                                     (** a call of the panel's [fetch*] *)
| Answer (ans : option body)                 (** the answer to one such call *)
| ChangeStatus (id : jsval) (v : string)     (** a row's dropdown, 535 *)
| ClickDelete (id : jsval) (confirmed : bool). (** a row's button and [confirm], 542, 581 *)

Section Panel.
Context {A : Type} (render : jsobj -> A) (empty_note : string).
Context (has_el has_form : bool) (defaults : list (string * string)) (endpoint : string).

Definition panel_send (r : panel_request) (st : pstate A) : pstate A :=
  PState (view st) (entries st) (reqs st ++ [r]) (reloads st) (alerts st) (errors st).

Definition reload (st : pstate A) : pstate A :=
  PState (view st) (entries st) (reqs st) (S (reloads st)) (alerts st) (errors st).

Definition panel_alert (msg : string) (st : pstate A) : pstate A :=
  PState (view st) (entries st) (reqs st) (reloads st) (alerts st ++ [msg]) (errors st).

Definition reset (st : pstate A) : pstate A :=
  PState (view st) defaults (reqs st) (reloads st) (alerts st) (errors st).

Definition throw (e : err) (st : pstate A) : pstate A :=
  PState (view st) (entries st) (reqs st) (reloads st) (alerts st) (errors st ++ [e]).

(** What follows the [await] of a request: 561-562, 573-576, 584-587,
    630-631, 674-675.  The status is not read. *)
Definition settle (i : nat) (status : option Z) (st : pstate A) : pstate A :=
  match reqs st !! i with
  | None => st
  | Some r =>
      let st := PState (view st) (entries st) (delete i (reqs st)) (reloads st) (alerts st) (errors st) in
      match r, status with
      | Post _ _, Some _ => reload (reset st)
      | Post _ _, None => throw Rejected st
      | Put _ _, Some _ | Delete _, Some _ => reload st
      | Put _ _, None => panel_alert "Error updating task status" st
      | Delete _, None => panel_alert "Error deleting task" st
      end
  end.

Definition panel_answer (ans : option body) (st : pstate A) : pstate A :=
  match reloads st with
  | 0 => st
  | S n =>
      let '(v, e) := load_panel render empty_note has_el ans (view st) in
      PState v (entries st) (reqs st) n (alerts st) (errors st ++ option_list e)
  end.

Definition pstep (ev : pevent) (st : pstate A) : pstate A :=
  match ev with
  | Edit f => PState (view st) f (reqs st) (reloads st) (alerts st) (errors st)
  | Submit => if has_form then panel_send (Post endpoint (fromEntries (entries st))) st else st
  | Settle i s => settle i s st
  | Reload => reload st
  | Answer ans => panel_answer ans st
  | ChangeStatus id v => panel_send (Put id v) st
  | ClickDelete id ok => if ok then panel_send (Delete id) st else st
  end.

Inductive reachable (st0 : pstate A) : pstate A -> Prop :=
| reach_start : reachable st0 st0
| reach_step ev st : reachable st0 st -> reachable st0 (pstep ev st).

(** ** A form's request settles *)

(** C40: when a form's post settles with any status, 500 as well as
    200, the form is reset to its default values and the list reloaded,
    the same as on success; only a request that fails outright keeps what
    the user typed (and leaves a rejection nobody catches). *)
Theorem post_reset_any_status st i u b s :
  reqs st !! i = Some (Post u b) ->
  pstep (Settle i (Some s)) st = pstep (Settle i (Some 200%Z)) st /\
  entries (pstep (Settle i (Some s)) st) = defaults /\
  reloads (pstep (Settle i (Some s)) st) = S (reloads st) /\
  entries (pstep (Settle i None) st) = entries st /\
  errors (pstep (Settle i None) st) = errors st ++ [Rejected].
Proof. intros Hi. cbn [pstep]. unfold settle. rewrite Hi. done. Qed.

(** ** What a load shows *)

Lemma render_all_objects os : render_all render (map EObj os) = (map render os, None).
Proof. induction os as [|o os IH]; simpl; [done|]. by rewrite IH. Qed.

(** An answer that is a non-empty array of objects shows one item per
    object, in order. *)
Theorem load_objects os cur :
  os <> [] -> load_panel render empty_note true (Some (BArray (map EObj os))) cur = (Items (map render os), None).
Proof.
  intros Hne. unfold load_panel. simpl. destruct os as [|o os]; [done|].
  rewrite bool_decide_false by (simpl; intros [= ?]; lia). by rewrite render_all_objects.
Qed.

(** An answer that is not an array and has no [length] of 0 (the
    [{error: ...}] object of a failing backend) empties the panel and
    throws: the old list is gone and no note replaces it. *)
Theorem load_not_array b cur :
  (forall l, b <> BArray l) -> js_length b <> Some (JNum 0) ->
  load_panel render empty_note true (Some b) cur = (Items [], Some TypeError).
Proof.
  intros Hb Hl. unfold load_panel. simpl.
  destruct (js_length b) as [len|]; [|done].
  rewrite bool_decide_false by congruence. destruct b; [by edestruct Hb|done|done].
Qed.

(** ** What every shown item satisfies *)

Definition panel_all (P : A -> Prop) (v : panel A) : Prop :=
  match v with Items l => Forall P l | Note _ => True end.

Section Invariant.
Context (P : A -> Prop) (HP : forall o, P (render o)).

Lemma render_all_P l : Forall P (render_all render l).1.
Proof.
  induction l as [|[o|v] r IH]; simpl; [done| |].
  - destruct (render_all render r). simpl in *. by constructor.
  - destruct (nullish v); [done|]. destruct (render_all render r). simpl in *. by constructor.
Qed.

Lemma load_P ans cur : panel_all P cur -> panel_all P (load_panel render empty_note has_el ans cur).1.
Proof.
  intros Hc. unfold load_panel. destruct ans as [b|]; [|done]. destruct has_el; [|done]. simpl.
  destruct (js_length b); [|by constructor]. case_bool_decide; [done|].
  destruct b; try by constructor. pose proof (render_all_P l) as Hr. by destruct (render_all render l).
Qed.

(** Whatever is sent, settled, reloaded and answered, in any order, the
    panel shows only items [render] can produce, or its note. *)
Theorem reachable_panel_all st0 st :
  panel_all P (view st0) -> reachable st0 st -> panel_all P (view st).
Proof.
  intros H0. induction 1 as [|ev st _ IH]; [done|].
  destruct ev; simpl; try done.
  - destruct has_form; done.
  - unfold settle. destruct (reqs st !! i) as [[]|]; [destruct status..|]; done.
  - unfold panel_answer. destruct (reloads st); [done|].
    pose proof (load_P ans _ IH) as Hl. destruct (load_panel _ _ _ _ _). done.
  - destruct confirmed; done.
Qed.

End Invariant.

End Panel.

(** ** The three panels *)

(** 549-564 and 566-589: the task form, the status dropdowns and the
    delete buttons. *)
Definition tasks_step (has_el has_form : bool) (defaults : list (string * string)) : pevent -> pstate task_row -> pstate task_row :=
  pstep task_row_of "No tasks assigned" has_el has_form defaults "/api/tasks".

(** 618-633: the message form; the cards have no controls. *)
Definition messages_step (has_el has_form : bool) (defaults : list (string * string)) (ev : pevent) (st : pstate card) : pstate card :=
  match ev with
  | ChangeStatus _ _ | ClickDelete _ _ => st
  | _ => pstep message_card "No messages found" has_el has_form defaults "/api/messages" ev st
  end.

(** 662-677: the report form. *)
Definition reports_step (has_el has_form : bool) (defaults : list (string * string)) (ev : pevent) (st : pstate card) : pstate card :=
  match ev with
  | ChangeStatus _ _ | ClickDelete _ _ => st
  | _ => pstep report_card "No reports submitted" has_el has_form defaults "/api/reports" ev st
  end.

(** ** The task rows *)

Definition no_markup (s : string) : Prop := str_forall (fun c => negb (is_markup c)) s = true.

Definition cells_escaped (r : task_row) : Prop :=
  Forall no_markup [title_cell r; desc_cell r; status_cell r; due_cell r].

Lemma task_row_cells_escaped task : cells_escaped (task_row_of task).
Proof. repeat constructor; apply escape_html_no_markup. Qed.

(** Every task row the panel shows, after any sequence of events, has
    its text cells escaped. *)
Theorem reachable_task_cells_escaped has_el has_form defaults endpoint st0 st :
  panel_all cells_escaped (view st0) ->
  reachable task_row_of "No tasks assigned" has_el has_form defaults endpoint st0 st ->
  panel_all cells_escaped (view st).
Proof. apply reachable_panel_all, task_row_cells_escaped. Qed.

(** The id is not escaped: a string id closes the call in the handler. *)
Example task_id_unescaped :
  delete_onclick (task_row_of {[ "id" := JStr "1);alert(1" ]}) = "deleteTask(1);alert(1)".
Proof. reflexivity. Qed.

Definition task_defaults : list (string * string) := [("title", EmptyString); ("status", "Pending")].

Definition posted_task : pstate task_row :=
  pstep task_row_of "No tasks assigned" true true task_defaults "/api/tasks" Submit
    (PState (Items []) [("title", "Canvass ward 3"); ("status", "Pending")] [] 0 [] []).

Lemma post_reset_any_status_witness :
  reqs posted_task !! 0 = Some (Post "/api/tasks" (fromEntries [("title", "Canvass ward 3"); ("status", "Pending")])) /\
  entries (pstep task_row_of "No tasks assigned" true true task_defaults "/api/tasks" (Settle 0 (Some 500%Z)) posted_task) =
    task_defaults.
Proof.
  assert (H : reqs posted_task !! 0 = Some (Post "/api/tasks" (fromEntries [("title", "Canvass ward 3"); ("status", "Pending")])))
    by reflexivity.
  split; [exact H|]. apply (post_reset_any_status task_row_of "No tasks assigned" true true task_defaults "/api/tasks" _ _ _ _ 500%Z H).
Defined.

(** 680-688: Enter in the search input clicks the search button, whose
    listener (VoterPaging's [on_reset]) goes back to page 1 and fetches. *)
Definition on_search_key (has_searchBtn : bool) (key : string) (st : VoterPaging.vstate) : VoterPaging.vstate :=
  if String.eqb key "Enter" && has_searchBtn then VoterPaging.on_reset st else st.

End WorkerForms.
