(* ===== verification/CommandCentre.v ===== *)
(** * The command centre of the candidate dashboard

    candidate.js 65-236.  [loadCommandCenterData] fills the four KPI cards
    from [/api/candidate/kpis] and reloads the activity feed;
    [loadOverdueTasks], [loadBoothPerformance] and [loadSegmentPerformance]
    show a loading line, fetch their list and replace it with the items'
    HTML joined, a note when the list is empty, or an error line;
    [loadTopIssues] draws a bar chart of an object's keys and values.

    Each function is a handler of the state and exception monad of
    [Effects] on the part of the page it writes: a [throw] skips the rest
    of the [try] block, and the [catch] block writes over what was written
    before it.  The three list loaders are one definition in a Section.
    A JSON body is given as the fields the code reads: a missing object is
    [None], a number that is printed with [toFixed] is a [num] of [JsNum],
    [toLocaleString] of a number is the Section variable [locale].

    Proved: every list loader shows exactly one of the note, the error
    line or the items' HTML; on a consistent answer the task KPI is a
    percentage between 0 and 100; when no task exists the card reads
    [0% (0)], and a count over a total of zero reads [Infinity%]; a field
    missing late in the answer leaves the progress bar of the earlier
    cards drawn beside the error texts. *)

From stdpp Require Import base list strings.
From Stdlib Require Import Ascii String ZArith QArith Lia.
From S2P Require Import Prelude JsCore Effects JsNum.

Open Scope jp_scope.

Module CommandCentre.

(** ** A list pane *)

Section ListLoader.
Context {E : Type} (render : E -> option string).
Context (loading msg empty_html error_html : string).

(** The body of the [try] block after the first line: [.length === 0]
    gives the note, otherwise [.map(render).join('')]. *)
Definition show_list (b : jbody E) : M string unit :=
  len ← read (js_length b);
  if bool_decide (len = JNum 0) then modify (fun _ => empty_html)
  else (l ← read (as_array b); ss ← read (mapM render l); modify (fun _ => String.concat EmptyString ss)).

Definition load_list (r : fetch_response (jbody E)) : M string unit :=
  modify (fun _ => loading) ;;
  try_catch (b ← fetch_json msg r; show_list b) (fun _ => modify (fun _ => error_html)).

Lemma load_list_cases r s :
  exec (load_list r) s = empty_html \/ exec (load_list r) s = error_html \/
  exists b l ss, r = Resp true (Some b) /\ as_array b = Some l /\ mapM render l = Some ss /\
                 exec (load_list r) s = String.concat EmptyString ss.
Proof.
  unfold load_list, show_list. m_unfold. simpl.
  destruct r as [|[] [b|]]; simpl; auto. destruct (js_length b) as [len|]; simpl; auto.
  case_bool_decide; simpl; auto. destruct (as_array b) as [l|] eqn:Hl; simpl; auto.
  destruct (mapM render l) as [ss|] eqn:Hss; simpl; auto. right; right. eauto 7.
Qed.

End ListLoader.

(** ** Overdue tasks, 100-121 *)

Definition overdue_item (task : jelem) : option string :=
  title ← prop task "title"; due ← prop task "due_date";
  Some ("<li><strong>" +s+ to_js_string title +s+ "</strong> (Due: " +s+ to_js_string due +s+ ")</li>").

Definition loadOverdueTasks : fetch_response (jbody jelem) -> M string unit :=
  load_list overdue_item "<li>Loading alerts...</li>" "Network response was not ok"
    "<li>No overdue tasks. Great job!</li>" "<li>Error loading tasks.</li>".

(** ** Segment performance, 209-236 *)

(** A saved segment's statistics; [seg_percent] is [None] when it is not
    a number, and [toFixed] throws. *)
Record segment := Segment { seg_name : jsval; seg_total : jsval; seg_supporters : jsval; seg_percent : option num }.

(** 222-230, the card's template as written, indentation included. *)
Definition segment_card (seg : option segment) : option string :=
  seg ← seg; p ← seg_percent seg;
  Some (nl +s+
    "            <div class=" +s+ quote "segment-card" +s+ ">" +s+ nl +s+
    "                <strong>" +s+ to_js_string (seg_name seg) +s+ "</strong>" +s+ nl +s+
    "                <div class=" +s+ quote "segment-stats" +s+ ">" +s+ nl +s+
    "                    <span>Total: " +s+ to_js_string (seg_total seg) +s+ "</span>" +s+ nl +s+
    "                    <span>Supporters: " +s+ to_js_string (seg_supporters seg) +s+
      " (" +s+ to_fixed 0 p +s+ "%)</span>" +s+ nl +s+
    "                </div>" +s+ nl +s+
    "            </div>" +s+ nl +s+
    "        ").

Definition no_segments : string :=
  "<p>No saved segments. Go to " +s+ quote "Voter Analytics" +s+ " to create some.</p>".

Definition loadSegmentPerformance : fetch_response (jbody (option segment)) -> M string unit :=
  load_list segment_card "<p>Loading segments...</p>" "Network response was not ok"
    no_segments "<p>Error loading segment data.</p>".

(** ** Booth performance, 126-158 *)

Record booth_perf := BoothPerf { bp_name : jsval; bp_percent : option num }.

(** [data.top] and [data.bottom]: [BPrim JUndefined] when absent. *)
Record perf_answer := PerfAnswer { top : jbody (option booth_perf); bottom : jbody (option booth_perf) }.

Definition booth_item (booth : option booth_perf) : option string :=
  b ← booth; p ← bp_percent b;
  Some ("<li>" +s+ to_js_string (bp_name b) +s+ " <span>" +s+ to_fixed 1 p +s+ "%</span></li>").

Definition set_fst {A B} (a : A) (p : A * B) : A * B := (a, p.2).
Definition set_snd {A B} (b : B) (p : A * B) : A * B := (p.1, b).

(** One of the two lists, 137-151: the note or the items. *)
Definition booth_list (set : string -> string * string -> string * string) (b : jbody (option booth_perf)) :
    M (string * string) unit :=
  len ← read (js_length b);
  if bool_decide (len = JNum 0) then modify (set "<li>Not enough data.</li>")
  else (l ← read (as_array b); ss ← read (mapM booth_item l); modify (set (String.concat EmptyString ss))).

Definition loadBoothPerformance (r : fetch_response perf_answer) : M (string * string) unit :=
  modify (fun _ => ("<li>Loading...</li>", "<li>Loading...</li>")) ;;
  try_catch (d ← fetch_json "Network response was not ok" r;
             booth_list set_fst (top d) ;; booth_list set_snd (bottom d))
    (fun _ => modify (fun _ => ("<li>Error loading data.</li>", "<li>Error loading data.</li>"))).

(** ** Top issues, 163-204 *)

Record chart := Chart { chart_type : string; labels : list string; values : list jsval; colours : list string }.

(** The canvas's presence, and the chart drawn on it. *)
Record canvas := Canvas { has_canvas : bool; instance : option chart }.

(** The object's entries in [Object.keys] order: the answer is given as
    that list. *)
Definition loadTopIssues (r : fetch_response (list (string * jsval))) : M canvas unit :=
  try_catch (data ← fetch_json "Network response was not ok" r;
             modify (fun c => if has_canvas c
                              then Canvas true (Some (Chart "bar" (map fst data) (map snd data) ["rgba(54, 162, 235, 0.6)"]))
                              else c))
    (fun _ => mret ()).

(** ** The KPI cards, 65-94 *)

Section Kpi.
Context (locale : Z -> string).

(** [v.toLocaleString()]: [None] throws. *)
Definition to_locale (v : jsval) : option string :=
  match v with
  | JNum z => Some (locale z)
  | JUndefined | JNull => None
  | _ => Some (to_js_string v)
  end.

(** [{count, total}] objects are [None] when absent. *)
Record kpi_answer := KpiAnswer {
  votersContacted : option (Z * Z); supporters : jsval; undecided : jsval; tasksCompleted : option (Z * Z)
}.

Record kview := KView {
  kpiContacted : string; kpiContactedBar : option num; kpiSupporters : string;
  kpiUndecided : string; kpiTasks : string; feed_loads : nat
}.

Definition set_contacted s v := KView s (kpiContactedBar v) (kpiSupporters v) (kpiUndecided v) (kpiTasks v) (feed_loads v).
Definition set_bar w v := KView (kpiContacted v) (Some w) (kpiSupporters v) (kpiUndecided v) (kpiTasks v) (feed_loads v).
Definition set_supporters s v := KView (kpiContacted v) (kpiContactedBar v) s (kpiUndecided v) (kpiTasks v) (feed_loads v).
Definition set_undecided s v := KView (kpiContacted v) (kpiContactedBar v) (kpiSupporters v) s (kpiTasks v) (feed_loads v).
Definition set_tasks s v := KView (kpiContacted v) (kpiContactedBar v) (kpiSupporters v) (kpiUndecided v) s (feed_loads v).
Definition load_feed v := KView (kpiContacted v) (kpiContactedBar v) (kpiSupporters v) (kpiUndecided v) (kpiTasks v) (S (feed_loads v)).
Definition all_error v := KView "Error" (kpiContactedBar v) "Error" "Error" "Error" (feed_loads v).

Definition percentage (count total : Z) : num := num_mul (num_div (num_of_Z count) (num_of_Z total)) 100.

(** [`${Math.round(tasksPercentage || 0)}% (${count})`] *)
Definition tasks_text (count total : Z) : string :=
  math_round_string (num_or (percentage count total) (Fin 0)) +s+ "% (" +s+ to_js_string (JNum count) +s+ ")".

Definition loadCommandCenterData (r : fetch_response kpi_answer) : M kview unit :=
  try_catch (
    d ← fetch_json "Network response was not ok" r;
    '(c, t) ← read (votersContacted d);
    modify (set_contacted (to_js_string (JNum c) +s+ " / " +s+ to_js_string (JNum t))) ;;
    modify (set_bar (percentage c t)) ;;
    s ← read (to_locale (supporters d)); modify (set_supporters s) ;;
    u ← read (to_locale (undecided d)); modify (set_undecided u) ;;
    '(tc, tn) ← read (tasksCompleted d);
    modify (set_tasks (tasks_text tc tn)) ;;
    modify load_feed)
  (fun _ => modify all_error).

(** A complete answer fills the five fields and reloads the feed. *)
Theorem loadCommandCenterData_ok d v c t sup und tc tn :
  votersContacted d = Some (c, t) -> to_locale (supporters d) = Some sup ->
  to_locale (undecided d) = Some und -> tasksCompleted d = Some (tc, tn) ->
  exec (loadCommandCenterData (Resp true (Some d))) v =
  KView (to_js_string (JNum c) +s+ " / " +s+ to_js_string (JNum t)) (Some (percentage c t)) sup und
        (tasks_text tc tn) (S (feed_loads v)).
Proof.
  intros Hc Hs Hu Ht. unfold loadCommandCenterData. m_unfold. simpl.
  rewrite Hc, Hs, Hu, Ht. reflexivity.
Qed.

Lemma tasks_text_bounds tc tn :
  (0 <= tc <= tn)%Z -> (0 < tn)%Z ->
  exists r, (0 <= r <= 100)%Z /\ tasks_text tc tn = to_js_string (JNum r) +s+ "% (" +s+ to_js_string (JNum tc) +s+ ")".
Proof.
  intros Hc Ht. destruct (round_percent_bounds tc tn Hc Ht) as (r & Hr & Hb).
  unfold tasks_text, num_or, percentage in *.
  destruct (num_truthy _).
  - exists r. split; [done|]. unfold math_round_string. rewrite Hr. reflexivity.
  - exists 0%Z. split; [lia|]. reflexivity.
Qed.

End Kpi.

(** On a consistent answer (no more tasks completed than exist, and at
    least one task) the task card shows a whole percentage from 0 to 100
    and the completed count. *)
Theorem kpi_tasks_percentage locale d v c t sup und tc tn :
  votersContacted d = Some (c, t) -> to_locale locale (supporters d) = Some sup ->
  to_locale locale (undecided d) = Some und -> tasksCompleted d = Some (tc, tn) ->
  (0 <= tc <= tn)%Z -> (0 < tn)%Z ->
  exists r, (0 <= r <= 100)%Z /\
    kpiTasks (exec (loadCommandCenterData locale (Resp true (Some d))) v) =
    to_js_string (JNum r) +s+ "% (" +s+ to_js_string (JNum tc) +s+ ")".
Proof.
  intros Hc Hs Hu Ht Hb Hp. rewrite (loadCommandCenterData_ok locale d v c t sup und tc tn Hc Hs Hu Ht).
  exact (tasks_text_bounds tc tn Hb Hp).
Qed.

(** When there are no tasks, [0 / 0] is [NaN] and [|| 0] shows 0; a
    count over a total of 0 is [Infinity], which [|| 0] keeps. *)
Example tasks_text_zero_total : tasks_text 0 0 = "0% (0)" /\ tasks_text 3 0 = "Infinity% (3)".
Proof. split; reflexivity. Qed.

Definition en_locale (z : Z) : string := to_js_string (JNum z).

Definition kview0 : kview := KView "0 / 0" None "0" "0" "0% (0)" 0.

(** An answer without [undecided] throws at line 78, after the first two
    cards are written: the catch block writes 'Error' into the four texts
    but the progress bar keeps the width it was given. *)
Example kpi_missing_field_keeps_bar :
  exec (loadCommandCenterData en_locale
          (Resp true (Some (KpiAnswer (Some (40, 100)%Z) (JNum 12) JUndefined (Some (1, 2)%Z))))) kview0 =
  KView "Error" (Some (percentage 40 100)) "Error" "Error" "Error" 0.
Proof. reflexivity. Qed.

(** The titles go into the list as they are: a title holding markup is
    parsed as markup. *)
Example overdue_title_unescaped :
  exec (loadOverdueTasks (Resp true (Some (BArray [EObj {[ "title" := JStr "<img src=x onerror=alert(1)>" ]}]))))
    EmptyString =
  "<li><strong><img src=x onerror=alert(1)></strong> (Due: undefined)</li>".
Proof. reflexivity. Qed.

(** An answer without [bottom] throws after the top list is written; the
    catch block replaces both lists with the error line. *)
Example booth_missing_bottom :
  exec (loadBoothPerformance
          (Resp true (Some (PerfAnswer (BArray [Some (BoothPerf (JStr "B1") (Some (Fin (625 # 10))))]) (BPrim JUndefined)))))
    (EmptyString, EmptyString) =
  ("<li>Error loading data.</li>", "<li>Error loading data.</li>").
Proof. reflexivity. Qed.

Example booth_item_fixed :
  booth_item (Some (BoothPerf (JStr "B1") (Some (Fin (625 # 10))))) = Some "<li>B1 <span>62.5%</span></li>".
Proof. reflexivity. Qed.

End CommandCentre.
