(* ===== verification/CampaignHub.v ===== *)
(** * The campaign hub of the candidate dashboard

    candidate.js 531-677.  [loadCampaignHub] opens the Tasks tab, shows a
    loading row, fetches [/api/tasks] and fills the table with a row per
    task (or a note, or an error row), then calls [loadSegments], which
    refills the segment dropdown of the communication form.  [showHubTab]
    moves the [active] class to one tab and one link.  The task form posts
    a task "Assigned to" the chosen worker and, on success, alerts, resets
    and reloads the hub; the communication form posts a message to the
    chosen segment's name, alerts and resets.

    The hub is a record of the parts these functions write: the active tab
    and link, the table body (a text or the rows appended), the dropdown's
    options (value, text), the two forms' fields, the alerts and the
    requests sent.  Handlers run in the monad of [Effects]; the answers of
    their [fetch]es are parameters.  [loadSegments] and the reload after a
    task is created are not awaited by their caller; they are run after it,
    with their own answers.

    Proved: a task is posted with status 'Pending' and the assignee's
    name, and the form is reset only when the server accepts it; the
    dropdown always starts with its default option, and the message form
    posts that default's text as the audience when no segment is chosen. *)

From stdpp Require Import base list strings.
From Stdlib Require Import Ascii String ZArith Lia.
From S2P Require Import Prelude JsCore Effects CommandCentre.

Open Scope jp_scope.

Module CampaignHub.

(** The table body: its text, or the rows appended to it. *)
Inductive tbody := Html (s : string) | Rows (rows : list string).

Record task_form := TaskForm { taskTitle : string; taskAssignee : option string; taskDueDate : string }.
Record message_form := MessageForm { commTitle : string; commBody : string; commSegment : nat }.

Record hub := Hub {
  active_tab : option string; active_link : option string;
  tasks_body : tbody;
  seg_options : list (string * string);   (** [commSegment]'s options: value, text *)
  tform : task_form; mform : message_form;
  alerts : list string; sent : list request
}.

Section Hub.
(** The ids of the hub's tabs, and the forms' default fields. *)
Context (tab_ids : list string) (tform0 : task_form) (mform0 : message_form).

Definition set_tab t l h := Hub t l (tasks_body h) (seg_options h) (tform h) (mform h) (alerts h) (sent h).
Definition set_body b h := Hub (active_tab h) (active_link h) b (seg_options h) (tform h) (mform h) (alerts h) (sent h).
Definition set_options o h := Hub (active_tab h) (active_link h) (tasks_body h) o (tform h) (mform h) (alerts h) (sent h).
Definition reset_tform h := Hub (active_tab h) (active_link h) (tasks_body h) (seg_options h) tform0 (mform h) (alerts h) (sent h).
Definition reset_mform h := Hub (active_tab h) (active_link h) (tasks_body h) (seg_options h) (tform h) mform0 (alerts h) (sent h).
Definition hub_alert (msg : string) h := Hub (active_tab h) (active_link h) (tasks_body h) (seg_options h) (tform h) (mform h) (alerts h ++ [msg]) (sent h).
Definition hub_send (r : request) h := Hub (active_tab h) (active_link h) (tasks_body h) (seg_options h) (tform h) (mform h) (alerts h) (sent h ++ [r]).

(** 596-610: the classes are removed from every tab and link, then added
    to [tabId], which throws when there is no such element, and to the
    link. *)
Definition showHubTab (tabId link : string) : M hub unit :=
  modify (set_tab None None) ;;
  if bool_decide (tabId ∈ tab_ids) then modify (set_tab (Some tabId) (Some link)) else raise TypeError.

(** [s.replace(' ', '')]: the first space only. *)
Fixpoint replace_first_space (s : string) : string :=
  match s with
  | EmptyString => EmptyString
  | c ::: r => if (c =? " ")%char then r else c ::: replace_first_space r
  end.

(** [task.status.toLowerCase()]: only a string has the method. *)
Definition status_class (status : jsval) : option string :=
  match status with JStr s => Some (replace_first_space (to_lower s)) | _ => None end.

(** 550-555, the row's template as written. *)
Definition hub_row (task : jelem) : option string :=
  title ← prop task "title"; status ← prop task "status"; cls ← status_class status;
  due ← prop task "due_date";
  Some (nl +s+
    "                    <td>" +s+ to_js_string title +s+ "</td>" +s+ nl +s+
    "                    <td>N/A</td> " +s+ nl +s+
    "                    <td><span class=" +s+ quote ("badge " +s+ cls) +s+ ">" +s+ to_js_string status +s+ "</span></td>" +s+ nl +s+
    "                    <td>" +s+ to_js_string (js_or due (JStr EmptyString)) +s+ "</td>" +s+ nl +s+
    "                ").

Definition append_row (row : string) (h : hub) : hub :=
  match tasks_body h with
  | Rows rs => set_body (Rows (rs ++ [row])) h
  | Html _ => set_body (Rows [row]) h
  end.

Definition no_tasks_row : string := "<tr><td colspan=" +s+ quote "4" +s+ ">No tasks found.</td></tr>".
Definition loading_row : string := "<tr><td colspan=" +s+ quote "4" +s+ ">Loading tasks...</td></tr>".
Definition error_row : string := "<tr><td colspan=" +s+ quote "4" +s+ ">Error loading tasks.</td></tr>".

(** 548-557: each row is appended as it is built. *)
Fixpoint append_rows (l : list jelem) : M hub unit :=
  match l with
  | [] => mret ()
  | t :: r => row ← read (hub_row t); modify (append_row row) ;; append_rows r
  end.

Definition default_option : string * string := (EmptyString, "Select Segment...").

(** [option.value = segment.id; option.textContent = segment.name]:
    [textContent] takes [null] as the empty string. *)
Definition segment_option (segment : jelem) : option (string * string) :=
  id ← prop segment "id"; name ← prop segment "name";
  Some (to_js_string id, match name with JNull => EmptyString | v => to_js_string v end).

Fixpoint append_options (l : list jelem) : M hub unit :=
  match l with
  | [] => mret ()
  | s :: r => o ← read (segment_option s); modify (fun h => set_options (seg_options h ++ [o]) h) ;; append_options r
  end.

(** 571-591 [loadSegments]: errors are only logged. *)
Definition loadSegments (r : fetch_response (jbody jelem)) : M hub unit :=
  try_catch (b ← fetch_json "Failed to load segments" r;
             modify (set_options [default_option]) ;;
             l ← read (as_array b); append_options l)
    (fun _ => mret ()).

(** 531-566 [loadCampaignHub]; [rs] is the answer [loadSegments] gets. *)
Definition loadCampaignHub (rt : fetch_response (jbody jelem)) (rs : fetch_response (jbody jelem)) : M hub unit :=
  showHubTab "hubTasks" "navTasks" ;;
  modify (set_body (Html loading_row)) ;;
  try_catch (b ← fetch_json "Network response was not ok" rt;
             modify (set_body (Rows [])) ;;
             len ← read (js_length b);
             if bool_decide (len = JNum 0) then modify (set_body (Html no_tasks_row))
             else (l ← read (as_array b); append_rows l))
    (fun _ => modify (set_body (Html error_row))) ;;
  detach (loadSegments rs).

(** 618-623: the body of the task request. *)
Definition task_body (title assignee due : string) : jsobj :=
  {[ "title" := JStr title; "description" := JStr ("Assigned to: " +s+ assignee);
     "due_date" := JStr due; "status" := JStr "Pending" ]}.

(** 615-644; [None] for the assignee is a dropdown with no option, which
    throws before the [try].  [rt] and [rs] are the answers of the reload. *)
Definition submitTask (r : fetch_response unit) (rt rs : fetch_response (jbody jelem)) : M hub unit :=
  h ← get_state;
  a ← read (taskAssignee (tform h));
  try_catch (modify (hub_send (Request "POST" "/api/tasks" (task_body (taskTitle (tform h)) a (taskDueDate (tform h))))) ;;
             fetch_ok "Failed to create task" r ;;
             modify (hub_alert "Task assigned successfully!") ;; modify reset_tform ;;
             detach (loadCampaignHub rt rs))
    (fun _ => modify (hub_alert "Error creating task")).

(** 649-677: the audience is the text of the selected option. *)
Definition submitMessage (r : fetch_response unit) : M hub unit :=
  h ← get_state;
  sel ← read (seg_options h !! commSegment (mform h));
  try_catch (modify (hub_send (Request "POST" "/api/messages"
                       {[ "title" := JStr (commTitle (mform h)); "body" := JStr (commBody (mform h));
                          "audience" := JStr sel.2 ]})) ;;
             fetch_ok "Failed to send message" r ;;
             modify (hub_alert "Message sent successfully!") ;; modify reset_mform)
    (fun _ => modify (hub_alert "Error sending message")).

(** ** What the loaders leave alone *)

(** The forms, the alerts and the requests sent. *)
Definition log (h : hub) := (tform h, mform h, alerts h, sent h).

Ltac hub_frame := frame; try (intros; unfold append_row; repeat case_match; reflexivity).

Lemma append_rows_log l : preserves log (append_rows l).
Proof. induction l as [|t r IH]; cbn [append_rows append_options]; hub_frame. Qed.

Lemma append_options_log l : preserves log (append_options l).
Proof. induction l as [|t r IH]; cbn [append_rows append_options]; hub_frame. Qed.

#[local] Hint Resolve append_rows_log append_options_log : jp.

Lemma loadCampaignHub_log rt rs : preserves log (loadCampaignHub rt rs).
Proof. unfold loadCampaignHub, showHubTab, loadSegments. hub_frame. Qed.

(** ** Posting a task *)

(** A task is posted as 'Pending', described by the assignee's name;
    when the server accepts it the user is told, the form is reset and
    the hub reloaded; when it does not, or the request fails, the form
    keeps what was typed and the user is told of the error. *)
Theorem submitTask_spec h a r rt rs :
  taskAssignee (tform h) = Some a ->
  let post := Request "POST" "/api/tasks" (task_body (taskTitle (tform h)) a (taskDueDate (tform h))) in
  log (exec (submitTask r rt rs) h) =
    if resp_ok r
    then (tform0, mform h, alerts h ++ ["Task assigned successfully!"], sent h ++ [post])
    else (tform h, mform h, alerts h ++ ["Error creating task"], sent h ++ [post]).
Proof.
  intros Ha post. pose proof (loadCampaignHub_log rt rs) as Hl. unfold preserves in Hl.
  unfold submitTask, exec. m_unfold. simpl. rewrite Ha. simpl.
  destruct r as [|[] ?]; simpl; try reflexivity. by rewrite Hl.
Qed.

(** ** The segment dropdown *)

Lemma append_options_prefix l h :
  exists os, seg_options (exec (append_options l) h) = seg_options h ++ os.
Proof.
  revert h. induction l as [|x r IH]; intros h.
  - exists []. by rewrite app_nil_r.
  - unfold exec in *. cbn [append_options]. m_unfold. simpl.
    destruct (segment_option x) as [o|]; simpl; [|exists []; by rewrite app_nil_r].
    destruct (IH (set_options (seg_options h ++ [o]) h)) as [os Hos]. rewrite Hos.
    exists (o :: os). simpl. by rewrite <- app_assoc.
Qed.

(** Whatever [/api/segments] answers, the dropdown is left as it was (the
    request failed) or starts with its default option 'Select
    Segment...', followed by the segments read before any error. *)
Theorem loadSegments_default r h :
  seg_options (exec (loadSegments r) h) = seg_options h \/
  exists os, seg_options (exec (loadSegments r) h) = default_option :: os.
Proof.
  unfold loadSegments. destruct r as [|[] [b|]]; try (left; reflexivity).
  right. unfold exec. m_unfold. simpl. destruct (as_array b) as [l|]; simpl; [|by exists []].
  destruct (append_options_prefix l (set_options [default_option] h)) as [os Hos].
  unfold exec in Hos. exists os. destruct (append_options l _) as [[] ?]; exact Hos.
Qed.

End Hub.

Definition hub0 (opts : list (string * string)) (seg : nat) : hub :=
  Hub None None (Html EmptyString) opts (TaskForm EmptyString None EmptyString)
      (MessageForm "Rally" "Sunday 10am" seg) [] [].

(** With no segment chosen, the message is posted to the audience
    'Select Segment...', the text of the dropdown's default option. *)
Example message_to_default_option :
  sent (exec (submitMessage (MessageForm EmptyString EmptyString 0) (Resp true (Some ()))) (hub0 [default_option] 0)) =
  [Request "POST" "/api/messages"
     {[ "title" := JStr "Rally"; "body" := JStr "Sunday 10am"; "audience" := JStr "Select Segment..." ]}].
Proof. reflexivity. Qed.

(** [replace(' ', '')] removes the first space only. *)
Example status_class_first_space :
  status_class (JStr "In Progress") = Some "inprogress" /\
  status_class (JStr "Not Yet Started") = Some "notyet started".
Proof. split; reflexivity. Qed.

(** A task whose status is not a string makes [toLowerCase] throw: the
    rows already appended are replaced by the error row. *)
Example hub_status_null_error :
  tasks_body (exec (loadCampaignHub ["hubTasks"]
     (Resp true (Some (BArray [EObj {[ "title" := JStr "A"; "status" := JStr "Pending" ]};
                               EObj {[ "title" := JStr "B"; "status" := JNull ]}])))
     Rejected) (hub0 [] 0)) = Html error_row.
Proof. reflexivity. Qed.

End CampaignHub.
