(* ===== verification/BoothStrategy.v ===== *)
(** * The booth strategy page of the candidate dashboard

    candidate.js 682-816.  [loadBoothStrategy] fills the grid with a card
    per booth; [openBoothModal(id)] resets the booth form and opens it in
    add mode, or, for an id, in edit mode with the fields of the booth of
    that id fetched from [/api/booths]; the form's submit sends [PUT] for
    an edit and [POST] otherwise, then closes the modal and reloads the
    grid, or alerts the server's [error] text; [deleteBooth] asks for
    confirmation, deletes and reloads; [generateSlips] only alerts; a click
    on the modal's backdrop closes it.

    The page is a record of what these functions write: the grid's HTML,
    whether the modal is shown, its title, the form's five fields (the
    hidden id first), the alerts and the requests sent.  Handlers run in
    the monad of [Effects], with the answers of their [fetch]es as
    parameters; the grid reload after a save or a delete is not awaited.
    [error.message] of a [TypeError] or [SyntaxError] (whose text depends
    on the browser) is a Section variable.

    Proved: a form opened for an id is saved with [PUT /api/booths/<id>]
    and one opened without an id with [POST /api/booths]; a save the
    server refuses alerts the server's own message and keeps the modal
    open; an id the list no longer has opens the edit form empty, and
    saving it sends the empty fields. *)

From stdpp Require Import base list strings gmap.
From Stdlib Require Import Ascii String ZArith Lia.
From S2P Require Import Prelude JsCore Effects CommandCentre.

Open Scope jp_scope.

Module BoothStrategy.
Import CommandCentre.

(** ** The grid *)

(** 695-711, the card's template as written. *)
Definition booth_card (booth : jelem) : option string :=
  name ← prop booth "name"; number ← prop booth "booth_number"; incharge ← prop booth "in_charge_name";
  total ← prop booth "total_voters"; sup ← prop booth "supporters"; neu ← prop booth "neutral";
  opp ← prop booth "opponents"; id ← prop booth "id";
  Some (nl +s+
    "            <div class=" +s+ quote "booth-card" +s+ ">" +s+ nl +s+
    "                <h5>" +s+ to_js_string name +s+ " (#" +s+ to_js_string number +s+ ")</h5>" +s+ nl +s+
    "                <p><strong>Panna Pramukh:</strong> " +s+ to_js_string (js_or incharge (JStr "Not Assigned")) +s+ "</p>" +s+ nl +s+
    "                <div class=" +s+ quote "booth-stats" +s+ ">" +s+ nl +s+
    "                    <span><strong>Total:</strong> " +s+ to_js_string total +s+ "</span>" +s+ nl +s+
    "                    <span style=" +s+ quote "color: green;" +s+ "><strong>Supporters:</strong> " +s+ to_js_string sup +s+ "</span>" +s+ nl +s+
    "                    <span style=" +s+ quote "color: orange;" +s+ "><strong>Neutral:</strong> " +s+ to_js_string neu +s+ "</span>" +s+ nl +s+
    "                    <span style=" +s+ quote "color: red;" +s+ "><strong>Opponents:</strong> " +s+ to_js_string opp +s+ "</span>" +s+ nl +s+
    "                </div>" +s+ nl +s+
    "                <div class=" +s+ quote "booth-actions" +s+ ">" +s+ nl +s+
    "                    <button class=" +s+ quote "button-ghost btn-sm" +s+ " onclick=" +s+ quote ("openBoothModal(" +s+ to_js_string id +s+ ")") +s+ ">Edit</button>" +s+ nl +s+
    "                    <button class=" +s+ quote "btn-danger btn-sm" +s+ " onclick=" +s+ quote ("deleteBooth(" +s+ to_js_string id +s+ ")") +s+ ">Delete</button>" +s+ nl +s+
    "                    <button class=" +s+ quote "btn-sm" +s+ " onclick=" +s+ quote ("generateSlips(" +s+ to_js_string id +s+ ")") +s+ ">Generate Slips</button>" +s+ nl +s+
    "                </div>" +s+ nl +s+
    "            </div>" +s+ nl +s+
    "        ").

Definition no_booths : string :=
  "<p>No booths have been added yet. Click " +s+ quote "+ Add New Booth" +s+ " to start.</p>".

(** 682-716 [loadBoothStrategy], on the grid's HTML. *)
Definition load_grid : fetch_response (jbody jelem) -> M string unit :=
  load_list booth_card "<p>Loading Booth Data...</p>" "Network response was not ok"
    no_booths "<p>Error loading booth data.</p>".

(** ** The page *)

Record booth_form := BoothForm {
  boothId : string; boothName : string; boothNumber : string; inChargeName : string; inChargeContact : string
}.

Definition empty_form : booth_form := BoothForm EmptyString EmptyString EmptyString EmptyString EmptyString.

(** [boothForm.reset()]: the visible fields go back to their (empty)
    defaults; the hidden [boothId], whose value is its [value] attribute,
    keeps what was last written to it. *)
Definition form_reset (f : booth_form) : booth_form :=
  BoothForm (boothId f) EmptyString EmptyString EmptyString EmptyString.

Record bpage := BPage {
  grid : string; modal_shown : bool; modal_title : string; form : booth_form;
  alerts : list string; sent : list request
}.

Definition set_grid g p := BPage g (modal_shown p) (modal_title p) (form p) (alerts p) (sent p).
Definition set_shown b p := BPage (grid p) b (modal_title p) (form p) (alerts p) (sent p).
Definition set_modal_title t p := BPage (grid p) (modal_shown p) t (form p) (alerts p) (sent p).
Definition set_form f p := BPage (grid p) (modal_shown p) (modal_title p) f (alerts p) (sent p).
Definition booth_alert (msg : string) p := BPage (grid p) (modal_shown p) (modal_title p) (form p) (alerts p ++ [msg]) (sent p).
Definition booth_send (r : request) p := BPage (grid p) (modal_shown p) (modal_title p) (form p) (alerts p) (sent p ++ [r]).

Definition loadBoothStrategy (r : fetch_response (jbody jelem)) : M bpage unit :=
  fun p => let '(x, g) := load_grid r (grid p) in (x, set_grid g p).

(** [input.value = v]: [null] sets the empty string. *)
Definition value_of (v : jsval) : string := match v with JNull => EmptyString | _ => to_js_string v end.

(** [booths.find(b => b.id === id)] *)
Fixpoint find_booth (id : jsval) (l : list jelem) : M bpage (option jelem) :=
  match l with
  | [] => mret None
  | b :: r => bid ← read (prop b "id"); if bool_decide (bid = id) then mret (Some b) else find_booth id r
  end.

(** 737-740 *)
Definition fill_form (booth : jelem) : M bpage unit :=
  name ← read (prop booth "name"); number ← read (prop booth "booth_number");
  incharge ← read (prop booth "in_charge_name"); contact ← read (prop booth "in_charge_contact");
  modify (fun p => set_form (BoothForm (boothId (form p)) (value_of name) (value_of number)
                      (value_of (js_or incharge (JStr EmptyString))) (value_of (js_or contact (JStr EmptyString)))) p).

(** 726-748 [openBoothModal(id)]: not in a [try]; the list's answer is
    read without checking [ok]. *)
Definition openBoothModal (id : jsval) (r : fetch_response (jbody jelem)) : M bpage unit :=
  modify (fun p => set_form (form_reset (form p)) p) ;;
  (if truthy id then
     modify (set_modal_title "Edit Booth") ;;
     modify (fun p => set_form (BoothForm (to_js_string id) EmptyString EmptyString EmptyString EmptyString) p) ;;
     booths ← fetch_unchecked r;
     l ← read (as_array booths);
     found ← find_booth id l;
     match found with Some b => fill_form b | None => mret () end
   else
     modify (set_modal_title "Add New Booth") ;;
     modify (fun p => set_form (BoothForm EmptyString (boothName (form p)) (boothNumber (form p))
                                  (inChargeName (form p)) (inChargeContact (form p))) p)) ;;
  modify (set_shown true).

(** 751-753 *)
Definition closeBoothModal : M bpage unit := modify (set_shown false).

Section Save.
Context (type_error_message syntax_error_message : string).

Definition error_message (e : js_exn) : string :=
  match e with
  | TypeError => type_error_message
  | SyntaxError => syntax_error_message
  | Error m => m
  end.

(** [isEdit ? `/api/booths/${id}` : '/api/booths'] and the method. *)
Definition save_request (f : booth_form) : request :=
  let isEdit := str_truthy (boothId f) in
  Request (if isEdit then "PUT" else "POST")
          (if isEdit then "/api/booths/" +s+ boothId f else "/api/booths")
          {[ "name" := JStr (boothName f); "booth_number" := JStr (boothNumber f);
             "in_charge_name" := JStr (inChargeName f); "in_charge_contact" := JStr (inChargeContact f) ]}.

(** 778-781: a refusal's body is read for its [error]. *)
Definition check_saved (r : fetch_response jelem) : M bpage unit :=
  match r with
  | Rejected => raise TypeError
  | Resp true _ => mret ()
  | Resp false body =>
      errorData ← (match body with Some b => mret b | None => raise SyntaxError end);
      err ← read (prop errorData "error");
      raise (Error (to_js_string (js_or err (JStr "Failed to save booth."))))
  end.

(** 756-789, the booth form's submit; [rg] is the reload's answer. *)
Definition submitBooth (r : fetch_response jelem) (rg : fetch_response (jbody jelem)) : M bpage unit :=
  p ← get_state;
  try_catch (modify (booth_send (save_request (form p))) ;;
             check_saved r ;;
             closeBoothModal ;;
             detach (loadBoothStrategy rg))
    (fun e => modify (booth_alert ("Error: " +s+ error_message e))).

(** 792-804 [deleteBooth(id)]; [confirmed] is the answer to [confirm]. *)
Definition deleteBooth (id : jsval) (confirmed : bool) (r : fetch_response unit) (rg : fetch_response (jbody jelem)) : M bpage unit :=
  if negb confirmed then mret ()
  else try_catch (modify (booth_send (Request "DELETE" ("/api/booths/" +s+ to_js_string id) ∅)) ;;
                  fetch_ok "Failed to delete booth." r ;;
                  detach (loadBoothStrategy rg))
         (fun _ => modify (booth_alert "Error deleting booth.")).

End Save.

(** 807-810 *)
Definition generateSlips (id : jsval) : M bpage unit :=
  modify (booth_alert ("(Demo) Generating printable voter slips for supporters in booth #" +s+ to_js_string id +s+ ".")).

(** 813-817: a click whose target is the modal itself (its backdrop). *)
Definition window_onclick (target_is_modal : bool) : M bpage unit :=
  if target_is_modal then closeBoothModal else mret ().

(** ** Opening and saving *)

Definition bid (p : bpage) : string := boothId (form p).

Lemma find_booth_bid id l : preserves bid (find_booth id l).
Proof. induction l as [|b r IH]; cbn [find_booth]; frame. Qed.

Lemma fill_form_bid b : preserves bid (fill_form b).
Proof. unfold fill_form. frame. Qed.

(** Once [openBoothModal(id)] has run to its end, the modal is shown and
    its hidden field holds the id, or nothing when the id is falsy. *)
Lemma openBoothModal_id id r p p' :
  openBoothModal id r p = (inr (), p') ->
  bid p' = (if truthy id then to_js_string id else EmptyString) /\ modal_shown p' = true.
Proof.
  unfold openBoothModal. m_unfold. simpl. destruct (truthy id); simpl.
  - destruct r as [|ok [b|]]; simpl; try discriminate.
    destruct (as_array b) as [l|]; simpl; [|discriminate].
    pose proof (find_booth_bid id l) as Hf. unfold preserves in Hf.
    destruct (find_booth id l _) as [[e|[bk|]] q] eqn:Hq; simpl; try discriminate.
    + pose proof (fill_form_bid bk q) as Hb. destruct (fill_form bk q) as [[e|[]] q'] eqn:Hq'; [discriminate|].
      intros [= <-]. split; [|done]. unfold bid in *. simpl in *. specialize (Hf (set_form (BoothForm (to_js_string id) EmptyString EmptyString EmptyString EmptyString) (set_modal_title "Edit Booth" (set_form (form_reset (form p)) p)))).
      rewrite Hq in Hf. simpl in *. rewrite Hb, Hf. done.
    + intros [= <-]. split; [|done]. specialize (Hf (set_form (BoothForm (to_js_string id) EmptyString EmptyString EmptyString EmptyString) (set_modal_title "Edit Booth" (set_form (form_reset (form p)) p)))).
      rewrite Hq in Hf. unfold bid in *. simpl in *. done.
  - intros [= <-]. done.
Qed.

Section Route.
Context (tm sm : string).

(** The save request is sent first; nothing after it sends another. *)
Lemma submitBooth_sent r rg p :
  sent (exec (submitBooth tm sm r rg) p) = sent p ++ [save_request (form p)].
Proof.
  unfold submitBooth, check_saved, closeBoothModal, loadBoothStrategy. m_unfold. simpl.
  destruct r as [|[] [e|]]; simpl; repeat case_match; simplify_eq/=; reflexivity.
Qed.

(** C23: A form opened for a truthy id is saved with [PUT /api/booths/<id>];
    one opened without an id with [POST /api/booths]. *)
Theorem save_route id r p p' rs rg :
  openBoothModal id r p = (inr (), p') ->
  exists body, sent (exec (submitBooth tm sm rs rg) p') =
    sent p' ++ [Request (if truthy id then "PUT" else "POST")
                        (if truthy id then "/api/booths/" +s+ to_js_string id else "/api/booths") body].
Proof.
  intros Ho. destruct (openBoothModal_id id r p p' Ho) as [Hid _].
  rewrite submitBooth_sent. unfold save_request. unfold bid in Hid. rewrite Hid.
  eexists. destruct (truthy id) eqn:Ht; [rewrite truthy_string by done|]; reflexivity.
Qed.

(** A save the server refuses with an [error] text alerts that text after
    'Error: ' and leaves the modal as it was. *)
Theorem save_refused_alerts r_err rg p :
  truthy r_err = true ->
  let p' := exec (submitBooth tm sm (Resp false (Some (EObj {[ "error" := r_err ]}))) rg) p in
  alerts p' = alerts p ++ ["Error: " +s+ to_js_string r_err] /\ modal_shown p' = modal_shown p.
Proof.
  intros Ht p'. unfold p', submitBooth, check_saved. m_unfold. simpl.
  unfold get. rewrite lookup_singleton_eq. simpl. unfold js_or. rewrite Ht. done.
Qed.

End Route.

Definition page0 : bpage := BPage EmptyString false EmptyString empty_form [] [].

Definition booths7 : fetch_response (jbody jelem) :=
  Resp true (Some (BArray [EObj {[ "id" := JNum 7; "name" := JStr "Ward 7"; "booth_number" := JStr "12";
                                   "in_charge_name" := JStr "Asha"; "in_charge_contact" := JStr "9876543210" ]}])).

Lemma save_route_witness :
  openBoothModal (JNum 7) booths7 page0 = (inr (), exec (openBoothModal (JNum 7) booths7) page0) /\
  exists body, sent (exec (submitBooth "Failed to fetch" "Unexpected token" (Resp true None) Rejected)
                       (exec (openBoothModal (JNum 7) booths7) page0)) =
    sent (exec (openBoothModal (JNum 7) booths7) page0) ++
    [Request (if truthy (JNum 7) then "PUT" else "POST")
             (if truthy (JNum 7) then "/api/booths/" +s+ to_js_string (JNum 7) else "/api/booths") body].
Proof.
  assert (H : openBoothModal (JNum 7) booths7 page0 = (inr (), exec (openBoothModal (JNum 7) booths7) page0))
    by reflexivity.
  split; [exact H|]. exact (save_route _ _ _ _ _ _ _ _ H).
Defined.

(** The cards' buttons call [openBoothModal(${booth.id})]: a booth whose
    id the backend sends as the string "7" is opened with the number 7,
    which [===] never finds; the edit form opens empty, and saving it
    sends [PUT /api/booths/7] with empty fields. *)
Example edit_unknown_id_saves_empty :
  let p := exec (openBoothModal (JNum 7)
                  (Resp true (Some (BArray [EObj {[ "id" := JStr "7"; "name" := JStr "Ward 7" ]}])))) page0 in
  sent (exec (submitBooth "Failed to fetch" "Unexpected token" (Resp true None) Rejected) p) =
  [Request "PUT" "/api/booths/7" {[ "name" := JStr EmptyString; "booth_number" := JStr EmptyString;
                                    "in_charge_name" := JStr EmptyString; "in_charge_contact" := JStr EmptyString ]}].
Proof. reflexivity. Qed.

End BoothStrategy.
