(* ===== verification/Charts.v ===== *)
(** * The voter analytics charts and the CSV export of the candidate dashboard

    candidate.js 822-976.  [fetchVisualizationData(queryString)] fetches
    the aggregates for the current filters, writes the four affiliation
    counts and draws three charts (affiliations as a pie coloured by label,
    issues as bars, genders as a doughnut); any error writes 'Err' into the
    counts.  [exportVoters] fetches every voter matching the filters (page
    1 of 100000 rows), alerts when there is none, and otherwise downloads
    [jsonToCsv] of them as [voter_export.csv].

    The page is a record of the counts' texts, the three canvases (whether
    each exists, and the chart drawn on it), the alerts, the downloads and
    the URLs requested.  An aggregate's field is missing, a primitive, or
    an object given as its entries in [Object.keys] order.  Handlers run in
    the monad of [Effects]; [toLocaleString] of a number is the Section
    variable [locale].  The CSV text is CsvExport's [jsonToCsv] and the
    query string Filters' [serialize], so the export is their composition.

    Proved: the colour of a label is the first of supporter, opponent and
    swing voter its lower-case form contains; an aggregate whose
    [affiliations] is [null] draws no chart and shows 'Err' in the counts,
    although the server answered; the export asks for the filters' query
    followed by [page=1&per_page=100000] and downloads exactly the CSV of
    the rows the server returns. *)

From stdpp Require Import base list strings gmap.
From Stdlib Require Import Ascii String ZArith Lia.
From S2P Require Import Prelude JsCore Effects CommandCentre CsvExport Filters VoterTable.

Open Scope jp_scope.

Module Charts.
Import CommandCentre.

(** ** The aggregates *)

Inductive agg_field := Missing | Prim (v : jsval) | Obj (entries : list (string * jsval)).

(** The answer's body: [None] is [null]. *)
Record agg := Agg { affiliations : agg_field; topIssues : agg_field; genderSplit : agg_field }.

(** [o.k] on a field: reading a property of [null] throws. *)
Definition field_prop (f : agg_field) (k : string) : option jsval :=
  match f with
  | Missing => Some JUndefined
  | Prim v => if nullish v then None else Some JUndefined
  | Obj kv => Some (default JUndefined (snd <$> List.find (fun e => String.eqb e.1 k) kv))
  end.

(** [Object.keys(data)] and [Object.values(data)] of a parameter whose
    default is [{}]: [null] throws, a string gives its indices and
    characters, other primitives nothing. *)
Definition entries_of (f : agg_field) : option (list (string * jsval)) :=
  match f with
  | Missing => Some []
  | Obj kv => Some kv
  | Prim JNull => None
  | Prim (JStr s) => Some (imap (fun i c => (to_js_string (JNum (Z.of_nat i)), JStr (str1 c))) (list_ascii_of_string s))
  | Prim _ => Some []
  end.

(** [agg.affiliations || {}] *)
Definition or_empty (f : agg_field) : agg_field :=
  match f with
  | Missing => Obj []
  | Prim v => if truthy v then f else Obj []
  | Obj _ => f
  end.

Record viz := Viz {
  supporterCount : string; swingCount : string; opponentCount : string; emptyCount : string;
  aff_chart : canvas; issue_chart : canvas; gender_chart : canvas;
  requested : list string
}.

Definition set_counts a b c d v := Viz a b c d (aff_chart v) (issue_chart v) (gender_chart v) (requested v).
Definition set_aff x v := Viz (supporterCount v) (swingCount v) (opponentCount v) (emptyCount v) x (issue_chart v) (gender_chart v) (requested v).
Definition set_issue x v := Viz (supporterCount v) (swingCount v) (opponentCount v) (emptyCount v) (aff_chart v) x (gender_chart v) (requested v).
Definition set_gender x v := Viz (supporterCount v) (swingCount v) (opponentCount v) (emptyCount v) (aff_chart v) (issue_chart v) x (requested v).
Definition request_url u v := Viz (supporterCount v) (swingCount v) (opponentCount v) (emptyCount v) (aff_chart v) (issue_chart v) (gender_chart v) (requested v ++ [u]).

(** ** The charts, 851-937 *)

(** 856-862 *)
Definition label_colour (label : string) : string :=
  let l := to_lower label in
  if includes l "supporter" then "#4CAF50"
  else if includes l "opponent" then "#F44336"
  else if includes l "swingvoter" then "#FFC107"
  else "#9E9E9E".

(** A chart on a canvas: nothing without the canvas ([ctx] is
    [undefined]); the old chart is destroyed and replaced. *)
Definition draw (get : viz -> canvas) (set : canvas -> viz -> viz) (mk : list (string * jsval) -> chart)
    (data : agg_field) : M viz unit :=
  v ← get_state;
  if has_canvas (get v) then (kv ← read (entries_of data); modify (set (Canvas true (Some (mk kv)))))
  else mret ().

Definition renderAffiliationChart : agg_field -> M viz unit :=
  draw aff_chart set_aff (fun kv => Chart "pie" (map fst kv) (map snd kv) (map (fun kv => label_colour kv.1) kv)).

Definition renderIssueChart : agg_field -> M viz unit :=
  draw issue_chart set_issue (fun kv => Chart "bar" (map fst kv) (map snd kv) ["#2196F3"]).

Definition renderGenderChart : agg_field -> M viz unit :=
  draw gender_chart set_gender (fun kv => Chart "doughnut" (map fst kv) (map snd kv) ["#3f51b5"; "#e91e63"; "#9e9e9e"]).

Section Viz.
Context (locale : Z -> string).

(** [(affiliations.k || 0).toLocaleString()] *)
Definition count_text (aff : agg_field) (k : string) : M viz string :=
  x ← read (field_prop aff k); read (to_locale locale (js_or x (JNum 0))).

(** 822-849 [fetchVisualizationData(queryString)] *)
Definition fetchVisualizationData (queryString : string) (r : fetch_response (option agg)) : M viz unit :=
  try_catch (
    modify (request_url ("/api/candidate/visualization?" +s+ queryString)) ;;
    a ← fetch_json "Visualization API failed" r;
    a ← read a;
    let aff := or_empty (affiliations a) in
    s ← count_text aff "Supporter"; w ← count_text aff "SwingVoter";
    o ← count_text aff "Opponent"; e ← count_text aff "Empty";
    modify (set_counts s w o e) ;;
    renderAffiliationChart (affiliations a) ;;
    renderIssueChart (topIssues a) ;;
    renderGenderChart (genderSplit a))
  (fun _ => modify (set_counts "Err" "Err" "Err" "Err")).

End Viz.

(** ** Applying the filters, 398-450 *)

(** [data.items] and [data.total] of the voters' answer. *)
Record voters_page := VotersPage { items : jbody jelem; total : jsval }.

Record analytics := Analytics {
  a_table : option VoterTable.analytics_view;   (** [None]: the loading row *)
  voterCount : string; a_viz : viz; a_requests : list string
}.

Definition set_table t a := Analytics t (voterCount a) (a_viz a) (a_requests a).
Definition set_voterCount c a := Analytics (a_table a) c (a_viz a) (a_requests a).
Definition set_viz v a := Analytics (a_table a) (voterCount a) v (a_requests a).
Definition add_request u a := Analytics (a_table a) (voterCount a) (a_viz a) (a_requests a ++ [u]).

(** [node.textContent = v]: [null] sets the empty string. *)
Definition text_content (v : jsval) : string := match v with JNull => EmptyString | _ => to_js_string v end.

(** An array element as the object [voter[k]] reads: [null] throws, a
    primitive has none of the keys. *)
Definition row_obj (e : jelem) : option jsobj :=
  match e with EObj o => Some o | EPrim v => if nullish v then None else Some ∅ end.

(** [voters.forEach]: only an array has it. *)
Definition array_objs (b : jbody jelem) : option (list jsobj) :=
  match b with BArray l => mapM row_obj l | _ => None end.

Section Apply.
Context (locale : Z -> string).

(** 418-448: the voter list, its request and its [catch]. *)
Definition load_voter_list (f : Filters.filters) (rv : fetch_response (option voters_page)) : M analytics unit :=
  try_catch (modify (add_request (Filters.voters_url f)) ;;
             data ← fetch_json "Network response was not ok" rv;
             d ← read data;
             modify (set_table (Some (VoterTable.AnalyticsRows []))) ;;
             len ← read (js_length (items d));
             (if bool_decide (len = JNum 0) then modify (set_table (Some VoterTable.NoMatchRow))
              else (objs ← read (array_objs (items d)); rows ← read (VoterTable.all_cells objs);
                    modify (set_table (Some (VoterTable.AnalyticsRows rows))))) ;;
             modify (set_voterCount (text_content (total d))))
    (fun _ => modify (set_table (Some VoterTable.ErrorRow))).

(** 398-450 [applyVoterFilters]: the loading row, the voter list, then
    the charts for the same query, not awaited. *)
Definition applyVoterFilters (f : Filters.filters) (rv : fetch_response (option voters_page))
    (rz : fetch_response (option agg)) : M analytics unit :=
  modify (set_table None) ;;
  load_voter_list f rv ;;
  detach (zoom a_viz set_viz (fetchVisualizationData locale (Filters.queryString f) rz)).

End Apply.

(** ** The export, 942-976 *)

Record export := Export { alerts : list string; downloads : list (string * string); export_requests : list string }.

(** 953-960 *)
Definition export_query (f : Filters.filters) : string :=
  Filters.serialize (Filters.appended (Filters.filter_pairs f) ++ [("page", "1"); ("per_page", "100000")]).

(** [for (const row of items)] with [row[header]] read: a [null] row
    throws; a string is iterated by its characters, which have none of the
    headers. *)
Definition export_rows (b : jbody jelem) : option (list jsobj) :=
  match b with
  | BArray l => mapM row_obj l
  | BPrim (JStr s) => Some (replicate (String.length s) ∅)
  | _ => None
  end.

Definition export_alert (msg : string) (x : export) : export := Export (alerts x ++ [msg]) (downloads x) (export_requests x).

(** 1000-1012 [downloadCsv(csv, filename)]: a hidden link with the
    [download] attribute is clicked; a browser without the attribute
    ([link.download === undefined]) gets nothing. *)
Definition downloadCsv (has_download : bool) (csv filename : string) : M export unit :=
  if has_download then modify (fun x => Export (alerts x) (downloads x ++ [(csv, filename)]) (export_requests x))
  else mret ().

(** 942-976 [exportVoters]; [data.items]: [None] is a [null] body. *)
Definition exportVoters (has_download : bool) (f : Filters.filters) (r : fetch_response (option (jbody jelem))) : M export unit :=
  try_catch (
    modify (fun x => Export (alerts x) (downloads x) (export_requests x ++ ["/api/candidate/voters?" +s+ export_query f])) ;;
    data ← fetch_json "Failed to fetch data for export" r;
    voters ← read data;
    len ← read (js_length voters);
    if bool_decide (len = JNum 0) then modify (export_alert "No voters to export for this filter.")
    else (rows ← read (export_rows voters);
          downloadCsv has_download (Csv.jsonToCsv rows) "voter_export.csv"))
  (fun _ => modify (export_alert "Could not export voter data.")).

(** ** The colours *)

(** The label is lower-cased and searched: a label that merely contains
    'supporter' is green, whatever else it says. *)
Example label_colours :
  map label_colour ["Supporter"; "Opponent"; "SwingVoter"; "Empty"; "Non-Supporter"; "Opponent-Supporter"] =
  ["#4CAF50"; "#F44336"; "#FFC107"; "#9E9E9E"; "#4CAF50"; "#4CAF50"].
Proof. reflexivity. Qed.

(** ** A [null] field *)

(** C38: The counts read [affiliations || {}], which turns [null] into an
    empty object; the chart reads [affiliations] itself, on which
    [Object.keys] throws.  So an answer whose [affiliations] is [null]
    shows 'Err' in every count and leaves the pie as it was, although the
    server answered. *)
Theorem null_affiliations_err locale qs a v :
  affiliations a = Prim JNull -> has_canvas (aff_chart v) = true ->
  let v' := exec (fetchVisualizationData locale qs (Resp true (Some (Some a)))) v in
  (supporterCount v', swingCount v', opponentCount v', emptyCount v') = ("Err", "Err", "Err", "Err") /\
  aff_chart v' = aff_chart v.
Proof.
  intros Ha Hc v'. unfold v', fetchVisualizationData, renderAffiliationChart, draw, count_text.
  m_unfold. simpl. rewrite Ha. simpl. rewrite Hc. done.
Qed.

Definition viz_with_pie : viz :=
  Viz EmptyString EmptyString EmptyString EmptyString (Canvas true None) (Canvas false None) (Canvas false None) [].

Lemma null_affiliations_err_witness :
  (affiliations (Agg (Prim JNull) Missing Missing) = Prim JNull /\ has_canvas (aff_chart viz_with_pie) = true) /\
  let v' := exec (fetchVisualizationData (fun z => to_js_string (JNum z)) EmptyString
                    (Resp true (Some (Some (Agg (Prim JNull) Missing Missing))))) viz_with_pie in
  (supporterCount v', swingCount v', opponentCount v', emptyCount v') = ("Err", "Err", "Err", "Err") /\
  aff_chart v' = aff_chart viz_with_pie.
Proof.
  assert (H1 : affiliations (Agg (Prim JNull) Missing Missing) = Prim JNull) by reflexivity.
  assert (H2 : has_canvas (aff_chart viz_with_pie) = true) by reflexivity.
  split; [split; [exact H1|exact H2]|].
  exact (null_affiliations_err (fun z => to_js_string (JNum z)) EmptyString _ viz_with_pie H1 H2).
Defined.

(** Without the pie's canvas the same answer shows zeros. *)
Example null_affiliations_no_canvas :
  let v0 := Viz EmptyString EmptyString EmptyString EmptyString (Canvas false None) (Canvas false None) (Canvas false None) [] in
  supporterCount (exec (fetchVisualizationData (fun z => to_js_string (JNum z)) EmptyString
                          (Resp true (Some (Some (Agg (Prim JNull) Missing Missing))))) v0) = "0".
Proof. reflexivity. Qed.

(** ** The export *)

Lemma join_on_app sep xs ys :
  xs <> [] -> ys <> [] -> Filters.join_on sep (xs ++ ys) = Filters.join_on sep xs +s+ String sep (Filters.join_on sep ys).
Proof.
  intros Hx Hy. induction xs as [|x [|x' xs] IH]; [done| |].
  - simpl. by destruct ys.
  - change (Filters.join_on sep ((x :: x' :: xs) ++ ys)) with (x +s+ String sep (Filters.join_on sep ((x' :: xs) ++ ys))).
    change (Filters.join_on sep (x :: x' :: xs)) with (x +s+ String sep (Filters.join_on sep (x' :: xs))).
    rewrite IH by discriminate. rewrite str_app_assoc. reflexivity.
Qed.

(** The export asks for the filters' own query string followed by
    [page=1&per_page=100000]. *)
Theorem export_query_spec f :
  export_query f =
  match Filters.appended (Filters.filter_pairs f) with
  | [] => "page=1&per_page=100000"
  | _ => Filters.queryString f +s+ "&page=1&per_page=100000"
  end.
Proof.
  unfold export_query, Filters.queryString, Filters.serialize.
  destruct (Filters.appended _) as [|p ps]; [reflexivity|].
  rewrite map_app, join_on_app by (simpl; congruence). reflexivity.
Qed.

Lemma export_rows_objects rows : export_rows (BArray (map EObj rows)) = Some rows.
Proof.
  unfold export_rows. induction rows as [|o rows IH]; [done|]. simpl in *.
  destruct (mapM _ _); simplify_eq. done.
Qed.

(** A non-empty list of voters is downloaded as CsvExport's [jsonToCsv]
    of exactly those rows, in [voter_export.csv]; nothing is alerted. *)
Theorem exportVoters_downloads f rows x :
  rows <> [] ->
  exec (exportVoters true f (Resp true (Some (Some (BArray (map EObj rows)))))) x =
  Export (alerts x) (downloads x ++ [(Csv.jsonToCsv rows, "voter_export.csv")])
         (export_requests x ++ ["/api/candidate/voters?" +s+ export_query f]).
Proof.
  intros Hne. unfold exportVoters, downloadCsv. m_unfold. cbn -[export_rows Csv.jsonToCsv].
  rewrite bool_decide_false by (destruct rows; [done|]; simpl; intros [= ?]; lia).
  rewrite export_rows_objects. reflexivity.
Qed.

(** ** The two requests of a filter change *)

Lemma fetchVisualizationData_requested locale qs r v :
  requested (exec (fetchVisualizationData locale qs r) v) =
  requested v ++ ["/api/candidate/visualization?" +s+ qs].
Proof.
  unfold exec, fetchVisualizationData. rewrite (try_modify_frame requested).
  - reflexivity.
  - unfold count_text, renderAffiliationChart, renderIssueChart, renderGenderChart, draw.
    frame; intros; reflexivity.
  - intros e. frame; intros; reflexivity.
Qed.

(** The voter list's request is sent, and the charts are left alone. *)
Lemma load_voter_list_frame f rv s :
  a_requests (exec (load_voter_list f rv) s) = a_requests s ++ [Filters.voters_url f] /\
  a_viz (exec (load_voter_list f rv) s) = a_viz s.
Proof.
  unfold exec, load_voter_list. split.
  - rewrite (try_modify_frame a_requests); [reflexivity| |]; frame; intros; reflexivity.
  - rewrite (try_modify_frame a_viz); [reflexivity| |]; frame; intros; reflexivity.
Qed.

(** Applying the filters asks the voter list and the charts for the same
    query string, [Filters.queryString] of the filters: the list at
    [/api/candidate/voters], the charts at [/api/candidate/visualization],
    whether or not the list's request succeeds. *)
Theorem applyVoterFilters_same_query locale f rv rz a :
  let a' := exec (applyVoterFilters locale f rv rz) a in
  a_requests a' = a_requests a ++ [Filters.voters_url f] /\
  requested (a_viz a') = requested (a_viz a) ++ ["/api/candidate/visualization?" +s+ Filters.queryString f].
Proof.
  intros a'. unfold a', applyVoterFilters.
  destruct (load_voter_list_frame f rv (set_table None a)) as [Hr Hv].
  pose proof (fetchVisualizationData_requested locale (Filters.queryString f) rz (a_viz a)) as Hz.
  assert (Hok : fst (load_voter_list f rv (set_table None a)) = inr ()) by apply try_catch_modify_ok.
  unfold exec in *. cbv [mbind M_bind modify detach zoom]. simpl.
  destruct (load_voter_list f rv (set_table None a)) as [[e|[]] s1]; simpl in *; [discriminate|].
  rewrite Hv. destruct (fetchVisualizationData _ _ _ _) as [r t]; simpl in *. by split.
Qed.

(** Without the [download] attribute the export does nothing, and says
    nothing. *)
Example export_without_download :
  exec (exportVoters false Filters.youth_filters (Resp true (Some (Some (BArray [EObj {[ "Name" := JStr "Asha" ]}])))))
    (Export [] [] []) = Export [] [] ["/api/candidate/voters?" +s+ export_query Filters.youth_filters].
Proof. reflexivity. Qed.

End Charts.
