(* ===== verification/News.v ===== *)
(** * The news feed and the start-up of the candidate dashboard

    candidate.js 1-16 and 310-352.  The [DOMContentLoaded] listener shows
    the command centre, starts the activity feed and the news feed, then
    calls [loadElectionNews] and [loadBoothsForFilter].  [startNewsFeed]
    loads the news and sets a one-minute timer that reloads it;
    [loadNewsFeed] creates the news list inside the command-centre grid
    when the page has none, shows a loading line, fetches
    [/api/candidate/news] and shows an item per article (its link, title
    and date), a note when the list is empty, or an error line.

    The start-up is the sequence of its calls, run against the names the
    scripts define: a call of a name nothing defines throws a
    [ReferenceError] and ends the listener.  The news list is [None] while
    the page has no [#newsFeedList]; [toLocaleString] of a date is the
    Section variable [date_string].

    Proved: the listener throws at [loadElectionNews], which no script of
    the repository defines, so [loadBoothsForFilter] is never called; a
    news answer that is an object without [length] shows 'No recent news'
    rather than the error line. *)

From stdpp Require Import base list strings.
From Stdlib Require Import Ascii String ZArith Lia.
From S2P Require Import Prelude JsCore Effects.

Open Scope jp_scope.

Module News.

(** ** Start-up, 6-16 *)

(** The functions candidate.js declares. *)
Definition candidate_functions : list string :=
  ["showSection"; "loadCommandCenterData"; "loadOverdueTasks"; "loadBoothPerformance"; "loadTopIssues";
   "loadSegmentPerformance"; "startLiveActivityFeed"; "loadActivityFeed"; "addActivityItem"; "startNewsFeed";
   "loadNewsFeed"; "loadWardMap"; "applyVoterFilters"; "resetFilters"; "getAffiliationClass"; "saveSegment";
   "loadCampaignHub"; "loadSegments"; "showHubTab"; "loadBoothStrategy"; "openBoothModal"; "closeBoothModal";
   "deleteBooth"; "generateSlips"; "fetchVisualizationData"; "renderAffiliationChart"; "renderIssueChart";
   "renderGenderChart"; "exportVoters"; "jsonToCsv"; "downloadCsv"; "addMessage"; "sendToServer"].

(** The calls of the listener, in order. *)
Definition startup_calls : list string :=
  ["showSection"; "startLiveActivityFeed"; "startNewsFeed"; "loadElectionNews"; "loadBoothsForFilter"].

(** The calls made, and the name whose lookup threw. *)
Fixpoint run_calls (defined : list string) (calls : list string) : list string * option string :=
  match calls with
  | [] => ([], None)
  | f :: r =>
      if bool_decide (f ∈ defined) then let '(made, e) := run_calls defined r in (f :: made, e)
      else ([], Some f)
  end.

(** ** The news list, 311-352 *)

Record news := News { has_grid : bool; newsFeedList : option string; timers : nat }.

Section Feed.
Context (date_string : jsval -> string).

(** 338-346, the item's template as written. *)
Definition news_item (item : jelem) : option string :=
  published ← prop item "publishedAt"; url ← prop item "url"; title ← prop item "title";
  let date := if truthy published then date_string published else EmptyString in
  Some (nl +s+
    "                <li>" +s+ nl +s+
    "                    <a href=" +s+ quote (to_js_string url) +s+ " target=" +s+ quote "_blank" +s+ " rel=" +s+ quote "noopener" +s+ ">" +s+ nl +s+
    "                        " +s+ to_js_string title +s+ nl +s+
    "                    </a>" +s+ nl +s+
    "                    <br><small style=" +s+ quote "color:#6c757d;" +s+ ">" +s+ date +s+ "</small>" +s+ nl +s+
    "                </li>" +s+ nl +s+
    "            ").

Definition set_list (s : string) (n : news) : news := News (has_grid n) (Some s) (timers n).

(** 317-324: the list is created in [.command-center-grid]; without the
    grid [appendChild] is called on [null] and throws. *)
Definition ensure_list : M news unit :=
  n ← get_state;
  match newsFeedList n with
  | Some _ => mret ()
  | None => if has_grid n then modify (set_list EmptyString) else raise TypeError
  end.

(** 316-352 [loadNewsFeed]: [!newsItems.length] is the empty case. *)
Definition loadNewsFeed (r : fetch_response (jbody jelem)) : M news unit :=
  ensure_list ;;
  modify (set_list "<li>Loading news...</li>") ;;
  try_catch (items ← fetch_json "Failed to fetch news" r;
             len ← read (js_length items);
             if negb (truthy len) then modify (set_list "<li>No recent news</li>")
             else (l ← read (as_array items); ss ← read (mapM news_item l);
                   modify (set_list (String.concat EmptyString ss))))
    (fun _ => modify (set_list "<li>⚠️ Unable to load news feed</li>")).

(** 311-314 [startNewsFeed]: the first load is not awaited. *)
Definition startNewsFeed (r : fetch_response (jbody jelem)) : M news unit :=
  detach (loadNewsFeed r) ;; modify (fun n => News (has_grid n) (newsFeedList n) (S (timers n))).

End Feed.

(** ** What the start-up does *)

(** C25: Whatever else the page defines, as long as it defines the first three
    functions and not [loadElectionNews], the listener makes its first
    three calls and throws a ReferenceError at [loadElectionNews];
    [loadBoothsForFilter] is never reached. *)
Theorem startup_reference_error defined :
  "showSection" ∈ defined -> "startLiveActivityFeed" ∈ defined -> "startNewsFeed" ∈ defined ->
  "loadElectionNews" ∉ defined ->
  run_calls defined startup_calls =
    (["showSection"; "startLiveActivityFeed"; "startNewsFeed"], Some "loadElectionNews").
Proof.
  intros H1 H2 H3 H4. unfold startup_calls. cbn [run_calls].
  rewrite !bool_decide_true, bool_decide_false by done. reflexivity.
Qed.

(** candidate.js defines the three and not [loadElectionNews] (no script
    of the repository does). *)
Lemma startup_reference_error_witness :
  "showSection" ∈ candidate_functions /\ "startLiveActivityFeed" ∈ candidate_functions /\
  "startNewsFeed" ∈ candidate_functions /\ "loadElectionNews" ∉ candidate_functions /\
  run_calls candidate_functions startup_calls =
    (["showSection"; "startLiveActivityFeed"; "startNewsFeed"], Some "loadElectionNews").
Proof.
  assert (H1 : "showSection" ∈ candidate_functions) by (apply (bool_decide_unpack _); vm_compute; reflexivity).
  assert (H2 : "startLiveActivityFeed" ∈ candidate_functions) by (apply (bool_decide_unpack _); vm_compute; reflexivity).
  assert (H3 : "startNewsFeed" ∈ candidate_functions) by (apply (bool_decide_unpack _); vm_compute; reflexivity).
  assert (H4 : "loadElectionNews" ∉ candidate_functions) by (apply (bool_decide_unpack _); vm_compute; reflexivity).
  split; [exact H1|]. split; [exact H2|]. split; [exact H3|]. split; [exact H4|].
  exact (startup_reference_error candidate_functions H1 H2 H3 H4).
Defined.

(** [!newsItems.length] treats an object without [length] (an error
    body sent with status 200) as an empty list. *)
Example news_object_is_empty :
  newsFeedList (exec (loadNewsFeed (fun _ => EmptyString) (Resp true (Some (BObject {[ "error" := JStr "quota" ]}))))
                  (News true None 0)) = Some "<li>No recent news</li>".
Proof. reflexivity. Qed.

End News.
